(** * Interactive live-streaming control plane: a shallow embedding

    The Go packages [pkg/streaming] (stream keys, chat, reactions, VOD,
    analytics) and the stream-key, chat and VOD handlers of
    [pkg/service/streaming_api.go] are translated function by function.  Every engine takes its mutex for the
    whole body of an operation, so an operation is a function from the
    engine's state to a new state and an outcome.  Each call of [time.Now()]
    is an explicit argument (a clock reading in nanoseconds); background
    goroutines ([go func] timers, post-processing) are separate transitions. *)

From Stdlib Require Import ZArith String Ascii List Lia Bool DecimalString Sorted.
From Stdlib Require Import Floats.SpecFloat.
From stdpp Require Import base gmap strings list fin_maps sorting.

Local Open Scope Z_scope.

(** ** Go base types *)

(** [int] and [int64] are 64-bit two's complement; [wrap64] is the value an
    arithmetic result takes after overflow. *)
Definition min_int64 : Z := - 2 ^ 63.
Definition max_int64 : Z := 2 ^ 63 - 1.

Definition wrap64 (x : Z) : Z := (x + 2 ^ 63) mod 2 ^ 64 - 2 ^ 63.

Definition int_incr (x : Z) : Z := wrap64 (x + 1).
Definition int_decr (x : Z) : Z := wrap64 (x - 1).

(** [time.Time] as nanoseconds on the process clock, [time.Duration] as a
    signed 64-bit count of nanoseconds. *)
Definition Time := Z.
Definition Duration := Z.

Definition Nanosecond : Duration := 1.
Definition Second : Duration := 1000000000.
Definition Minute : Duration := 60 * Second.

(** [t.After(u)], [t.Before(u)], [t.Add(d)] and the saturating [t.Sub(u)]. *)
Definition After (t u : Time) : bool := u <? t.
Definition Before (t u : Time) : bool := t <? u.
Definition Add (t : Time) (d : Duration) : Time := t + d.
Definition Sub (t u : Time) : Duration :=
  if max_int64 <? t - u then max_int64
  else if t - u <? min_int64 then min_int64
  else t - u.

(** An operation returns a value, returns a Go [error], or panics. *)
Inductive outcome (E A : Type) : Type :=
| Ok (a : A)
| Err (e : E)
| Panic.
Arguments Ok {E A} a.
Arguments Err {E A} e.
Arguments Panic {E A}.

Definition is_ok {E A} (o : outcome E A) : bool :=
  match o with Ok _ => true | _ => false end.

(** [s[:n]] on a string: a run-time panic when [n] exceeds [len(s)]. *)
Definition slice_to (s : string) (n : nat) : option string :=
  if (n <=? String.length s)%nat then Some (substring 0 n s) else None.

(** Removal of the first occurrence of [k], the loop
    [for i, x := range l { if x == k { l = append(l[:i], l[i+1:]...); break } }];
    [None] when the loop ends without a match (no assignment happens). *)
Fixpoint remove_first (k : string) (l : list string) : option (list string) :=
  match l with
  | [] => None
  | x :: l' =>
      if decide (x = k) then Some l'
      else match remove_first k l' with
           | Some r => Some (x :: r)
           | None => None
           end
  end.

(** [encoding/hex]: two lower-case digits per byte. *)
Definition hex_digit (n : N) : ascii :=
  match n with
  | 0 => "0" | 1 => "1" | 2 => "2" | 3 => "3" | 4 => "4" | 5 => "5"
  | 6 => "6" | 7 => "7" | 8 => "8" | 9 => "9" | 10 => "a" | 11 => "b"
  | 12 => "c" | 13 => "d" | 14 => "e" | _ => "f"
  end%N%char.

Fixpoint hex_EncodeToString (bs : list Byte.byte) : string :=
  match bs with
  | [] => EmptyString
  | b :: bs' =>
      let n := Byte.to_N b in
      String (hex_digit (n / 16)) (String (hex_digit (n mod 16)) (hex_EncodeToString bs'))
  end.

(** ** Stream keys ([pkg/streaming/streamkey.go]) *)

Module StreamKeys.

Record StreamPermissions := {
  CanPublishVideo : bool;
  CanPublishAudio : bool;
  CanScreenShare : bool;
  CanRecord : bool;
  MaxViewers : Z;
  MaxDurationMins : Z;
  EnableChat : bool;
  EnableReactions : bool;
  EnableModeration : bool
}.

Record StreamKey := {
  Key : string;
  StreamerID : string;
  RoomName : string;
  IsActive : bool;
  CreatedAt : Time;
  ExpiresAt : option Time;
  Metadata : gmap string string;
  UsageCount : Z;
  LastUsedAt : option Time;
  Permissions : StreamPermissions
}.

Record StreamKeyManager := {
  keys : gmap string StreamKey;
  streamerKeys : gmap string (list string)
}.

(** The three [fmt.Errorf] of the manager, and a failed [rand.Read]. *)
Inductive KeyError :=
| ErrNotFound      (* "stream key not found" *)
| ErrInactive      (* "stream key is inactive" *)
| ErrExpired       (* "stream key has expired" *)
| ErrRandom.       (* "failed to generate random key: ..." *)

Definition NewStreamKeyManager : StreamKeyManager :=
  {| keys := ∅; streamerKeys := ∅ |}.

Definition defaultPermissions : StreamPermissions :=
  {| CanPublishVideo := true; CanPublishAudio := true; CanScreenShare := true;
     CanRecord := false; MaxViewers := 10000; MaxDurationMins := 180;
     EnableChat := true; EnableReactions := true; EnableModeration := true |}.

(** [keyBytes] is what [rand.Read] wrote into the 32-byte buffer ([None]: it
    returned an error); [nowCreated] and [nowExpiry] are the two clock
    readings of the body. *)
Definition GenerateStreamKey (m : StreamKeyManager) (keyBytes : option (list Byte.byte))
    (streamerID roomName : string) (permissions : option StreamPermissions)
    (expiresIn : option Duration) (nowCreated nowExpiry : Time)
  : StreamKeyManager * outcome KeyError StreamKey :=
  match keyBytes with
  | None => (m, Err ErrRandom)
  | Some bs =>
      let key := hex_EncodeToString bs in
      let perms := match permissions with Some p => p | None => defaultPermissions end in
      let streamKey :=
        {| Key := key; StreamerID := streamerID; RoomName := roomName;
           IsActive := true; CreatedAt := nowCreated;
           ExpiresAt := match expiresIn with
                        | Some d => Some (Add nowExpiry d)
                        | None => None
                        end;
           Metadata := ∅; UsageCount := 0; LastUsedAt := None;
           Permissions := perms |} in
      let m' :=
        {| keys := <[key := streamKey]> (keys m);
           streamerKeys :=
             <[streamerID := default [] (streamerKeys m !! streamerID) ++ [key]]>
               (streamerKeys m) |} in
      match slice_to key 8 with
      | Some _ => (m', Ok streamKey)
      | None => (m', Panic)
      end
  end.

Definition ValidateStreamKey (m : StreamKeyManager) (key : string) (now : Time)
  : outcome KeyError StreamKey :=
  match keys m !! key with
  | None => Err ErrNotFound
  | Some streamKey =>
      if negb (IsActive streamKey) then Err ErrInactive
      else
        match ExpiresAt streamKey with
        | Some e => if After now e then Err ErrExpired else Ok streamKey
        | None => Ok streamKey
        end
  end.

Definition MarkKeyAsUsed (m : StreamKeyManager) (key : string) (now : Time)
  : StreamKeyManager * outcome KeyError unit :=
  match keys m !! key with
  | None => (m, Err ErrNotFound)
  | Some sk =>
      let sk' :=
        {| Key := Key sk; StreamerID := StreamerID sk; RoomName := RoomName sk;
           IsActive := IsActive sk; CreatedAt := CreatedAt sk;
           ExpiresAt := ExpiresAt sk; Metadata := Metadata sk;
           UsageCount := int_incr (UsageCount sk); LastUsedAt := Some now;
           Permissions := Permissions sk |} in
      let m' := {| keys := <[key := sk']> (keys m); streamerKeys := streamerKeys m |} in
      match slice_to key 8 with
      | Some _ => (m', Ok tt)
      | None => (m', Panic)
      end
  end.

Definition deactivate (sk : StreamKey) : StreamKey :=
  {| Key := Key sk; StreamerID := StreamerID sk; RoomName := RoomName sk;
     IsActive := false; CreatedAt := CreatedAt sk;
     ExpiresAt := ExpiresAt sk; Metadata := Metadata sk;
     UsageCount := UsageCount sk; LastUsedAt := LastUsedAt sk;
     Permissions := Permissions sk |}.

Definition RevokeStreamKey (m : StreamKeyManager) (key : string)
  : StreamKeyManager * outcome KeyError unit :=
  match keys m !! key with
  | None => (m, Err ErrNotFound)
  | Some sk =>
      let m' := {| keys := <[key := deactivate sk]> (keys m);
                   streamerKeys := streamerKeys m |} in
      match slice_to key 8 with
      | Some _ => (m', Ok tt)
      | None => (m', Panic)
      end
  end.

Definition GetStreamKeysByStreamer (m : StreamKeyManager) (streamerID : string)
  : list StreamKey :=
  match streamerKeys m !! streamerID with
  | None => []
  | Some keyIDs => omap (fun keyID => keys m !! keyID) keyIDs
  end.

(** The index clean-up shared by [DeleteStreamKey] and [CleanupExpiredKeys]. *)
Definition unindex (streamerID key : string) (idx : gmap string (list string))
  : gmap string (list string) :=
  match remove_first key (default [] (idx !! streamerID)) with
  | Some l' => <[streamerID := l']> idx
  | None => idx
  end.

Definition DeleteStreamKey (m : StreamKeyManager) (key : string)
  : StreamKeyManager * outcome KeyError unit :=
  match keys m !! key with
  | None => (m, Err ErrNotFound)
  | Some sk =>
      let m' := {| keys := delete key (keys m);
                   streamerKeys := unindex (StreamerID sk) key (streamerKeys m) |} in
      match slice_to key 8 with
      | Some _ => (m', Ok tt)
      | None => (m', Panic)
      end
  end.

Definition UpdateStreamKeyMetadata (m : StreamKeyManager) (key : string)
    (metadata : gmap string string)
  : StreamKeyManager * outcome KeyError unit :=
  match keys m !! key with
  | None => (m, Err ErrNotFound)
  | Some sk =>
      let sk' :=
        {| Key := Key sk; StreamerID := StreamerID sk; RoomName := RoomName sk;
           IsActive := IsActive sk; CreatedAt := CreatedAt sk;
           ExpiresAt := ExpiresAt sk; Metadata := metadata ∪ Metadata sk;
           UsageCount := UsageCount sk; LastUsedAt := LastUsedAt sk;
           Permissions := Permissions sk |} in
      ({| keys := <[key := sk']> (keys m); streamerKeys := streamerKeys m |}, Ok tt)
  end.

Definition expired (now : Time) (sk : StreamKey) : bool :=
  match ExpiresAt sk with
  | Some e => After now e
  | None => false
  end.

(** One iteration of the [range m.keys] loop of [CleanupExpiredKeys]. *)
Definition cleanup_entry (now : Time) (entry : string * StreamKey)
    (acc : StreamKeyManager * Z) : StreamKeyManager * Z :=
  let '(m, count) := acc in
  let '(key, sk) := entry in
  if expired now sk then
    ({| keys := delete key (keys m);
        streamerKeys := unindex (StreamerID sk) key (streamerKeys m) |},
     int_incr count)
  else (m, count).

Definition CleanupExpiredKeys (m : StreamKeyManager) (now : Time)
  : StreamKeyManager * Z :=
  foldr (cleanup_entry now) (m, 0) (map_to_list (keys m)).

(** [time.Since(t) < 5*time.Minute] per key, each with its own clock reading
    in the source; one reading [now] stands for the whole scan. *)
Definition GetActiveStreamCount (m : StreamKeyManager) (now : Time) : Z :=
  foldr (fun (entry : string * StreamKey) count =>
           match LastUsedAt entry.2 with
           | Some u =>
               if IsActive entry.2 && (Sub now u <? 5 * Minute)
               then int_incr count else count
           | None => count
           end) 0 (map_to_list (keys m)).

(** Every call a client of the manager can make, with the clock readings
    and random bytes it consumes. *)
Inductive call :=
| CallGenerate (keyBytes : option (list Byte.byte)) (streamerID roomName : string)
    (permissions : option StreamPermissions) (expiresIn : option Duration)
    (nowCreated nowExpiry : Time)
| CallValidate (key : string) (now : Time)
| CallMarkUsed (key : string) (now : Time)
| CallRevoke (key : string)
| CallList (streamerID : string)
| CallDelete (key : string)
| CallUpdateMetadata (key : string) (metadata : gmap string string)
| CallCleanup (now : Time)
| CallCount (now : Time).

(** The manager state a call leaves behind (also when it fails or panics:
    the deferred unlock runs and the manager stays in use). *)
Definition exec (m : StreamKeyManager) (c : call) : StreamKeyManager :=
  match c with
  | CallGenerate kb s r p e n1 n2 => (GenerateStreamKey m kb s r p e n1 n2).1
  | CallValidate _ _ => m
  | CallMarkUsed k now => (MarkKeyAsUsed m k now).1
  | CallRevoke k => (RevokeStreamKey m k).1
  | CallList _ => m
  | CallDelete k => (DeleteStreamKey m k).1
  | CallUpdateMetadata k md => (UpdateStreamKeyMetadata m k md).1
  | CallCleanup now => (CleanupExpiredKeys m now).1
  | CallCount _ => m
  end.

Definition exec_all (m : StreamKeyManager) (cs : list call) : StreamKeyManager :=
  foldl exec m cs.

(** A later [GenerateStreamKey] draws the key [k] again. *)
Definition draws (k : string) (c : call) : bool :=
  match c with
  | CallGenerate (Some bs) _ _ _ _ _ _ => bool_decide (hex_EncodeToString bs = k)
  | _ => false
  end.

Definition removes (k : string) (c : call) : bool :=
  match c with
  | CallDelete k' => bool_decide (k' = k)
  | CallCleanup _ => true
  | _ => false
  end.

(** Sample run: [alice] generates a key for room [r1] at time 1000, valid
    for one hour; the later calls mark it used, generate a second key, attach
    metadata, validate it and count the active streams. *)
Definition zeroBytes : list Byte.byte := repeat Byte.x00 32.
Definition oneBytes : list Byte.byte := repeat Byte.x01 32.
Definition hour : Duration := 3600 * Second.

Definition m1 : StreamKeyManager :=
  (GenerateStreamKey NewStreamKeyManager (Some zeroBytes) "alice" "r1" None
     (Some hour) 1000 1000).1.

Definition k1 : string := hex_EncodeToString zeroBytes.

Definition later_calls : list call :=
  [CallMarkUsed k1 3000;
   CallGenerate (Some oneBytes) "alice" "r1" None None 4000 4000;
   CallUpdateMetadata k1 {[ "note" := "revoked" ]};
   CallValidate k1 5000;
   CallCount 6000].

(** Every stored key carries its own name and is listed in the index of its
    streamer. *)
Definition indexed (m : StreamKeyManager) : Prop :=
  forall k sk, keys m !! k = Some sk ->
    Key sk = k /\ In k (default [] (streamerKeys m !! StreamerID sk)).

End StreamKeys.

(** ** Chat ([ChatService]) *)

(** [fmt.Sprintf("%d", n)]. *)
Definition format_int (n : Z) : string :=
  DecimalString.NilZero.string_of_int (Z.to_int n).

(** [t.UnixNano()]: the clock is counted in nanoseconds since the epoch. *)
Definition UnixNano (t : Time) : Z := wrap64 t.

Module Chat.

(** [ChatMessageType] is a Go string type; the surface passes any string. *)
Definition ChatMessageType := string.
Definition ChatMessageTypeText : ChatMessageType := "text".
Definition ChatMessageTypeEmoji : ChatMessageType := "emoji".
Definition ChatMessageTypeSystemNotice : ChatMessageType := "system".
Definition ChatMessageTypeGift : ChatMessageType := "gift".
Definition ChatMessageTypeJoinLeave : ChatMessageType := "join_leave".

Record ChatMessage := {
  ID : string;
  RoomName : string;
  SenderID : string;
  SenderName : string;
  Content : string;
  Timestamp : Time;
  MessageType : ChatMessageType;
  Metadata : gmap string string;
  Emojis : list string;
  MentionedUsers : list string;
  IsDeleted : bool;
  IsModerated : bool;
  ReplyTo : option string
}.

Record ChatParticipant := {
  Identity : string;
  Name : string;
  IsModerator : bool;
  IsMuted : bool;
  JoinedAt : Time;
  MessageCount : Z
}.

Record ChatRoomSettings := {
  MaxMessageLength : Z;
  MaxMessagesPerMin : Z;
  EnableEmojis : bool;
  EnableMentions : bool;
  EnableModeration : bool;
  SlowModeDelay : Duration;
  RequireVerification : bool;
  EnableBadWords : bool
}.

Record ChatRoom := {
  roomName : string;
  Messages : list ChatMessage;
  Participants : gmap string ChatParticipant;
  Moderators : gmap string bool;
  BannedUsers : gmap string Time;
  CreatedAt : Time;
  Settings : ChatRoomSettings
}.

(** The registered message handlers only receive copies of the pointer on
    detached goroutines; they are not part of the engine's state. *)
Record ChatService := {
  rooms : gmap string ChatRoom;
  badWords : list string
}.

Inductive ChatError :=
| ErrRoomExists            (* "chat room already exists" *)
| ErrRoomNotFound          (* "chat room not found" *)
| ErrBanned (until : Time) (* "user is banned until %v" *)
| ErrNotInRoom             (* "participant not in chat room" *)
| ErrMuted                 (* "participant is muted" *)
| ErrTooLong               (* "message too long" *)
| ErrRateLimit             (* "rate limit exceeded" *)
| ErrSlowMode              (* "slow mode active, please wait" *)
| ErrNotModerator          (* "user is not a moderator" *)
| ErrMessageNotFound       (* "message not found" *)
| ErrParticipantNotFound.  (* "participant not found" *)

Definition NewChatService : ChatService :=
  {| rooms := ∅; badWords := ["spam"; "badword1"; "badword2"]%string |}.

Definition defaultSettings : ChatRoomSettings :=
  {| MaxMessageLength := 500; MaxMessagesPerMin := 20; EnableEmojis := true;
     EnableMentions := true; EnableModeration := true; SlowModeDelay := 0;
     RequireVerification := false; EnableBadWords := true |}.

Definition set_room (cs : ChatService) (name : string) (room : ChatRoom) : ChatService :=
  {| rooms := <[name := room]> (rooms cs); badWords := badWords cs |}.

Definition with_Messages (room : ChatRoom) (msgs : list ChatMessage) : ChatRoom :=
  {| roomName := roomName room; Messages := msgs; Participants := Participants room;
     Moderators := Moderators room; BannedUsers := BannedUsers room;
     CreatedAt := CreatedAt room; Settings := Settings room |}.

Definition with_Participants (room : ChatRoom) (ps : gmap string ChatParticipant) : ChatRoom :=
  {| roomName := roomName room; Messages := Messages room; Participants := ps;
     Moderators := Moderators room; BannedUsers := BannedUsers room;
     CreatedAt := CreatedAt room; Settings := Settings room |}.

Definition with_Moderators (room : ChatRoom) (mods : gmap string bool) : ChatRoom :=
  {| roomName := roomName room; Messages := Messages room;
     Participants := Participants room; Moderators := mods;
     BannedUsers := BannedUsers room; CreatedAt := CreatedAt room;
     Settings := Settings room |}.

Definition with_BannedUsers (room : ChatRoom) (bans : gmap string Time) : ChatRoom :=
  {| roomName := roomName room; Messages := Messages room;
     Participants := Participants room; Moderators := Moderators room;
     BannedUsers := bans; CreatedAt := CreatedAt room; Settings := Settings room |}.

Definition with_IsMuted (p : ChatParticipant) (muted : bool) : ChatParticipant :=
  {| Identity := Identity p; Name := Name p; IsModerator := IsModerator p;
     IsMuted := muted; JoinedAt := JoinedAt p; MessageCount := MessageCount p |}.

Definition bump_MessageCount (p : ChatParticipant) : ChatParticipant :=
  {| Identity := Identity p; Name := Name p; IsModerator := IsModerator p;
     IsMuted := IsMuted p; JoinedAt := JoinedAt p;
     MessageCount := int_incr (MessageCount p) |}.

Definition mark_deleted (m : ChatMessage) : ChatMessage :=
  {| ID := ID m; RoomName := RoomName m; SenderID := SenderID m;
     SenderName := SenderName m; Content := Content m; Timestamp := Timestamp m;
     MessageType := MessageType m; Metadata := Metadata m; Emojis := Emojis m;
     MentionedUsers := MentionedUsers m; IsDeleted := true; IsModerated := true;
     ReplyTo := ReplyTo m |}.

Definition CreateChatRoom (cs : ChatService) (name : string)
    (settings : option ChatRoomSettings) (now : Time)
  : ChatService * outcome ChatError ChatRoom :=
  match rooms cs !! name with
  | Some _ => (cs, Err ErrRoomExists)
  | None =>
      let room :=
        {| roomName := name; Messages := []; Participants := ∅; Moderators := ∅;
           BannedUsers := ∅; CreatedAt := now;
           Settings := match settings with Some s => s | None => defaultSettings end |} in
      (set_room cs name room, Ok room)
  end.

Definition systemMessage (name : string) (content : string) (nowID nowStamp : Time)
  : ChatMessage :=
  {| ID := "sys-" +:+ format_int (UnixNano nowID); RoomName := name;
     SenderID := "system"; SenderName := "System"; Content := content;
     Timestamp := nowStamp; MessageType := ChatMessageTypeJoinLeave;
     Metadata := ∅; Emojis := []; MentionedUsers := []; IsDeleted := false;
     IsModerated := false; ReplyTo := None |}.

(** Clock readings of [JoinChatRoom], in program order. *)
Record JoinClock := { jBan : Time; jJoined : Time; jID : Time; jStamp : Time }.

Definition JoinChatRoom (cs : ChatService) (name participantID participantName : string)
    (isModerator : bool) (clk : JoinClock)
  : ChatService * outcome ChatError unit :=
  match rooms cs !! name with
  | None => (cs, Err ErrRoomNotFound)
  | Some room =>
      let banned_now :=
        match BannedUsers room !! participantID with
        | Some banExpiry => if Before (jBan clk) banExpiry then Some banExpiry else None
        | None => None
        end in
      match banned_now with
      | Some banExpiry => (cs, Err (ErrBanned banExpiry))
      | None =>
          let participant :=
            {| Identity := participantID; Name := participantName;
               IsModerator := isModerator; IsMuted := false;
               JoinedAt := jJoined clk; MessageCount := 0 |} in
          let systemMsg :=
            systemMessage name (participantName +:+ " joined the chat")
              (jID clk) (jStamp clk) in
          let room' :=
            {| roomName := roomName room;
               Messages := Messages room ++ [systemMsg];
               Participants := <[participantID := participant]> (Participants room);
               Moderators := if isModerator
                             then <[participantID := true]> (Moderators room)
                             else Moderators room;
               BannedUsers := delete participantID (BannedUsers room);
               CreatedAt := CreatedAt room; Settings := Settings room |} in
          (set_room cs name room', Ok tt)
      end
  end.

Definition LeaveChatRoom (cs : ChatService) (name participantID : string)
    (nowID nowStamp : Time)
  : ChatService * outcome ChatError unit :=
  match rooms cs !! name with
  | None => (cs, Err ErrRoomNotFound)
  | Some room =>
      match Participants room !! participantID with
      | None => (cs, Err ErrNotInRoom)
      | Some participant =>
          let systemMsg :=
            systemMessage name (Name participant +:+ " left the chat") nowID nowStamp in
          let room' :=
            {| roomName := roomName room;
               Messages := Messages room ++ [systemMsg];
               Participants := delete participantID (Participants room);
               Moderators := delete participantID (Moderators room);
               BannedUsers := BannedUsers room;
               CreatedAt := CreatedAt room; Settings := Settings room |} in
          (set_room cs name room', Ok tt)
      end
  end.

(** The backwards scan of [countRecentMessages] over the log, newest
    message first: it stops at the first message older than the cut-off.
    The counter is bounded by the length of the slice, so it cannot wrap. *)
Fixpoint count_back (cutoff : Time) (senderID : string) (newest_first : list ChatMessage) : Z :=
  match newest_first with
  | [] => 0
  | msg :: older =>
      if Before (Timestamp msg) cutoff then 0
      else (if decide (SenderID msg = senderID) then 1 else 0)
           + count_back cutoff senderID older
  end.

Definition countRecentMessages (room : ChatRoom) (senderID : string)
    (duration : Duration) (now : Time) : Z :=
  count_back (Add now (- duration)) senderID (rev (Messages room)).

Definition getLastMessage (room : ChatRoom) (senderID : string) : option ChatMessage :=
  List.find (fun msg => bool_decide (SenderID msg = senderID)) (rev (Messages room)).

Definition replaceWord (content word : string) : string := content.

Definition filterBadWords (cs : ChatService) (content : string) : string :=
  fold_left replaceWord (badWords cs) content.

(** The slow-mode test of [SendMessage]:
    [SlowModeDelay > 0], and the sender's last message, if any, is younger
    than the delay ([time.Since(lastMsg.Timestamp) < SlowModeDelay]). *)
Definition slowModeActive (room : ChatRoom) (senderID : string) (now : Time) : bool :=
  (0 <? SlowModeDelay (Settings room))
  && match getLastMessage room senderID with
     | Some lastMsg => Sub now (Timestamp lastMsg) <? SlowModeDelay (Settings room)
     | None => false
     end.

(** Clock readings of [SendMessage], in program order: the implicit
    participant's [JoinedAt], the cut-off of the rate limit, [time.Since] of
    slow mode, the id and the time stamp of the message. *)
Record SendClock := {
  sJoined : Time; sCount : Time; sSince : Time; sID : Time; sStamp : Time
}.

(** "Auto-create participant if not exists": the sender's record and the
    room after the implicit registration at the head of [SendMessage]. *)
Definition registered (room0 : ChatRoom) (senderID : string) (clk : SendClock)
  : ChatParticipant * ChatRoom :=
  match Participants room0 !! senderID with
  | Some p => (p, room0)
  | None =>
      let p := {| Identity := senderID; Name := senderID; IsModerator := false;
                  IsMuted := false; JoinedAt := sJoined clk; MessageCount := 0 |} in
      (p, with_Participants room0 (<[senderID := p]> (Participants room0)))
  end.

Definition SendMessage (cs : ChatService) (name senderID content : string)
    (messageType : ChatMessageType) (mentionedUsers : list string)
    (replyTo : option string) (clk : SendClock)
  : ChatService * outcome ChatError ChatMessage :=
  match rooms cs !! name with
  | None => (cs, Err ErrRoomNotFound)
  | Some room0 =>
      let '(participant, room) := registered room0 senderID clk in
      let cs1 := set_room cs name room in
      if IsMuted participant then (cs1, Err ErrMuted)
      else if MaxMessageLength (Settings room) <? Z.of_nat (String.length content)
      then (cs1, Err ErrTooLong)
      else if MaxMessagesPerMin (Settings room)
                <=? countRecentMessages room senderID Minute (sCount clk)
      then (cs1, Err ErrRateLimit)
      else if slowModeActive room senderID (sSince clk)
      then (cs1, Err ErrSlowMode)
      else
        let content' :=
          if EnableBadWords (Settings room) then filterBadWords cs content else content in
        let message :=
          {| ID := "msg-" +:+ format_int (UnixNano (sID clk)) +:+ "-" +:+ senderID;
             RoomName := name; SenderID := senderID; SenderName := Name participant;
             Content := content'; Timestamp := sStamp clk; MessageType := messageType;
             Metadata := ∅; Emojis := []; MentionedUsers := mentionedUsers;
             IsDeleted := false; IsModerated := false; ReplyTo := replyTo |} in
        let room' :=
          {| roomName := roomName room;
             Messages := Messages room ++ [message];
             Participants := <[senderID := bump_MessageCount participant]> (Participants room);
             Moderators := Moderators room; BannedUsers := BannedUsers room;
             CreatedAt := CreatedAt room; Settings := Settings room |} in
        (set_room cs name room', Ok message)
  end.

(** [msg.IsDeleted = true] on the first message of the log with that id. *)
Fixpoint delete_first (messageID : string) (msgs : list ChatMessage)
  : option (list ChatMessage) :=
  match msgs with
  | [] => None
  | msg :: rest =>
      if decide (ID msg = messageID) then Some (mark_deleted msg :: rest)
      else match delete_first messageID rest with
           | Some rest' => Some (msg :: rest')
           | None => None
           end
  end.

Definition DeleteMessage (cs : ChatService) (name messageID moderatorID : string)
  : ChatService * outcome ChatError unit :=
  match rooms cs !! name with
  | None => (cs, Err ErrRoomNotFound)
  | Some room =>
      if negb (default false (Moderators room !! moderatorID))
      then (cs, Err ErrNotModerator)
      else match delete_first messageID (Messages room) with
           | Some msgs => (set_room cs name (with_Messages room msgs), Ok tt)
           | None => (cs, Err ErrMessageNotFound)
           end
  end.

(** [MuteParticipant]; when [duration > 0] it also starts the goroutine
    modelled by [unmuteTimer] below, which fires once [duration] has passed. *)
Definition MuteParticipant (cs : ChatService) (name participantID moderatorID : string)
    (duration : Duration)
  : ChatService * outcome ChatError unit :=
  match rooms cs !! name with
  | None => (cs, Err ErrRoomNotFound)
  | Some room =>
      if negb (default false (Moderators room !! moderatorID))
      then (cs, Err ErrNotModerator)
      else match Participants room !! participantID with
           | None => (cs, Err ErrParticipantNotFound)
           | Some participant =>
               (set_room cs name
                  (with_Participants room
                     (<[participantID := with_IsMuted participant true]> (Participants room))),
                Ok tt)
           end
  end.

(** The body of the goroutine of [MuteParticipant] after its [time.Sleep].
    It holds a pointer to the room it was started for, so it acts on that
    room whatever the service's map says by then; here: the room of that
    name. *)
Definition unmuteTimer (cs : ChatService) (name participantID : string) : ChatService :=
  match rooms cs !! name with
  | None => cs
  | Some room =>
      match Participants room !! participantID with
      | Some p =>
          set_room cs name
            (with_Participants room
               (<[participantID := with_IsMuted p false]> (Participants room)))
      | None => cs
      end
  end.

Definition BanParticipant (cs : ChatService) (name participantID moderatorID : string)
    (duration : Duration) (now : Time)
  : ChatService * outcome ChatError unit :=
  match rooms cs !! name with
  | None => (cs, Err ErrRoomNotFound)
  | Some room =>
      if negb (default false (Moderators room !! moderatorID))
      then (cs, Err ErrNotModerator)
      else
        let banExpiry := Add now duration in
        let room' :=
          {| roomName := roomName room; Messages := Messages room;
             Participants := delete participantID (Participants room);
             Moderators := Moderators room;
             BannedUsers := <[participantID := banExpiry]> (BannedUsers room);
             CreatedAt := CreatedAt room; Settings := Settings room |} in
        (set_room cs name room', Ok tt)
  end.

(** The loop of [GetMessages] over the log, newest first, with the number
    of results still wanted. *)
Fixpoint collect (limit : Z) (beforeTimestamp : option Time)
    (newest_first : list ChatMessage) (found : list ChatMessage) : list ChatMessage :=
  match newest_first with
  | [] => found
  | msg :: older =>
      if Z.of_nat (length found) <? limit then
        let keep :=
          match beforeTimestamp with
          | None => true
          | Some b => Before (Timestamp msg) b
          end && negb (IsDeleted msg) in
        collect limit beforeTimestamp older (if keep then found ++ [msg] else found)
      else found
  end.

Definition GetMessages (cs : ChatService) (name : string) (limit : Z)
    (beforeTimestamp : option Time) : outcome ChatError (list ChatMessage) :=
  match rooms cs !! name with
  | None => Err ErrRoomNotFound
  | Some room => Ok (collect limit beforeTimestamp (rev (Messages room)) [])
  end.

(** [strings.Contains]-style occurrence test, used to state what the
    bad-word filter leaves in a message. *)
Fixpoint contains (s word : string) : bool :=
  String.prefix word s
  || match s with
     | EmptyString => false
     | String _ s' => contains s' word
     end.

Definition has_bad_word (cs : ChatService) (content : string) : bool :=
  existsb (contains content) (badWords cs).

(** A [send] request of one sender and the clock readings its call takes. *)
Record send := {
  sContent : string; sType : ChatMessageType; sMentions : list string;
  sReply : option string; sClock : SendClock
}.

Definition do_send (cs : ChatService) (name senderID : string) (q : send)
  : ChatService * outcome ChatError ChatMessage :=
  SendMessage cs name senderID (sContent q) (sType q) (sMentions q) (sReply q) (sClock q).

(** Sends of one sender served one after the other; their outcomes in order. *)
Fixpoint send_all (cs : ChatService) (name senderID : string) (qs : list send)
  : ChatService * list (outcome ChatError ChatMessage) :=
  match qs with
  | [] => (cs, [])
  | q :: qs' =>
      let '(cs1, o) := do_send cs name senderID q in
      let '(cs2, os) := send_all cs1 name senderID qs' in
      (cs2, o :: os)
  end.

Definition stamps (qs : list send) : list Time :=
  (fun q => sStamp (sClock q)) <$> qs.

(** The content of a request respects the room's length limit. *)
Definition fits (room : ChatRoom) (q : send) : Prop :=
  Z.of_nat (String.length (sContent q)) <= MaxMessageLength (Settings room).

(** Time stamps that never decrease along a list: what a clock that does
    not run backwards writes into a log. *)
Definition nondecreasing (ts : list Time) : Prop := StronglySorted Z.le ts.

(** The number of messages of [senderID] in the log stamped at or after
    [cutoff]: the sender's messages in the trailing window. *)
Definition in_window (senderID : string) (cutoff : Time) (msg : ChatMessage) : bool :=
  bool_decide (SenderID msg = senderID) && negb (Before (Timestamp msg) cutoff).

Definition recent_count (room : ChatRoom) (senderID : string) (cutoff : Time) : Z :=
  Z.of_nat (length (List.filter (in_window senderID cutoff) (Messages room))).

(** The time stamps of a room's log, oldest first (empty for a room that
    does not exist). *)
Definition log_of (cs : ChatService) (name : string) : list Time :=
  Timestamp <$> default [] (Messages <$> rooms cs !! name).

(** The sender is allowed to speak: its participant record, if there is
    one, is not muted. *)
Definition not_muted (room : ChatRoom) (senderID : string) : Prop :=
  forall p, Participants room !! senderID = Some p -> IsMuted p = false.

(** Sample rooms: [r2] admits two messages per minute; [lobby] has the
    default settings and a moderator [mod] who joined at time 10 and muted
    [bob], who had joined at time 20. *)
Definition twoPerMinute : ChatRoomSettings :=
  {| MaxMessageLength := 500; MaxMessagesPerMin := 2; EnableEmojis := true;
     EnableMentions := true; EnableModeration := true; SlowModeDelay := 0;
     RequireVerification := false; EnableBadWords := true |}.

Definition cs_r2 : ChatService :=
  (CreateChatRoom NewChatService "r2" (Some twoPerMinute) 0).1.

Definition at_time (t : Time) : SendClock :=
  {| sJoined := t; sCount := t; sSince := t; sID := t; sStamp := t |}.

Definition say (content : string) (t : Time) : send :=
  {| sContent := content; sType := ChatMessageTypeText; sMentions := [];
     sReply := None; sClock := at_time t |}.

Definition cs_lobby : ChatService :=
  let cs0 := (CreateChatRoom NewChatService "lobby" None 0).1 in
  let cs1 := (JoinChatRoom cs0 "lobby" "mod" "Mod" true
                {| jBan := 10; jJoined := 10; jID := 10; jStamp := 10 |}).1 in
  let cs2 := (JoinChatRoom cs1 "lobby" "bob" "Bob" false
                {| jBan := 20; jJoined := 20; jID := 20; jStamp := 20 |}).1 in
  cs2.

Definition cs_lobby_muted : ChatService :=
  (MuteParticipant cs_lobby "lobby" "bob" "mod" 0).1.

Definition long_text : string := String.concat "" (repeat "0123456789"%string 60).

Definition room_r2 : ChatRoom :=
  {| roomName := "r2"; Messages := []; Participants := ∅; Moderators := ∅;
     BannedUsers := ∅; CreatedAt := 0; Settings := twoPerMinute |}.

Definition two_sends : list send := [say "hello" 1000; say "again" 2000].

(** The test of the loop of [GetMessages] on one message. *)
Definition visible (beforeTimestamp : option Time) (msg : ChatMessage) : bool :=
  match beforeTimestamp with
  | None => true
  | Some b => Before (Timestamp msg) b
  end && negb (IsDeleted msg).

(** The calls of the chat engine, with the clock readings each one takes;
    [CallUnmuteTimer] is the firing of a timer started by [MuteParticipant]. *)
Inductive call :=
| CallCreate (name : string) (settings : option ChatRoomSettings) (now : Time)
| CallJoin (name participantID participantName : string) (isModerator : bool)
    (clk : JoinClock)
| CallLeave (name participantID : string) (nowID nowStamp : Time)
| CallSend (name senderID : string) (q : send)
| CallDelete (name messageID moderatorID : string)
| CallMute (name participantID moderatorID : string) (duration : Duration)
| CallUnmuteTimer (name participantID : string)
| CallBan (name participantID moderatorID : string) (duration : Duration) (now : Time).

Definition exec (cs : ChatService) (c : call) : ChatService :=
  match c with
  | CallCreate name settings now => (CreateChatRoom cs name settings now).1
  | CallJoin name who display isModerator clk =>
      (JoinChatRoom cs name who display isModerator clk).1
  | CallLeave name who nowID nowStamp => (LeaveChatRoom cs name who nowID nowStamp).1
  | CallSend name senderID q => (do_send cs name senderID q).1
  | CallDelete name messageID moderatorID => (DeleteMessage cs name messageID moderatorID).1
  | CallMute name who moderatorID duration =>
      (MuteParticipant cs name who moderatorID duration).1
  | CallUnmuteTimer name who => unmuteTimer cs name who
  | CallBan name who moderatorID duration now =>
      (BanParticipant cs name who moderatorID duration now).1
  end.

Definition exec_all (cs : ChatService) (calls : list call) : ChatService :=
  foldl exec cs calls.

(** A later state of a log: the old messages in place, each as it was or
    marked as deleted, followed by the messages appended since. *)
Definition marked (m m' : ChatMessage) : Prop := m' = m \/ m' = mark_deleted m.

Definition extends (old new : list ChatMessage) : Prop :=
  exists old' extra, new = old' ++ extra /\ Forall2 marked old old'.

(** The call is a [LeaveChatRoom] of [who] in room [name]. *)
Definition leaves (name who : string) (c : call) : bool :=
  match c with
  | CallLeave name' who' _ _ => bool_decide (name' = name) && bool_decide (who' = who)
  | _ => false
  end.

(** The participant record that [SendMessage] creates for an unknown sender. *)
Definition implicit_participant (senderID : string) (joined : Time) : ChatParticipant :=
  {| Identity := senderID; Name := senderID; IsModerator := false; IsMuted := false;
     JoinedAt := joined; MessageCount := 0 |}.

(** The sample lobby after [bob] said hello at time 30. *)
Definition cs_lobby_said : ChatService :=
  (do_send cs_lobby "lobby" "bob" (say "hello" 30)).1.

(** A run in the sample lobby: the moderator bans themself, joins again as
    a plain participant once the ban is over, [bob] speaks and the
    moderator deletes the message. *)
Definition lobby_calls : list call :=
  [CallBan "lobby" "mod" "mod" 1000 50;
   CallJoin "lobby" "mod" "Mod" false
     {| jBan := 2000; jJoined := 2000; jID := 2000; jStamp := 2000 |};
   CallSend "lobby" "bob" (say "hi" 3000);
   CallDelete "lobby" "msg-3000-bob" "mod"].

End Chat.

(** ** Reactions ([pkg/streaming/reactions.go]) *)

Module Reactions.

Definition ReactionType := string.

Record ReactionPosition := { X : spec_float; Y : spec_float }.

Record Reaction := {
  ID : string;
  RoomName : string;
  UserID : string;
  UserName : string;
  Type_ : ReactionType;
  Timestamp : Time;
  Metadata : gmap string string;
  Position : option ReactionPosition
}.

Record TopReactor := {
  trUserID : string;
  trUserName : string;
  ReactionCount : Z
}.

Record ReactionStats := {
  TotalReactions : Z;
  ReactionCounts : gmap string Z;
  TopReactors : list TopReactor;
  RecentReactions : list Reaction;
  LastUpdated : Time
}.

Record RateLimit := {
  LastReaction : Time;
  Count : Z;
  WindowStart : Time
}.

Record ReactionRoom := {
  roomName : string;
  Reactions : list Reaction;
  Stats : ReactionStats;
  UserReactions : gmap string (list Reaction);
  RateLimits : gmap string RateLimit;
  CreatedAt : Time
}.

Record ReactionConfig := {
  MaxReactionsPerMinute : Z;
  MaxReactionsPerSecond : Z;
  ReactionTTL : Duration;
  EnableRateLimit : bool;
  EnableAnimation : bool;
  MaxRecentReactions : Z;
  EnableLeaderboard : bool
}.

Record ReactionService := {
  rooms : gmap string ReactionRoom;
  config : ReactionConfig
}.

Inductive ReactionError :=
| ErrRoomExists     (* "reaction room already exists" *)
| ErrRoomNotFound   (* "reaction room not found" *)
| ErrPerSecond      (* "rate limit exceeded: too many reactions per second" *)
| ErrPerMinute.     (* "rate limit exceeded: too many reactions per minute" *)

Definition defaultConfig : ReactionConfig :=
  {| MaxReactionsPerMinute := 60; MaxReactionsPerSecond := 3;
     ReactionTTL := 5 * Minute; EnableRateLimit := true; EnableAnimation := true;
     MaxRecentReactions := 100; EnableLeaderboard := true |}.

Definition NewReactionService (cfg : option ReactionConfig) : ReactionService :=
  {| rooms := ∅; config := match cfg with Some c => c | None => defaultConfig end |}.

Definition emptyRoom (name : string) (nowCreated nowStats : Time) : ReactionRoom :=
  {| roomName := name; Reactions := []; UserReactions := ∅; RateLimits := ∅;
     CreatedAt := nowCreated;
     Stats := {| TotalReactions := 0; ReactionCounts := ∅; TopReactors := [];
                 RecentReactions := []; LastUpdated := nowStats |} |}.

Definition set_room (rs : ReactionService) (name : string) (room : ReactionRoom)
  : ReactionService :=
  {| rooms := <[name := room]> (rooms rs); config := config rs |}.

Definition CreateReactionRoom (rs : ReactionService) (name : string)
    (nowCreated nowStats : Time)
  : ReactionService * outcome ReactionError ReactionRoom :=
  match rooms rs !! name with
  | Some _ => (rs, Err ErrRoomExists)
  | None =>
      let room := emptyRoom name nowCreated nowStats in
      (set_room rs name room, Ok room)
  end.

(** [checkRateLimit]: [a / b] on integers truncates and panics when [b] is 0. *)
Definition checkRateLimit (cfg : ReactionConfig) (room : ReactionRoom)
    (userID : string) (now : Time) : outcome ReactionError unit :=
  match RateLimits room !! userID with
  | None => Ok tt
  | Some rateLimit =>
      if MaxReactionsPerSecond cfg =? 0 then Panic
      else if Sub now (LastReaction rateLimit) <? Second ÷ MaxReactionsPerSecond cfg
      then Err ErrPerSecond
      else if (Sub now (WindowStart rateLimit) <? Minute)
              && (MaxReactionsPerMinute cfg <=? Count rateLimit)
      then Err ErrPerMinute
      else Ok tt
  end.

Definition updateRateLimit (limits : gmap string RateLimit) (userID : string)
    (now : Time) : gmap string RateLimit :=
  let rateLimit :=
    match limits !! userID with
    | Some rl => rl
    | None => {| LastReaction := 0; Count := 0; WindowStart := now |}
    end in
  let '(windowStart, count) :=
    if Minute <=? Sub now (WindowStart rateLimit) then (now, 0)
    else (WindowStart rateLimit, Count rateLimit) in
  <[userID := {| LastReaction := now; Count := int_incr count;
                 WindowStart := windowStart |}]> limits.

(** The inner loop of the leaderboard sort for one position [i]: [held] is
    [topReactors[i]], swapped with every later entry of larger count. *)
Fixpoint sort_pass (held : TopReactor) (rest : list TopReactor)
  : TopReactor * list TopReactor :=
  match rest with
  | [] => (held, [])
  | x :: rest' =>
      if ReactionCount held <? ReactionCount x then
        let '(h, r) := sort_pass x rest' in (h, held :: r)
      else
        let '(h, r) := sort_pass held rest' in (h, x :: r)
  end.

Fixpoint sort_desc (n : nat) (l : list TopReactor) : list TopReactor :=
  match n, l with
  | S n', x :: rest => let '(h, r) := sort_pass x rest in h :: sort_desc n' r
  | _, _ => l
  end.

(** [updateTopReactors].  Go visits the keys of [userCounts] in an
    unspecified order; the order of [map_to_list] stands for it. *)
Definition updateTopReactors (cfg : ReactionConfig)
    (userReactions : gmap string (list Reaction)) (old : list TopReactor)
  : list TopReactor :=
  if negb (EnableLeaderboard cfg) then old
  else
    let entries :=
      (fun e : string * list Reaction =>
         {| trUserID := e.1;
            trUserName := match e.2 with r :: _ => UserName r | [] => "" end;
            ReactionCount := Z.of_nat (length e.2) |})
        <$> map_to_list userReactions in
    take 10 (sort_desc (length entries) entries).

(** Clock readings of [SendReaction], in program order: two for a room
    created on the fly, the rate-limit check, the id, the time stamp, the
    stats' [LastUpdated], and [updateRateLimit]. *)
Record ReactClock := {
  rCreated : Time; rStatsInit : Time; rCheck : Time; rID : Time;
  rStamp : Time; rUpdated : Time; rLimit : Time
}.

(** The part of [SendReaction] under the room's write lock.  With a negative
    [MaxRecentReactions] the slice expression [recent[:max]] panics; the
    room then keeps what was written before it. *)
Definition appendReaction (cfg : ReactionConfig) (room : ReactionRoom)
    (name userID userName : string) (reactionType : ReactionType)
    (position : option ReactionPosition) (clk : ReactClock)
  : ReactionRoom * option Reaction :=
  let reaction :=
    {| ID := "reaction-" +:+ format_int (UnixNano (rID clk)) +:+ "-" +:+ userID;
       RoomName := name; UserID := userID; UserName := userName;
       Type_ := reactionType; Timestamp := rStamp clk; Position := position;
       Metadata := ∅ |} in
  let userReactions :=
    <[userID := default [] (UserReactions room !! userID) ++ [reaction]]>
      (UserReactions room) in
  let total := int_incr (TotalReactions (Stats room)) in
  let counts :=
    <[reactionType := int_incr (default 0 (ReactionCounts (Stats room) !! reactionType))]>
      (ReactionCounts (Stats room)) in
  let recent := reaction :: RecentReactions (Stats room) in
  let truncated :=
    if MaxRecentReactions cfg <? Z.of_nat (length recent)
    then match MaxRecentReactions cfg with
         | Z.neg _ => None
         | n => Some (take (Z.to_nat n) recent)
         end
    else Some recent in
  match truncated with
  | None =>
      ({| roomName := roomName room;
          Reactions := Reactions room ++ [reaction];
          Stats := {| TotalReactions := total; ReactionCounts := counts;
                      TopReactors := TopReactors (Stats room);
                      RecentReactions := recent;
                      LastUpdated := LastUpdated (Stats room) |};
          UserReactions := userReactions;
          RateLimits := RateLimits room;
          CreatedAt := CreatedAt room |}, None)
  | Some recent' =>
      ({| roomName := roomName room;
          Reactions := Reactions room ++ [reaction];
          Stats := {| TotalReactions := total; ReactionCounts := counts;
                      TopReactors :=
                        updateTopReactors cfg userReactions (TopReactors (Stats room));
                      RecentReactions := recent';
                      LastUpdated := rUpdated clk |};
          UserReactions := userReactions;
          RateLimits := updateRateLimit (RateLimits room) userID (rLimit clk);
          CreatedAt := CreatedAt room |}, Some reaction)
  end.

(** [SendReaction], run without another call on the same room in between
    its rate-limit check and its append. *)
Definition SendReaction (rs : ReactionService) (name userID userName : string)
    (reactionType : ReactionType) (position : option ReactionPosition)
    (clk : ReactClock)
  : ReactionService * outcome ReactionError Reaction :=
  let '(rs1, room) :=
    match rooms rs !! name with
    | Some room => (rs, room)
    | None =>
        let room := emptyRoom name (rCreated clk) (rStatsInit clk) in
        (set_room rs name room, room)
    end in
  let checked :=
    if EnableRateLimit (config rs)
    then checkRateLimit (config rs) room userID (rCheck clk)
    else Ok tt in
  match checked with
  | Err e => (rs1, Err e)
  | Panic => (rs1, Panic)
  | Ok _ =>
      match appendReaction (config rs) room name userID userName reactionType
              position clk with
      | (room', Some reaction) => (set_room rs1 name room', Ok reaction)
      | (room', None) => (set_room rs1 name room', Panic)
      end
  end.

Definition GetReactionStats (rs : ReactionService) (name : string)
  : outcome ReactionError ReactionStats :=
  match rooms rs !! name with
  | None => Err ErrRoomNotFound
  | Some room => Ok (Stats room)
  end.

Definition GetRecentReactions (rs : ReactionService) (name : string) (limit : Z)
  : outcome ReactionError (list Reaction) :=
  match rooms rs !! name with
  | None => Err ErrRoomNotFound
  | Some room => Ok (take (Z.to_nat limit) (rev (Reactions room)))
  end.

Definition GetUserReactions (rs : ReactionService) (name userID : string)
  : outcome ReactionError (list Reaction) :=
  match rooms rs !! name with
  | None => Err ErrRoomNotFound
  | Some room => Ok (default [] (UserReactions room !! userID))
  end.

Definition GetTopReactors (rs : ReactionService) (name : string) (limit : Z)
  : outcome ReactionError (list TopReactor) :=
  match rooms rs !! name with
  | None => Err ErrRoomNotFound
  | Some room =>
      let top := TopReactors (Stats room) in
      if limit <? Z.of_nat (length top)
      then match limit with
           | Z.neg _ => Panic
           | n => Ok (take (Z.to_nat n) top)
           end
      else Ok top
  end.

Definition fresh (cutoff : Time) (r : Reaction) : bool := After (Timestamp r) cutoff.

Definition sweepRoom (cutoff : Time) (room : ReactionRoom) : ReactionRoom :=
  {| roomName := roomName room;
     Reactions := List.filter (fresh cutoff) (Reactions room);
     Stats := Stats room;
     UserReactions := List.filter (fresh cutoff) <$> UserReactions room;
     RateLimits := RateLimits room;
     CreatedAt := CreatedAt room |}.

(** [time.Now().Add(-rs.config.ReactionTTL)]: the negation is the one of
    [int64], so the smallest duration is its own negative. *)
Definition CleanupOldReactions (rs : ReactionService) (now : Time)
  : ReactionService * Z :=
  let cutoff := Add now (wrap64 (- ReactionTTL (config rs))) in
  ({| rooms := sweepRoom cutoff <$> rooms rs; config := config rs |},
   foldr (fun (e : string * ReactionRoom) n =>
            Z.of_nat (length (List.filter (fun r => negb (fresh cutoff r)) (Reactions e.2))) + n)
         0 (map_to_list (rooms rs))).

Definition DeleteReactionRoom (rs : ReactionService) (name : string) : ReactionService :=
  {| rooms := delete name (rooms rs); config := config rs |}.

(** One [send_reaction] request of a client: who reacts, and the clock
    readings the call takes. *)
Record request := {
  reqUser : string; reqName : string; reqType : ReactionType;
  reqPosition : option ReactionPosition; reqClock : ReactClock
}.

(** Requests served one after the other on room [name]; the outcomes in
    request order. *)
Fixpoint serve (rs : ReactionService) (name : string) (reqs : list request)
  : ReactionService * list (outcome ReactionError Reaction) :=
  match reqs with
  | [] => (rs, [])
  | q :: reqs' =>
      let '(rs1, o) :=
        SendReaction rs name (reqUser q) (reqName q) (reqType q) (reqPosition q)
          (reqClock q) in
      let '(rs2, os) := serve rs1 name reqs' in
      (rs2, o :: os)
  end.

Definition succeeded (os : list (outcome ReactionError Reaction)) : nat :=
  length (List.filter is_ok os).

Definition rate_limited (o : outcome ReactionError Reaction) : bool :=
  match o with
  | Err ErrPerSecond | Err ErrPerMinute => true
  | _ => false
  end.

(** All clock readings of a request lie in the interval [[t0, t0 + d]]. *)
Definition issued_within (t0 : Time) (d : Duration) (q : request) : Prop :=
  t0 <= rCheck (reqClock q) /\ rCheck (reqClock q) <= t0 + d
  /\ t0 <= rLimit (reqClock q) /\ rLimit (reqClock q) <= t0 + d.

(** The sender has not reacted in the room yet. *)
Definition first_time (rs : ReactionService) (name userID : string) : Prop :=
  forall room, rooms rs !! name = Some room -> RateLimits room !! userID = None.

(** Sample: four hearts from [alice] in room [r4] of a service with the
    default configuration, 30 ms apart. *)
Definition millisecond : Duration := 1000000.

Definition tick (t : Time) : ReactClock :=
  {| rCreated := t; rStatsInit := t; rCheck := t; rID := t; rStamp := t;
     rUpdated := t; rLimit := t |}.

Definition heart (t : Time) : request :=
  {| reqUser := "alice"; reqName := "Alice"; reqType := "heart";
     reqPosition := None; reqClock := tick t |}.

Definition four_hearts : list request :=
  [heart 0; heart (30 * millisecond); heart (60 * millisecond); heart (90 * millisecond)].

Definition rs0 : ReactionService := NewReactionService None.

(** A leaderboard in the order of [updateTopReactors]: no entry has a
    larger count than an entry before it. *)
Definition descending (board : list TopReactor) : Prop :=
  StronglySorted (fun a b => ReactionCount b <= ReactionCount a) board.

Definition by_user (userID : string) (r : Reaction) : bool :=
  bool_decide (UserID r = userID).

(** The calls of the reaction engine. *)
Inductive call :=
| CallCreate (name : string) (nowCreated nowStats : Time)
| CallSend (name userID userName : string) (reactionType : ReactionType)
    (position : option ReactionPosition) (clk : ReactClock)
| CallCleanup (now : Time)
| CallDeleteRoom (name : string).

Definition exec (rs : ReactionService) (c : call) : ReactionService :=
  match c with
  | CallCreate name nowCreated nowStats => (CreateReactionRoom rs name nowCreated nowStats).1
  | CallSend name userID userName reactionType position clk =>
      (SendReaction rs name userID userName reactionType position clk).1
  | CallCleanup now => (CleanupOldReactions rs now).1
  | CallDeleteRoom name => DeleteReactionRoom rs name
  end.

Definition exec_all (rs : ReactionService) (calls : list call) : ReactionService :=
  foldl exec rs calls.

(** The per-user index of a room agrees with the room's log. *)
Definition indexed_by_user (room : ReactionRoom) : Prop :=
  forall u, default [] (UserReactions room !! u) = List.filter (by_user u) (Reactions room).

(** Sample: the reactions stored for two users. *)
Definition clap (userID userName : string) (t : Time) : Reaction :=
  {| ID := "reaction-" +:+ format_int (UnixNano t) +:+ "-" +:+ userID;
     RoomName := "r4"; UserID := userID; UserName := userName; Type_ := "clap";
     Timestamp := t; Metadata := ∅; Position := None |}.

Definition two_fans : gmap string (list Reaction) :=
  <["alice" := [clap "alice" "Alice" 10]]>
    (<["bob" := [clap "bob" "Bob" 20; clap "bob" "Bob" 30]]> ∅).

(** The state of a room that the calls maintain, under configuration [cfg]. *)
Definition room_ok (cfg : ReactionConfig) (room : ReactionRoom) : Prop :=
  indexed_by_user room
  /\ (0 <= MaxRecentReactions cfg ->
      Z.of_nat (length (RecentReactions (Stats room))) <= MaxRecentReactions cfg)
  /\ descending (TopReactors (Stats room))
  /\ (length (TopReactors (Stats room)) <= 10)%nat.

Definition rooms_ok (rs : ReactionService) : Prop :=
  forall name room, rooms rs !! name = Some room -> room_ok (config rs) room.

(** A run of the sample room: three claps of [bob] and one of [alice], a
    second apart, then a sweep. *)
Definition clap_call (userID userName : string) (t : Time) : call :=
  CallSend "r4" userID userName "clap" None (tick t).

Definition fan_calls : list call :=
  [clap_call "bob" "Bob" (1 * Second); clap_call "alice" "Alice" (2 * Second);
   clap_call "bob" "Bob" (3 * Second); clap_call "bob" "Bob" (4 * Second);
   CallCleanup (10 * Second)].

(** Sample: a service that admits two reactions per minute, and three
    hearts of [alice], a second apart. *)
Definition twoPerMinute : ReactionConfig :=
  {| MaxReactionsPerMinute := 2; MaxReactionsPerSecond := 3;
     ReactionTTL := 5 * Minute; EnableRateLimit := true; EnableAnimation := true;
     MaxRecentReactions := 100; EnableLeaderboard := true |}.

Definition three_hearts : list request :=
  [heart (1 * Second); heart (2 * Second); heart (3 * Second)].

(** Sample: a configuration whose [ReactionTTL] is the smallest duration. *)
Definition smallestTTL : ReactionConfig :=
  {| MaxReactionsPerMinute := 60; MaxReactionsPerSecond := 3;
     ReactionTTL := min_int64; EnableRateLimit := true; EnableAnimation := true;
     MaxRecentReactions := 100; EnableLeaderboard := true |}.

End Reactions.

(** ** IEEE binary64 ([float64]) *)

Definition prec64 : Z := 53.
Definition emax64 : Z := 1024.

(** [float64(n)] for an integer [n]: round to nearest, ties to even. *)
Definition float64_of_int (n : Z) : spec_float :=
  binary_normalize prec64 emax64 n 0 false.

Definition float64_mul : spec_float -> spec_float -> spec_float := SFmul prec64 emax64.
Definition float64_div : spec_float -> spec_float -> spec_float := SFdiv prec64 emax64.
Definition float64_add : spec_float -> spec_float -> spec_float := SFadd prec64 emax64.

(** [x >= y] on floats. *)
Definition float64_ge (x y : spec_float) : bool := SFleb y x.

(** The constant [0.95]: the double nearest to 19/20. *)
Definition const_0_95 : spec_float := S754_finite false 8556839292003942 (-53).

(** ** Recordings and playback ([VODService]) *)

Module VOD.

Inductive VODStatus :=
| VODStatusRecording
| VODStatusProcessing
| VODStatusReady
| VODStatusFailed
| VODStatusArchived
| VODStatusDeleted.

#[global] Instance VODStatus_eq_dec : EqDecision VODStatus.
Proof. solve_decision. Defined.

Record VODRecording := {
  ID : string;
  RoomName : string;
  StreamerID : string;
  StreamerName : string;
  Title : string;
  Description : string;
  ThumbnailURL : string;
  VideoURL : string;
  FileSize : Z;
  Duration_ : Duration;
  Resolution : string;
  Bitrate : Z;
  Status : VODStatus;
  ViewCount : Z;
  LikeCount : Z;
  ShareCount : Z;
  RecordedAt : Time;
  PublishedAt : option Time;
  ExpiresAt : option Time;
  IsPublic : bool;
  Tags : list string;
  Category : string;
  Language : string;
  Metadata : gmap string string;
  AverageViewDuration : Duration;
  PeakViewers : Z;
  ChatMessageCount : Z;
  ReactionCount : Z
}.

Record VODPlaybackSession := {
  sessionID : string;
  RecordingID : string;
  UserID : string;
  StartedAt : Time;
  LastHeartbeat : Time;
  CurrentPosition : Duration;
  WatchDuration : Duration;
  Completed : bool;
  Quality : string
}.

Record VODConfig := {
  StoragePath : string;
  MaxRecordingSize : Z;
  DefaultRetentionDays : Z;
  AutoPublish : bool;
  GenerateThumbnails : bool;
  EnableTranscoding : bool;
  TranscodingQualities : list string;
  SessionTimeout : Duration;
  EnableAnalytics : bool
}.

Record VODService := {
  recordings : gmap string VODRecording;
  streamerRecordings : gmap string (list string);
  playbackSessions : gmap string VODPlaybackSession;
  config : VODConfig
}.

Inductive VODError :=
| ErrRecordingNotFound   (* "recording not found" *)
| ErrNotRecording        (* "recording is not in recording status" *)
| ErrNotReady            (* "recording is not ready" *)
| ErrNotReadyForPlayback (* "recording is not ready for playback" *)
| ErrNotPublic           (* "recording is not public" *)
| ErrSessionNotFound.    (* "session not found" *)

Definition defaultConfig : VODConfig :=
  {| StoragePath := "/var/livekit/recordings";
     MaxRecordingSize := 10 * 1024 * 1024 * 1024;
     DefaultRetentionDays := 30; AutoPublish := false; GenerateThumbnails := true;
     EnableTranscoding := true;
     TranscodingQualities := ["1080p"; "720p"; "480p"; "360p"]%string;
     SessionTimeout := 5 * Minute; EnableAnalytics := true |}.

Definition NewVODService (cfg : option VODConfig) : VODService :=
  {| recordings := ∅; streamerRecordings := ∅; playbackSessions := ∅;
     config := match cfg with Some c => c | None => defaultConfig end |}.

Definition with_recordings (vs : VODService) (recs : gmap string VODRecording) : VODService :=
  {| recordings := recs; streamerRecordings := streamerRecordings vs;
     playbackSessions := playbackSessions vs; config := config vs |}.

Definition with_sessions (vs : VODService) (ss : gmap string VODPlaybackSession) : VODService :=
  {| recordings := recordings vs; streamerRecordings := streamerRecordings vs;
     playbackSessions := ss; config := config vs |}.

(** Field updates of a recording, one per assignment in the source. *)
Definition stopped (r : VODRecording) (duration : Duration) (fileSize : Z) : VODRecording :=
  {| ID := ID r; RoomName := RoomName r; StreamerID := StreamerID r;
     StreamerName := StreamerName r; Title := Title r; Description := Description r;
     ThumbnailURL := ThumbnailURL r; VideoURL := VideoURL r; FileSize := fileSize;
     Duration_ := duration; Resolution := Resolution r; Bitrate := Bitrate r;
     Status := VODStatusProcessing; ViewCount := ViewCount r; LikeCount := LikeCount r;
     ShareCount := ShareCount r; RecordedAt := RecordedAt r;
     PublishedAt := PublishedAt r; ExpiresAt := ExpiresAt r; IsPublic := IsPublic r;
     Tags := Tags r; Category := Category r; Language := Language r;
     Metadata := Metadata r; AverageViewDuration := AverageViewDuration r;
     PeakViewers := PeakViewers r; ChatMessageCount := ChatMessageCount r;
     ReactionCount := ReactionCount r |}.

Definition processed (r : VODRecording) (thumbnail video : string)
    (published : option Time) : VODRecording :=
  {| ID := ID r; RoomName := RoomName r; StreamerID := StreamerID r;
     StreamerName := StreamerName r; Title := Title r; Description := Description r;
     ThumbnailURL := thumbnail; VideoURL := video; FileSize := FileSize r;
     Duration_ := Duration_ r; Resolution := Resolution r; Bitrate := Bitrate r;
     Status := VODStatusReady; ViewCount := ViewCount r; LikeCount := LikeCount r;
     ShareCount := ShareCount r; RecordedAt := RecordedAt r;
     PublishedAt := published; ExpiresAt := ExpiresAt r; IsPublic := IsPublic r;
     Tags := Tags r; Category := Category r; Language := Language r;
     Metadata := Metadata r; AverageViewDuration := AverageViewDuration r;
     PeakViewers := PeakViewers r; ChatMessageCount := ChatMessageCount r;
     ReactionCount := ReactionCount r |}.

Definition published (r : VODRecording) (now : Time) : VODRecording :=
  {| ID := ID r; RoomName := RoomName r; StreamerID := StreamerID r;
     StreamerName := StreamerName r; Title := Title r; Description := Description r;
     ThumbnailURL := ThumbnailURL r; VideoURL := VideoURL r; FileSize := FileSize r;
     Duration_ := Duration_ r; Resolution := Resolution r; Bitrate := Bitrate r;
     Status := Status r; ViewCount := ViewCount r; LikeCount := LikeCount r;
     ShareCount := ShareCount r; RecordedAt := RecordedAt r;
     PublishedAt := Some now; ExpiresAt := ExpiresAt r; IsPublic := true;
     Tags := Tags r; Category := Category r; Language := Language r;
     Metadata := Metadata r; AverageViewDuration := AverageViewDuration r;
     PeakViewers := PeakViewers r; ChatMessageCount := ChatMessageCount r;
     ReactionCount := ReactionCount r |}.

Definition with_views (r : VODRecording) (views : Z) (average : Duration) : VODRecording :=
  {| ID := ID r; RoomName := RoomName r; StreamerID := StreamerID r;
     StreamerName := StreamerName r; Title := Title r; Description := Description r;
     ThumbnailURL := ThumbnailURL r; VideoURL := VideoURL r; FileSize := FileSize r;
     Duration_ := Duration_ r; Resolution := Resolution r; Bitrate := Bitrate r;
     Status := Status r; ViewCount := views; LikeCount := LikeCount r;
     ShareCount := ShareCount r; RecordedAt := RecordedAt r;
     PublishedAt := PublishedAt r; ExpiresAt := ExpiresAt r; IsPublic := IsPublic r;
     Tags := Tags r; Category := Category r; Language := Language r;
     Metadata := Metadata r; AverageViewDuration := average;
     PeakViewers := PeakViewers r; ChatMessageCount := ChatMessageCount r;
     ReactionCount := ReactionCount r |}.

Definition described (r : VODRecording) (title description : option string)
    (tags : option (list string)) (category : option string) : VODRecording :=
  {| ID := ID r; RoomName := RoomName r; StreamerID := StreamerID r;
     StreamerName := StreamerName r; Title := default (Title r) title;
     Description := default (Description r) description;
     ThumbnailURL := ThumbnailURL r; VideoURL := VideoURL r; FileSize := FileSize r;
     Duration_ := Duration_ r; Resolution := Resolution r; Bitrate := Bitrate r;
     Status := Status r; ViewCount := ViewCount r; LikeCount := LikeCount r;
     ShareCount := ShareCount r; RecordedAt := RecordedAt r;
     PublishedAt := PublishedAt r; ExpiresAt := ExpiresAt r; IsPublic := IsPublic r;
     Tags := default (Tags r) tags; Category := default (Category r) category;
     Language := Language r; Metadata := Metadata r;
     AverageViewDuration := AverageViewDuration r; PeakViewers := PeakViewers r;
     ChatMessageCount := ChatMessageCount r; ReactionCount := ReactionCount r |}.

Definition with_Metadata (r : VODRecording) (md : gmap string string) : VODRecording :=
  {| ID := ID r; RoomName := RoomName r; StreamerID := StreamerID r;
     StreamerName := StreamerName r; Title := Title r; Description := Description r;
     ThumbnailURL := ThumbnailURL r; VideoURL := VideoURL r; FileSize := FileSize r;
     Duration_ := Duration_ r; Resolution := Resolution r; Bitrate := Bitrate r;
     Status := Status r; ViewCount := ViewCount r; LikeCount := LikeCount r;
     ShareCount := ShareCount r; RecordedAt := RecordedAt r;
     PublishedAt := PublishedAt r; ExpiresAt := ExpiresAt r; IsPublic := IsPublic r;
     Tags := Tags r; Category := Category r; Language := Language r;
     Metadata := md; AverageViewDuration := AverageViewDuration r;
     PeakViewers := PeakViewers r; ChatMessageCount := ChatMessageCount r;
     ReactionCount := ReactionCount r |}.

(** Clock readings of [StartRecording]: the id, [RecordedAt], and
    [stExpires], the value of [time.Now().AddDate(0, 0, DefaultRetentionDays)]
    (a calendar computation of the time package). *)
Record StartClock := { stID : Time; stRecorded : Time; stExpires : Time }.

Definition recordingID (streamerID : string) (clk : StartClock) : string :=
  "rec-" +:+ format_int (UnixNano (stID clk)) +:+ "-" +:+ streamerID.

Definition StartRecording (vs : VODService) (roomName streamerID streamerName title : string)
    (clk : StartClock) : VODService * outcome VODError VODRecording :=
  let id := recordingID streamerID clk in
  let recording :=
    {| ID := id; RoomName := roomName; StreamerID := streamerID;
       StreamerName := streamerName; Title := title; Description := "";
       ThumbnailURL := ""; VideoURL := ""; FileSize := 0; Duration_ := 0;
       Resolution := ""; Bitrate := 0; Status := VODStatusRecording;
       ViewCount := 0; LikeCount := 0; ShareCount := 0;
       RecordedAt := stRecorded clk; PublishedAt := None;
       ExpiresAt := if 0 <? DefaultRetentionDays (config vs)
                    then Some (stExpires clk) else None;
       IsPublic := AutoPublish (config vs); Tags := []; Category := "";
       Language := ""; Metadata := ∅; AverageViewDuration := 0; PeakViewers := 0;
       ChatMessageCount := 0; ReactionCount := 0 |} in
  ({| recordings := <[id := recording]> (recordings vs);
      streamerRecordings :=
        <[streamerID := default [] (streamerRecordings vs !! streamerID) ++ [id]]>
          (streamerRecordings vs);
      playbackSessions := playbackSessions vs; config := config vs |},
   Ok recording).

(** [StopRecording]; on success it also starts [processRecording] on its own
    goroutine. *)
Definition StopRecording (vs : VODService) (id : string) (duration : Duration)
    (fileSize : Z) : VODService * outcome VODError unit :=
  match recordings vs !! id with
  | None => (vs, Err ErrRecordingNotFound)
  | Some recording =>
      if negb (bool_decide (Status recording = VODStatusRecording))
      then (vs, Err ErrNotRecording)
      else (with_recordings vs (<[id := stopped recording duration fileSize]> (recordings vs)),
            Ok tt)
  end.

(** The end of [processRecording], five seconds after it looked the
    recording up: the goroutine writes through the pointer it fetched, which
    is the catalog's entry as long as that entry was not deleted meanwhile. *)
Definition processRecording (vs : VODService) (id : string) (now : Time) : VODService :=
  match recordings vs !! id with
  | None => vs
  | Some recording =>
      let thumbnail :=
        if GenerateThumbnails (config vs)
        then "/thumbnails/" +:+ id +:+ ".jpg" else ThumbnailURL recording in
      let video := "/videos/" +:+ id +:+ ".mp4" in
      let pub := if AutoPublish (config vs) then Some now else PublishedAt recording in
      with_recordings vs (<[id := processed recording thumbnail video pub]> (recordings vs))
  end.

Definition PublishRecording (vs : VODService) (id : string) (now : Time)
  : VODService * outcome VODError unit :=
  match recordings vs !! id with
  | None => (vs, Err ErrRecordingNotFound)
  | Some recording =>
      if negb (bool_decide (Status recording = VODStatusReady))
      then (vs, Err ErrNotReady)
      else (with_recordings vs (<[id := published recording now]> (recordings vs)), Ok tt)
  end.

Definition GetRecording (vs : VODService) (id : string) : outcome VODError VODRecording :=
  match recordings vs !! id with
  | None => Err ErrRecordingNotFound
  | Some recording => Ok recording
  end.

(** [ListRecordingsByStreamer]: a negative capacity of [make] and a negative
    index are run-time panics. *)
Definition ListRecordingsByStreamer (vs : VODService) (streamerID : string)
    (limit offset : Z) : outcome VODError (list VODRecording) :=
  match streamerRecordings vs !! streamerID with
  | None => Ok []
  | Some ids =>
      let n := Z.of_nat (length ids) in
      if n <=? offset then Ok []
      else
        let stop := if n <? wrap64 (offset + limit) then n else wrap64 (offset + limit) in
        if stop - offset <? 0 then Panic
        else if (offset <? 0) && (offset <? stop) then Panic
        else Ok (omap (fun id => recordings vs !! id)
                   (take (Z.to_nat (stop - offset)) (drop (Z.to_nat offset) ids)))
  end.

Record PlayClock := { pID : Time; pStarted : Time; pHeartbeat : Time }.

Definition StartPlaybackSession (vs : VODService) (id userID quality : string)
    (clk : PlayClock) : VODService * outcome VODError VODPlaybackSession :=
  match recordings vs !! id with
  | None => (vs, Err ErrRecordingNotFound)
  | Some recording =>
      if negb (bool_decide (Status recording = VODStatusReady))
      then (vs, Err ErrNotReadyForPlayback)
      else if negb (IsPublic recording) then (vs, Err ErrNotPublic)
      else
        let sid := "session-" +:+ format_int (UnixNano (pID clk)) +:+ "-" +:+ userID in
        let session :=
          {| sessionID := sid; RecordingID := id; UserID := userID;
             StartedAt := pStarted clk; LastHeartbeat := pHeartbeat clk;
             CurrentPosition := 0; WatchDuration := 0; Completed := false;
             Quality := quality |} in
        ({| recordings :=
              <[id := with_views recording (int_incr (ViewCount recording))
                        (AverageViewDuration recording)]> (recordings vs);
            streamerRecordings := streamerRecordings vs;
            playbackSessions := <[sid := session]> (playbackSessions vs);
            config := config vs |}, Ok session)
  end.

(** [float64(position) >= float64(recording.Duration)*0.95]. *)
Definition watched_95 (position duration : Duration) : bool :=
  float64_ge (float64_of_int position)
             (float64_mul (float64_of_int duration) const_0_95).

Definition UpdatePlaybackSession (vs : VODService) (sid : string) (position : Duration)
    (now : Time) : VODService * outcome VODError unit :=
  match playbackSessions vs !! sid with
  | None => (vs, Err ErrSessionNotFound)
  | Some session =>
      let completed :=
        match recordings vs !! RecordingID session with
        | Some recording =>
            if (0 <? Duration_ recording) && watched_95 position (Duration_ recording)
            then true else Completed session
        | None => Completed session
        end in
      let session' :=
        {| sessionID := sessionID session; RecordingID := RecordingID session;
           UserID := UserID session; StartedAt := StartedAt session;
           LastHeartbeat := now; CurrentPosition := position;
           WatchDuration := Sub now (StartedAt session);
           Completed := completed; Quality := Quality session |} in
      (with_sessions vs (<[sid := session']> (playbackSessions vs)), Ok tt)
  end.

Definition EndPlaybackSession (vs : VODService) (sid : string)
  : VODService * outcome VODError unit :=
  match playbackSessions vs !! sid with
  | None => (vs, Err ErrSessionNotFound)
  | Some session =>
      let recs :=
        match recordings vs !! RecordingID session with
        | Some recording =>
            let totalSessions := ViewCount recording in
            if 0 <? totalSessions then
              let totalDuration :=
                wrap64 (AverageViewDuration recording * wrap64 (totalSessions - 1)) in
              <[RecordingID session :=
                  with_views recording (ViewCount recording)
                    (wrap64 (totalDuration + WatchDuration session) ÷ totalSessions)]>
                (recordings vs)
            else recordings vs
        | None => recordings vs
        end in
      ({| recordings := recs; streamerRecordings := streamerRecordings vs;
          playbackSessions := delete sid (playbackSessions vs);
          config := config vs |}, Ok tt)
  end.

Definition unindex (streamerID id : string) (idx : gmap string (list string))
  : gmap string (list string) :=
  match remove_first id (default [] (idx !! streamerID)) with
  | Some l' => <[streamerID := l']> idx
  | None => idx
  end.

Definition DeleteRecording (vs : VODService) (id : string)
  : VODService * outcome VODError unit :=
  match recordings vs !! id with
  | None => (vs, Err ErrRecordingNotFound)
  | Some recording =>
      ({| recordings := delete id (recordings vs);
          streamerRecordings := unindex (StreamerID recording) id (streamerRecordings vs);
          playbackSessions := playbackSessions vs; config := config vs |}, Ok tt)
  end.

Definition recording_expired (now : Time) (r : VODRecording) : bool :=
  match ExpiresAt r with
  | Some e => After now e
  | None => false
  end.

Definition CleanupExpiredRecordings (vs : VODService) (now : Time) : VODService * Z :=
  (with_recordings vs (filter (fun e => recording_expired now e.2 = false) (recordings vs)),
   Z.of_nat (size (filter (fun e => recording_expired now e.2 = true) (recordings vs)))).

Definition stale (cfg : VODConfig) (now : Time) (s : VODPlaybackSession) : bool :=
  SessionTimeout cfg <? Sub now (LastHeartbeat s).

Definition CleanupStaleSessions (vs : VODService) (now : Time) : VODService * Z :=
  (with_sessions vs (filter (fun e => stale (config vs) now e.2 = false) (playbackSessions vs)),
   Z.of_nat (size (filter (fun e => stale (config vs) now e.2 = true) (playbackSessions vs)))).

Definition UpdateRecordingMetadata (vs : VODService) (id : string)
    (title description : option string) (tags : option (list string))
    (category : option string) : VODService * outcome VODError unit :=
  match recordings vs !! id with
  | None => (vs, Err ErrRecordingNotFound)
  | Some recording =>
      (with_recordings vs
         (<[id := described recording title description tags category]> (recordings vs)),
       Ok tt)
  end.

(** A run of heartbeats on one session: the positions reported and the
    clock reading of each call. *)
Fixpoint heartbeats (vs : VODService) (sid : string) (beats : list (Duration * Time))
  : VODService :=
  match beats with
  | [] => vs
  | (position, now) :: beats' =>
      heartbeats (UpdatePlaybackSession vs sid position now).1 sid beats'
  end.

Definition completed_of (vs : VODService) (sid : string) : option bool :=
  Completed <$> playbackSessions vs !! sid.

Definition position_of (vs : VODService) (sid : string) : option Duration :=
  CurrentPosition <$> playbackSessions vs !! sid.

Definition duration_of (vs : VODService) (sid : string) : option Duration :=
  s ← playbackSessions vs !! sid; Duration_ <$> recordings vs !! RecordingID s.

(** Sample: [alice] records the show of room [r1]; it is stopped with a
    length of 100 s, processed and published; [bob] opens a playback
    session on it. *)
Definition clk0 : StartClock := {| stID := 1000; stRecorded := 1000; stExpires := 5000 |}.
Definition rec1 : string := recordingID "alice" clk0.
Definition play0 : PlayClock := {| pID := 9000; pStarted := 9000; pHeartbeat := 9000 |}.
Definition sid1 : string := "session-9000-bob".

Definition vs_ready : VODService :=
  let vs1 := (StartRecording (NewVODService None) "r1" "alice" "Alice" "Show" clk0).1 in
  let vs2 := (StopRecording vs1 rec1 (100 * Second) 4096).1 in
  let vs3 := processRecording vs2 rec1 7000 in
  (PublishRecording vs3 rec1 8000).1.

Definition vs_playing : VODService :=
  (StartPlaybackSession vs_ready rec1 "bob" "720p" play0).1.

(** [bob] watches to the end, then seeks back to the start. *)
Definition watch_then_rewind : list (Duration * Time) :=
  [(100 * Second, 10000); (0, 11000)].

End VOD.

(** ** The VOD handlers of the HTTP surface ([pkg/service/streaming_api.go]) *)

Module API.

(** What a handler writes: [http.Error] with a status code, or a JSON body. *)
Inductive response :=
| HttpError (status : Z)
| StartedJSON (recording_id egress_id status : string)
| SuccessJSON.

Definition StatusBadRequest : Z := 400.
Definition StatusMethodNotAllowed : Z := 405.
Definition StatusInternalServerError : Z := 500.

Record StartRequest := {
  room_name : string;
  streamer_id : string;
  streamer_name : string;
  title : string;
  video_track_id : string;
  audio_track_id : string
}.

Record StopRequest := {
  recording_id : string;
  egress_id : string
}.

(** [handleStartRecording].  [body] is the decoded request ([None]: the JSON
    decoder failed); [egress] is what the encoder's
    [StartRoomCompositeEgress] RPC answers: the new egress id, or [None] for
    an error. *)
Definition handleStartRecording (vs : VOD.VODService) (body : option StartRequest)
    (egress : option string) (clk : VOD.StartClock) : VOD.VODService * response :=
  match body with
  | None => (vs, HttpError StatusBadRequest)
  | Some req =>
      if bool_decide (room_name req = "") || bool_decide (streamer_id req = "")
      then (vs, HttpError StatusBadRequest)
      else
        (* 1. Create VOD record *)
        match VOD.StartRecording vs (room_name req) (streamer_id req)
                (streamer_name req) (title req) clk with
        | (vs1, Ok rec) =>
            (* 2. Start Egress *)
            match egress with
            | None =>
                (* Cleanup VOD record if Egress fails *)
                ((VOD.DeleteRecording vs1 (VOD.ID rec)).1,
                 HttpError StatusInternalServerError)
            | Some egressId =>
                let vs2 := (VOD.UpdateRecordingMetadata vs1 (VOD.ID rec)
                              None None None None).1 in
                let vs3 :=
                  match VOD.recordings vs2 !! VOD.ID rec with
                  | Some r =>
                      VOD.with_recordings vs2
                        (<[VOD.ID rec :=
                             VOD.with_Metadata r (<["egress_id" := egressId]> (VOD.Metadata r))]>
                           (VOD.recordings vs2))
                  | None => vs2
                  end in
                (vs3, StartedJSON (VOD.ID rec) egressId "recording")
            end
        | (vs1, _) => (vs1, HttpError StatusInternalServerError)
        end
  end.

(** [handleStopRecording].  The answer of the encoder's [StopEgress] RPC is
    logged and dropped, so it is no argument here. *)
Definition handleStopRecording (vs : VOD.VODService) (method : string)
    (body : option StopRequest) : VOD.VODService * response :=
  if negb (bool_decide (method = "POST")) then (vs, HttpError StatusMethodNotAllowed)
  else
    match body with
    | None => (vs, HttpError StatusBadRequest)
    | Some req =>
        if negb (bool_decide (recording_id req = "")) then
          match VOD.StopRecording vs (recording_id req) 0 0 with
          | (vs1, Ok _) => (vs1, SuccessJSON)
          | (vs1, _) => (vs1, HttpError StatusInternalServerError)
          end
        else (vs, SuccessJSON)
    end.

(** Sample: the same show, recorded and stopped through the two handlers,
    then processed, published and watched by [bob]. *)
Definition start_request : StartRequest :=
  {| room_name := "r1"; streamer_id := "alice"; streamer_name := "Alice";
     title := "Show"; video_track_id := ""; audio_track_id := "" |}.

Definition stop_request : StopRequest :=
  {| recording_id := VOD.rec1; egress_id := "EG_1" |}.

Definition vs_http_stopped : VOD.VODService :=
  let vs1 := (handleStartRecording (VOD.NewVODService None) (Some start_request)
                (Some "EG_1") VOD.clk0).1 in
  (handleStopRecording vs1 "POST" (Some stop_request)).1.

Definition vs_http_playing : VOD.VODService :=
  let vs3 := VOD.processRecording vs_http_stopped VOD.rec1 7000 in
  let vs4 := (VOD.PublishRecording vs3 VOD.rec1 8000).1 in
  (VOD.StartPlaybackSession vs4 VOD.rec1 "bob" "720p" VOD.play0).1.

(** *** The stream-key handlers *)

Definition StatusUnauthorized : Z := 401.

(** What a stream-key handler writes; [HandlerPanic] when the engine call
    panics and the server drops the connection. *)
Inductive key_response :=
| KeyHttpError (status : Z)
| GeneratedJSON (key : StreamKeys.StreamKey)
| ValidJSON (key : StreamKeys.StreamKey)
| RevokedJSON
| KeysJSON (keys : list StreamKeys.StreamKey)
| HandlerPanic.

(** The body of [/keys/generate]; its [permissions] object is decoded and
    then not used (the handler passes [nil]). *)
Record GenerateRequest := {
  g_streamer_id : string;
  g_room_name : string;
  g_expires_in : option Z
}.

Definition handleGenerateStreamKey (m : StreamKeys.StreamKeyManager) (method : string)
    (body : option GenerateRequest) (keyBytes : option (list Byte.byte))
    (nowCreated nowExpiry : Time) : StreamKeys.StreamKeyManager * key_response :=
  if negb (bool_decide (method = "POST")) then (m, KeyHttpError StatusMethodNotAllowed)
  else
    match body with
    | None => (m, KeyHttpError StatusBadRequest)
    | Some req =>
        let expiresIn := (fun secs => wrap64 (wrap64 secs * Second)) <$> g_expires_in req in
        match StreamKeys.GenerateStreamKey m keyBytes (g_streamer_id req) (g_room_name req)
                None expiresIn nowCreated nowExpiry with
        | (m', Ok streamKey) => (m', GeneratedJSON streamKey)
        | (m', Err _) => (m', KeyHttpError StatusInternalServerError)
        | (m', Panic) => (m', HandlerPanic)
        end
    end.

(** [handleValidateStreamKey]: the key returned by the validation is a
    pointer to the stored entry, so the JSON written after [MarkKeyAsUsed]
    shows the entry as that call left it. *)
Definition handleValidateStreamKey (m : StreamKeys.StreamKeyManager) (method : string)
    (body : option string) (nowValidate nowUsed : Time)
  : StreamKeys.StreamKeyManager * key_response :=
  if negb (bool_decide (method = "POST")) then (m, KeyHttpError StatusMethodNotAllowed)
  else
    match body with
    | None => (m, KeyHttpError StatusBadRequest)
    | Some key =>
        match StreamKeys.ValidateStreamKey m key nowValidate with
        | Ok streamKey =>
            (* Mark as used *)
            match StreamKeys.MarkKeyAsUsed m key nowUsed with
            | (m', Panic) => (m', HandlerPanic)
            | (m', _) =>
                (m', ValidJSON (default streamKey (StreamKeys.keys m' !! key)))
            end
        | Err _ => (m, KeyHttpError StatusUnauthorized)
        | Panic => (m, HandlerPanic)
        end
    end.

Definition handleRevokeStreamKey (m : StreamKeys.StreamKeyManager) (method : string)
    (body : option string) : StreamKeys.StreamKeyManager * key_response :=
  if negb (bool_decide (method = "POST")) then (m, KeyHttpError StatusMethodNotAllowed)
  else
    match body with
    | None => (m, KeyHttpError StatusBadRequest)
    | Some key =>
        match StreamKeys.RevokeStreamKey m key with
        | (m', Ok _) => (m', RevokedJSON)
        | (m', Err _) => (m', KeyHttpError StatusInternalServerError)
        | (m', Panic) => (m', HandlerPanic)
        end
    end.

(** [streamer_id] is the value of the query parameter (empty when absent). *)
Definition handleListStreamKeys (m : StreamKeys.StreamKeyManager) (method : string)
    (streamer_id : string) : key_response :=
  if negb (bool_decide (method = "GET")) then KeyHttpError StatusMethodNotAllowed
  else if bool_decide (streamer_id = "") then KeyHttpError StatusBadRequest
  else KeysJSON (StreamKeys.GetStreamKeysByStreamer m streamer_id).

(** *** The chat-room handler *)

Inductive chat_response :=
| ChatHttpError (status : Z)
| RoomExistsJSON (room_name : string)
| RoomCreatedJSON (room_name : string) (created_at : Time)
    (message_count participant_count : Z)
| MessageJSON (message : Chat.ChatMessage)
| MessagesJSON (messages : list Chat.ChatMessage)
| ChatSuccessJSON.

(** [handleCreateChatRoom]: the engine's "chat room already exists" is
    answered with success. *)
Definition handleCreateChatRoom (cs : Chat.ChatService) (method : string)
    (body : option string) (now : Time) : Chat.ChatService * chat_response :=
  if negb (bool_decide (method = "POST")) then (cs, ChatHttpError StatusMethodNotAllowed)
  else
    match body with
    | None => (cs, ChatHttpError StatusBadRequest)
    | Some room_name =>
        match Chat.CreateChatRoom cs room_name None now with
        | (cs', Ok room) =>
            (cs', RoomCreatedJSON (Chat.roomName room) (Chat.CreatedAt room)
                    (Z.of_nat (length (Chat.Messages room)))
                    (Z.of_nat (size (Chat.Participants room))))
        | (cs', Err Chat.ErrRoomExists) => (cs', RoomExistsJSON room_name)
        | (cs', _) => (cs', ChatHttpError StatusInternalServerError)
        end
    end.

(** The body of [/chat/messages/send]; [sender_name] is decoded and not
    used, and the handler passes no [replyTo]. *)
Record SendChatRequest := {
  c_room_name : string;
  c_sender_id : string;
  c_sender_name : string;
  c_content : string;
  c_message_type : string;
  c_mentioned_users : list string
}.

Definition handleSendChatMessage (cs : Chat.ChatService) (method : string)
    (body : option SendChatRequest) (clk : Chat.SendClock)
  : Chat.ChatService * chat_response :=
  if negb (bool_decide (method = "POST")) then (cs, ChatHttpError StatusMethodNotAllowed)
  else
    match body with
    | None => (cs, ChatHttpError StatusBadRequest)
    | Some req =>
        match Chat.SendMessage cs (c_room_name req) (c_sender_id req) (c_content req)
                (c_message_type req) (c_mentioned_users req) None clk with
        | (cs', Ok message) => (cs', MessageJSON message)
        | (cs', _) => (cs', ChatHttpError StatusInternalServerError)
        end
    end.

(** [room_name] is the value of the query parameter (empty when absent). *)
Definition handleGetChatMessages (cs : Chat.ChatService) (method : string)
    (room_name : string) : chat_response :=
  if negb (bool_decide (method = "GET")) then ChatHttpError StatusMethodNotAllowed
  else if bool_decide (room_name = "") then ChatHttpError StatusBadRequest
  else
    match Chat.GetMessages cs room_name 50 None with
    | Ok messages => MessagesJSON messages
    | _ => ChatHttpError StatusInternalServerError
    end.

(** The body of [/chat/mute] and of [/chat/ban]. *)
Record ModerationRequest := {
  m_room_name : string;
  m_participant_id : string;
  m_moderator_id : string;
  m_duration_secs : Z
}.

Definition handleMuteParticipant (cs : Chat.ChatService) (method : string)
    (body : option ModerationRequest) : Chat.ChatService * chat_response :=
  if negb (bool_decide (method = "POST")) then (cs, ChatHttpError StatusMethodNotAllowed)
  else
    match body with
    | None => (cs, ChatHttpError StatusBadRequest)
    | Some req =>
        let duration := wrap64 (m_duration_secs req * Second) in
        match Chat.MuteParticipant cs (m_room_name req) (m_participant_id req)
                (m_moderator_id req) duration with
        | (cs', Ok _) => (cs', ChatSuccessJSON)
        | (cs', _) => (cs', ChatHttpError StatusInternalServerError)
        end
    end.

Definition handleBanParticipant (cs : Chat.ChatService) (method : string)
    (body : option ModerationRequest) (now : Time) : Chat.ChatService * chat_response :=
  if negb (bool_decide (method = "POST")) then (cs, ChatHttpError StatusMethodNotAllowed)
  else
    match body with
    | None => (cs, ChatHttpError StatusBadRequest)
    | Some req =>
        let duration := wrap64 (m_duration_secs req * Second) in
        match Chat.BanParticipant cs (m_room_name req) (m_participant_id req)
                (m_moderator_id req) duration now with
        | (cs', Ok _) => (cs', ChatSuccessJSON)
        | (cs', _) => (cs', ChatHttpError StatusInternalServerError)
        end
    end.

(** The requests of the chat surface.  These five handlers are all the
    callers the chat engine has; [JoinChatRoom], [LeaveChatRoom] and
    [DeleteMessage] have none. *)
Inductive chat_request :=
| ReqCreateChatRoom (method : string) (body : option string) (now : Time)
| ReqSendChatMessage (method : string) (body : option SendChatRequest)
    (clk : Chat.SendClock)
| ReqGetChatMessages (method : string) (room_name : string)
| ReqMuteParticipant (method : string) (body : option ModerationRequest)
| ReqBanParticipant (method : string) (body : option ModerationRequest) (now : Time).

Definition serve_chat (cs : Chat.ChatService) (q : chat_request)
  : Chat.ChatService * chat_response :=
  match q with
  | ReqCreateChatRoom method body now => handleCreateChatRoom cs method body now
  | ReqSendChatMessage method body clk => handleSendChatMessage cs method body clk
  | ReqGetChatMessages method room_name => (cs, handleGetChatMessages cs method room_name)
  | ReqMuteParticipant method body => handleMuteParticipant cs method body
  | ReqBanParticipant method body now => handleBanParticipant cs method body now
  end.

Definition serve_chat_all (cs : Chat.ChatService) (qs : list chat_request)
  : Chat.ChatService :=
  foldl (fun cs q => (serve_chat cs q).1) cs qs.

Definition is_error (r : chat_response) : bool :=
  match r with ChatHttpError _ => true | _ => false end.

(** A room nobody moderates: no moderators, no bans, the default
    settings, no muted participant. *)
Definition unmoderated (room : Chat.ChatRoom) : Prop :=
  Chat.Moderators room = ∅ /\ Chat.BannedUsers room = ∅
  /\ Chat.Settings room = Chat.defaultSettings
  /\ map_Forall (fun _ p => Chat.IsMuted p = false) (Chat.Participants room).

(** Every room of the service is one nobody moderates. *)
Definition all_unmoderated (cs : Chat.ChatService) : Prop :=
  forall n room, Chat.rooms cs !! n = Some room -> unmoderated room.

End API.

(** ** Analytics ([AnalyticsService]) *)

Module Analytics.

Record TimeSeriesDataPoint := { tsTimestamp : Time; Value : spec_float }.

(** The fields of [StreamAnalytics] the service writes.  The struct's other
    fields (average viewers and bitrate, latency, buffering, quality, frame
    and engagement counters, the chat, reaction and bitrate timelines) are
    assigned nowhere and keep their zero value. *)
Record StreamAnalytics := {
  RoomName : string;
  StreamerID : string;
  StartTime : Time;
  EndTime : option Time;
  Duration_ : Duration;
  TotalViewers : Z;
  PeakViewers : Z;
  CurrentViewers : Z;
  UniqueViewers : Z;
  ViewerRetention : spec_float;
  AverageWatchTime : Duration;
  TotalMessages : Z;
  UniqueMessagers : Z;
  MessagesPerMinute : spec_float;
  TotalReactions : Z;
  ReactionsPerMinute : spec_float;
  ReactionBreakdown : gmap string Z;
  PeakBitrate : Z;
  ViewersByCountry : gmap string Z;
  ViewersByRegion : gmap string Z;
  ViewersByPlatform : gmap string Z;
  ViewersByDevice : gmap string Z;
  ViewerTimeline : list TimeSeriesDataPoint;
  LastUpdated : Time
}.

Record ViewerSession := {
  ViewerID : string;
  sRoomName : string;
  JoinedAt : Time;
  LeftAt : option Time;
  WatchDuration : Duration;
  MessagesSent : Z;
  ReactionsSent : Z;
  Platform : string;
  Device : string;
  Country : string;
  Region : string;
  AvgBitrate : Z;
  BufferingCount : Z;
  QualityLevel : string;
  ConnectionQuality : string
}.

Record AnalyticsConfig := {
  EnableRealTime : bool;
  UpdateInterval : Duration;
  TimelineResolution : Duration;
  MaxTimelinePoints : Z;
  RetentionDays : Z;
  EnableGeoIP : bool;
  EnableDeviceDetection : bool
}.

Record AnalyticsService := {
  streamAnalytics : gmap string StreamAnalytics;
  viewerSessions : gmap string (gmap string ViewerSession);
  config : AnalyticsConfig
}.

Inductive AnalyticsError :=
| ErrAlreadyStarted   (* "analytics already started for this stream" *)
| ErrStreamNotFound   (* "analytics not found for this stream" *)
| ErrNotFound         (* "analytics not found" *)
| ErrNoSessions       (* "no sessions found" *)
| ErrSessionNotFound. (* "session not found" *)

Definition defaultConfig : AnalyticsConfig :=
  {| EnableRealTime := true; UpdateInterval := 10 * Second;
     TimelineResolution := 1 * Minute; MaxTimelinePoints := 1000;
     RetentionDays := 90; EnableGeoIP := true; EnableDeviceDetection := true |}.

Definition NewAnalyticsService (cfg : option AnalyticsConfig) : AnalyticsService :=
  {| streamAnalytics := ∅; viewerSessions := ∅;
     config := match cfg with Some c => c | None => defaultConfig end |}.

Definition zero : spec_float := S754_zero false.

Definition StartStreamAnalytics (s : AnalyticsService) (roomName streamerID : string)
    (nowStart nowUpdated : Time)
  : AnalyticsService * outcome AnalyticsError StreamAnalytics :=
  match streamAnalytics s !! roomName with
  | Some _ => (s, Err ErrAlreadyStarted)
  | None =>
      let analytics :=
        {| RoomName := roomName; StreamerID := streamerID; StartTime := nowStart;
           EndTime := None; Duration_ := 0; TotalViewers := 0; PeakViewers := 0;
           CurrentViewers := 0; UniqueViewers := 0; ViewerRetention := zero;
           AverageWatchTime := 0; TotalMessages := 0; UniqueMessagers := 0;
           MessagesPerMinute := zero; TotalReactions := 0;
           ReactionsPerMinute := zero; ReactionBreakdown := ∅; PeakBitrate := 0;
           ViewersByCountry := ∅; ViewersByRegion := ∅; ViewersByPlatform := ∅;
           ViewersByDevice := ∅; ViewerTimeline := []; LastUpdated := nowUpdated |} in
      ({| streamAnalytics := <[roomName := analytics]> (streamAnalytics s);
          viewerSessions := <[roomName := ∅]> (viewerSessions s);
          config := config s |}, Ok analytics)
  end.

(** The viewer counters after a join. *)
Definition joined (a : StreamAnalytics) (isUnique : bool)
    (platform device country region : string) : StreamAnalytics :=
  let current := int_incr (CurrentViewers a) in
  let bump (key : string) (m : gmap string Z) : gmap string Z :=
    if bool_decide (key = "") then m else <[key := int_incr (default 0 (m !! key))]> m in
  {| RoomName := RoomName a; StreamerID := StreamerID a; StartTime := StartTime a;
     EndTime := EndTime a; Duration_ := Duration_ a;
     TotalViewers := int_incr (TotalViewers a);
     PeakViewers := if PeakViewers a <? current then current else PeakViewers a;
     CurrentViewers := current;
     UniqueViewers := if isUnique then int_incr (UniqueViewers a) else UniqueViewers a;
     ViewerRetention := ViewerRetention a; AverageWatchTime := AverageWatchTime a;
     TotalMessages := TotalMessages a; UniqueMessagers := UniqueMessagers a;
     MessagesPerMinute := MessagesPerMinute a; TotalReactions := TotalReactions a;
     ReactionsPerMinute := ReactionsPerMinute a;
     ReactionBreakdown := ReactionBreakdown a; PeakBitrate := PeakBitrate a;
     ViewersByCountry := bump country (ViewersByCountry a);
     ViewersByRegion := bump region (ViewersByRegion a);
     ViewersByPlatform := bump platform (ViewersByPlatform a);
     ViewersByDevice := bump device (ViewersByDevice a);
     ViewerTimeline := ViewerTimeline a; LastUpdated := LastUpdated a |}.

Definition with_CurrentViewers (a : StreamAnalytics) (current : Z) : StreamAnalytics :=
  {| RoomName := RoomName a; StreamerID := StreamerID a; StartTime := StartTime a;
     EndTime := EndTime a; Duration_ := Duration_ a; TotalViewers := TotalViewers a;
     PeakViewers := PeakViewers a; CurrentViewers := current;
     UniqueViewers := UniqueViewers a; ViewerRetention := ViewerRetention a;
     AverageWatchTime := AverageWatchTime a; TotalMessages := TotalMessages a;
     UniqueMessagers := UniqueMessagers a; MessagesPerMinute := MessagesPerMinute a;
     TotalReactions := TotalReactions a; ReactionsPerMinute := ReactionsPerMinute a;
     ReactionBreakdown := ReactionBreakdown a; PeakBitrate := PeakBitrate a;
     ViewersByCountry := ViewersByCountry a; ViewersByRegion := ViewersByRegion a;
     ViewersByPlatform := ViewersByPlatform a; ViewersByDevice := ViewersByDevice a;
     ViewerTimeline := ViewerTimeline a; LastUpdated := LastUpdated a |}.

Definition closed (v : ViewerSession) (now : Time) : ViewerSession :=
  {| ViewerID := ViewerID v; sRoomName := sRoomName v; JoinedAt := JoinedAt v;
     LeftAt := Some now; WatchDuration := Sub now (JoinedAt v);
     MessagesSent := MessagesSent v; ReactionsSent := ReactionsSent v;
     Platform := Platform v; Device := Device v; Country := Country v;
     Region := Region v; AvgBitrate := AvgBitrate v;
     BufferingCount := BufferingCount v; QualityLevel := QualityLevel v;
     ConnectionQuality := ConnectionQuality v |}.

(** The loop that decides [isUnique]: a session of this viewer that was
    already closed makes the join a returning one. *)
Definition has_completed_session (sessions : gmap string ViewerSession)
    (viewerID : string) : bool :=
  existsb (fun e : string * ViewerSession =>
             bool_decide (ViewerID e.2 = viewerID)
             && match LeftAt e.2 with Some _ => true | None => false end)
          (map_to_list sessions).

Definition RecordViewerJoin (s : AnalyticsService)
    (roomName viewerID platform device country region : string) (now : Time)
  : AnalyticsService * outcome AnalyticsError unit :=
  match streamAnalytics s !! roomName with
  | None => (s, Err ErrNotFound)
  | Some analytics =>
      let sessions := default ∅ (viewerSessions s !! roomName) in
      (* Check if this is a unique viewer *)
      let isUnique := negb (has_completed_session sessions viewerID) in
      let session :=
        {| ViewerID := viewerID; sRoomName := roomName; JoinedAt := now;
           LeftAt := None; WatchDuration := 0; MessagesSent := 0; ReactionsSent := 0;
           Platform := platform; Device := device; Country := country;
           Region := region; AvgBitrate := 0; BufferingCount := 0;
           QualityLevel := "auto"; ConnectionQuality := "" |} in
      ({| streamAnalytics :=
            <[roomName := joined analytics isUnique platform device country region]>
              (streamAnalytics s);
          viewerSessions := <[roomName := <[viewerID := session]> sessions]> (viewerSessions s);
          config := config s |}, Ok tt)
  end.

Definition RecordViewerLeave (s : AnalyticsService) (roomName viewerID : string)
    (now : Time) : AnalyticsService * outcome AnalyticsError unit :=
  match streamAnalytics s !! roomName with
  | None => (s, Err ErrNotFound)
  | Some analytics =>
      match viewerSessions s !! roomName with
      | None => (s, Err ErrNoSessions)
      | Some sessions =>
          match sessions !! viewerID with
          | None => (s, Err ErrSessionNotFound)
          | Some session =>
              let current := int_decr (CurrentViewers analytics) in
              ({| streamAnalytics :=
                    <[roomName :=
                        with_CurrentViewers analytics (if current <? 0 then 0 else current)]>
                      (streamAnalytics s);
                  viewerSessions :=
                    <[roomName := <[viewerID := closed session now]> sessions]>
                      (viewerSessions s);
                  config := config s |}, Ok tt)
          end
      end
  end.

Definition with_Messages (a : StreamAnalytics) (total : Z) : StreamAnalytics :=
  {| RoomName := RoomName a; StreamerID := StreamerID a; StartTime := StartTime a;
     EndTime := EndTime a; Duration_ := Duration_ a; TotalViewers := TotalViewers a;
     PeakViewers := PeakViewers a; CurrentViewers := CurrentViewers a;
     UniqueViewers := UniqueViewers a; ViewerRetention := ViewerRetention a;
     AverageWatchTime := AverageWatchTime a; TotalMessages := total;
     UniqueMessagers := UniqueMessagers a; MessagesPerMinute := MessagesPerMinute a;
     TotalReactions := TotalReactions a; ReactionsPerMinute := ReactionsPerMinute a;
     ReactionBreakdown := ReactionBreakdown a; PeakBitrate := PeakBitrate a;
     ViewersByCountry := ViewersByCountry a; ViewersByRegion := ViewersByRegion a;
     ViewersByPlatform := ViewersByPlatform a; ViewersByDevice := ViewersByDevice a;
     ViewerTimeline := ViewerTimeline a; LastUpdated := LastUpdated a |}.

Definition with_Reactions (a : StreamAnalytics) (total : Z) (breakdown : gmap string Z)
  : StreamAnalytics :=
  {| RoomName := RoomName a; StreamerID := StreamerID a; StartTime := StartTime a;
     EndTime := EndTime a; Duration_ := Duration_ a; TotalViewers := TotalViewers a;
     PeakViewers := PeakViewers a; CurrentViewers := CurrentViewers a;
     UniqueViewers := UniqueViewers a; ViewerRetention := ViewerRetention a;
     AverageWatchTime := AverageWatchTime a; TotalMessages := TotalMessages a;
     UniqueMessagers := UniqueMessagers a; MessagesPerMinute := MessagesPerMinute a;
     TotalReactions := total; ReactionsPerMinute := ReactionsPerMinute a;
     ReactionBreakdown := breakdown; PeakBitrate := PeakBitrate a;
     ViewersByCountry := ViewersByCountry a; ViewersByRegion := ViewersByRegion a;
     ViewersByPlatform := ViewersByPlatform a; ViewersByDevice := ViewersByDevice a;
     ViewerTimeline := ViewerTimeline a; LastUpdated := LastUpdated a |}.

Definition with_PeakBitrate (a : StreamAnalytics) (bitrate : Z) : StreamAnalytics :=
  {| RoomName := RoomName a; StreamerID := StreamerID a; StartTime := StartTime a;
     EndTime := EndTime a; Duration_ := Duration_ a; TotalViewers := TotalViewers a;
     PeakViewers := PeakViewers a; CurrentViewers := CurrentViewers a;
     UniqueViewers := UniqueViewers a; ViewerRetention := ViewerRetention a;
     AverageWatchTime := AverageWatchTime a; TotalMessages := TotalMessages a;
     UniqueMessagers := UniqueMessagers a; MessagesPerMinute := MessagesPerMinute a;
     TotalReactions := TotalReactions a; ReactionsPerMinute := ReactionsPerMinute a;
     ReactionBreakdown := ReactionBreakdown a; PeakBitrate := bitrate;
     ViewersByCountry := ViewersByCountry a; ViewersByRegion := ViewersByRegion a;
     ViewersByPlatform := ViewersByPlatform a; ViewersByDevice := ViewersByDevice a;
     ViewerTimeline := ViewerTimeline a; LastUpdated := LastUpdated a |}.

Definition with_Timeline (a : StreamAnalytics) (timeline : list TimeSeriesDataPoint)
  : StreamAnalytics :=
  {| RoomName := RoomName a; StreamerID := StreamerID a; StartTime := StartTime a;
     EndTime := EndTime a; Duration_ := Duration_ a; TotalViewers := TotalViewers a;
     PeakViewers := PeakViewers a; CurrentViewers := CurrentViewers a;
     UniqueViewers := UniqueViewers a; ViewerRetention := ViewerRetention a;
     AverageWatchTime := AverageWatchTime a; TotalMessages := TotalMessages a;
     UniqueMessagers := UniqueMessagers a; MessagesPerMinute := MessagesPerMinute a;
     TotalReactions := TotalReactions a; ReactionsPerMinute := ReactionsPerMinute a;
     ReactionBreakdown := ReactionBreakdown a; PeakBitrate := PeakBitrate a;
     ViewersByCountry := ViewersByCountry a; ViewersByRegion := ViewersByRegion a;
     ViewersByPlatform := ViewersByPlatform a; ViewersByDevice := ViewersByDevice a;
     ViewerTimeline := timeline; LastUpdated := LastUpdated a |}.

Definition ended (a : StreamAnalytics) (now : Time) : StreamAnalytics :=
  {| RoomName := RoomName a; StreamerID := StreamerID a; StartTime := StartTime a;
     EndTime := Some now; Duration_ := Sub now (StartTime a);
     TotalViewers := TotalViewers a;
     PeakViewers := PeakViewers a; CurrentViewers := CurrentViewers a;
     UniqueViewers := UniqueViewers a; ViewerRetention := ViewerRetention a;
     AverageWatchTime := AverageWatchTime a; TotalMessages := TotalMessages a;
     UniqueMessagers := UniqueMessagers a; MessagesPerMinute := MessagesPerMinute a;
     TotalReactions := TotalReactions a; ReactionsPerMinute := ReactionsPerMinute a;
     ReactionBreakdown := ReactionBreakdown a; PeakBitrate := PeakBitrate a;
     ViewersByCountry := ViewersByCountry a; ViewersByRegion := ViewersByRegion a;
     ViewersByPlatform := ViewersByPlatform a; ViewersByDevice := ViewersByDevice a;
     ViewerTimeline := ViewerTimeline a; LastUpdated := LastUpdated a |}.

Definition with_metrics (a : StreamAnalytics) (averageWatchTime : Duration)
    (uniqueMessagers : Z) (messagesPerMinute reactionsPerMinute retention : spec_float)
    (now : Time) : StreamAnalytics :=
  {| RoomName := RoomName a; StreamerID := StreamerID a; StartTime := StartTime a;
     EndTime := EndTime a; Duration_ := Duration_ a; TotalViewers := TotalViewers a;
     PeakViewers := PeakViewers a; CurrentViewers := CurrentViewers a;
     UniqueViewers := UniqueViewers a; ViewerRetention := retention;
     AverageWatchTime := averageWatchTime; TotalMessages := TotalMessages a;
     UniqueMessagers := uniqueMessagers; MessagesPerMinute := messagesPerMinute;
     TotalReactions := TotalReactions a; ReactionsPerMinute := reactionsPerMinute;
     ReactionBreakdown := ReactionBreakdown a; PeakBitrate := PeakBitrate a;
     ViewersByCountry := ViewersByCountry a; ViewersByRegion := ViewersByRegion a;
     ViewersByPlatform := ViewersByPlatform a; ViewersByDevice := ViewersByDevice a;
     ViewerTimeline := ViewerTimeline a; LastUpdated := now |}.

Definition with_sent (v : ViewerSession) (messages reactions : Z) : ViewerSession :=
  {| ViewerID := ViewerID v; sRoomName := sRoomName v; JoinedAt := JoinedAt v;
     LeftAt := LeftAt v; WatchDuration := WatchDuration v;
     MessagesSent := messages; ReactionsSent := reactions;
     Platform := Platform v; Device := Device v; Country := Country v;
     Region := Region v; AvgBitrate := AvgBitrate v;
     BufferingCount := BufferingCount v; QualityLevel := QualityLevel v;
     ConnectionQuality := ConnectionQuality v |}.

Definition RecordChatMessage (s : AnalyticsService) (roomName senderID : string)
  : AnalyticsService * outcome AnalyticsError unit :=
  match streamAnalytics s !! roomName with
  | None => (s, Err ErrNotFound)
  | Some analytics =>
      ({| streamAnalytics :=
            <[roomName := with_Messages analytics (int_incr (TotalMessages analytics))]>
              (streamAnalytics s);
          viewerSessions :=
            match viewerSessions s !! roomName with
            | Some sessions =>
                match sessions !! senderID with
                | Some v =>
                    <[roomName :=
                        <[senderID := with_sent v (int_incr (MessagesSent v)) (ReactionsSent v)]>
                          sessions]> (viewerSessions s)
                | None => viewerSessions s
                end
            | None => viewerSessions s
            end;
          config := config s |}, Ok tt)
  end.

Definition RecordReaction (s : AnalyticsService) (roomName senderID reactionType : string)
  : AnalyticsService * outcome AnalyticsError unit :=
  match streamAnalytics s !! roomName with
  | None => (s, Err ErrNotFound)
  | Some analytics =>
      ({| streamAnalytics :=
            <[roomName :=
                with_Reactions analytics (int_incr (TotalReactions analytics))
                  (<[reactionType :=
                       int_incr (default 0 (ReactionBreakdown analytics !! reactionType))]>
                     (ReactionBreakdown analytics))]>
              (streamAnalytics s);
          viewerSessions :=
            match viewerSessions s !! roomName with
            | Some sessions =>
                match sessions !! senderID with
                | Some v =>
                    <[roomName :=
                        <[senderID := with_sent v (MessagesSent v) (int_incr (ReactionsSent v))]>
                          sessions]> (viewerSessions s)
                | None => viewerSessions s
                end
            | None => viewerSessions s
            end;
          config := config s |}, Ok tt)
  end.

Definition RecordBitrateUpdate (s : AnalyticsService) (roomName : string) (bitrate : Z)
  : AnalyticsService * outcome AnalyticsError unit :=
  match streamAnalytics s !! roomName with
  | None => (s, Err ErrNotFound)
  | Some analytics =>
      if PeakBitrate analytics <? bitrate then
        ({| streamAnalytics := <[roomName := with_PeakBitrate analytics bitrate]>
                                 (streamAnalytics s);
            viewerSessions := viewerSessions s; config := config s |}, Ok tt)
      else (s, Ok tt)
  end.

(** [d.Minutes()] of the time package. *)
Definition Minutes (d : Duration) : spec_float :=
  float64_add (float64_of_int (d ÷ Minute))
              (float64_div (float64_of_int (Z.rem d Minute)) (float64_of_int 60000000000)).

(** [calculateMetrics] on the record of a room, given the room's sessions;
    [now] is the reading for [LastUpdated]. *)
Definition calculateMetrics (a : StreamAnalytics) (sessions : gmap string ViewerSession)
    (now : Time) : StreamAnalytics :=
  let all := (map_to_list sessions).*2 in
  let done := List.filter (fun v => match LeftAt v with Some _ => true | None => false end) all in
  let totalWatchTime := wrap64 (foldr (fun v t => WatchDuration v + t) 0 done) in
  let completedSessions := Z.of_nat (length done) in
  let uniqueMessagers : gset string :=
    list_to_set (ViewerID <$> List.filter (fun v => 0 <? MessagesSent v) all) in
  let minutes :=
    match EndTime a with
    | Some e => Some (Minutes (Sub e (StartTime a)))
    | None => None
    end in
  let rate (total : Z) (old : spec_float) : spec_float :=
    match minutes with
    | Some m => if SFltb zero m then float64_div (float64_of_int total) m else old
    | None => old
    end in
  with_metrics a
    (if 0 <? completedSessions then totalWatchTime ÷ completedSessions
     else AverageWatchTime a)
    (Z.of_nat (size uniqueMessagers))
    (rate (TotalMessages a) (MessagesPerMinute a))
    (rate (TotalReactions a) (ReactionsPerMinute a))
    (if 0 <? TotalViewers a
     then float64_mul (float64_div (float64_of_int completedSessions)
                         (float64_of_int (TotalViewers a)))
                      (float64_of_int 100)
     else ViewerRetention a)
    now.

Definition refreshed (s : AnalyticsService) (roomName : string) (a : StreamAnalytics)
    (now : Time) : StreamAnalytics :=
  match viewerSessions s !! roomName with
  | Some sessions => calculateMetrics a sessions now
  | None => a
  end.

Definition close_open (now : Time) (v : ViewerSession) : ViewerSession :=
  match LeftAt v with
  | Some _ => v
  | None => closed v now
  end.

Definition StopStreamAnalytics (s : AnalyticsService) (roomName : string)
    (now nowUpdated : Time) : AnalyticsService * outcome AnalyticsError unit :=
  match streamAnalytics s !! roomName with
  | None => (s, Err ErrStreamNotFound)
  | Some analytics =>
      let sessions' :=
        match viewerSessions s !! roomName with
        | Some sessions => <[roomName := close_open now <$> sessions]> (viewerSessions s)
        | None => viewerSessions s
        end in
      let s1 := {| streamAnalytics := streamAnalytics s; viewerSessions := sessions';
                   config := config s |} in
      ({| streamAnalytics :=
            <[roomName := refreshed s1 roomName (ended analytics now) nowUpdated]>
              (streamAnalytics s);
          viewerSessions := sessions'; config := config s |}, Ok tt)
  end.

(** [GetStreamAnalytics] recomputes the metrics in place before it returns
    the record. *)
Definition GetStreamAnalytics (s : AnalyticsService) (roomName : string) (now : Time)
  : AnalyticsService * outcome AnalyticsError StreamAnalytics :=
  match streamAnalytics s !! roomName with
  | None => (s, Err ErrNotFound)
  | Some analytics =>
      let a' := refreshed s roomName analytics now in
      ({| streamAnalytics := <[roomName := a']> (streamAnalytics s);
          viewerSessions := viewerSessions s; config := config s |}, Ok a')
  end.

Definition GetViewerSessions (s : AnalyticsService) (roomName : string)
  : list ViewerSession :=
  match viewerSessions s !! roomName with
  | None => []
  | Some sessions => (map_to_list sessions).*2
  end.

(** One firing of the ticker in [updateAnalyticsLoop]. *)
Definition sample (s : AnalyticsService) (roomName : string) (now nowUpdated : Time)
  : AnalyticsService :=
  match streamAnalytics s !! roomName with
  | None => s
  | Some analytics =>
      let timeline :=
        ViewerTimeline analytics
        ++ [{| tsTimestamp := now; Value := float64_of_int (CurrentViewers analytics) |}] in
      let timeline' :=
        if MaxTimelinePoints (config s) <? Z.of_nat (length timeline)
        then drop 1 timeline else timeline in
      {| streamAnalytics :=
           <[roomName := refreshed s roomName (with_Timeline analytics timeline') nowUpdated]>
             (streamAnalytics s);
         viewerSessions := viewerSessions s; config := config s |}
  end.

(** [CleanupOldAnalytics]; [cutoff] is the value of
    [time.Now().AddDate(0, 0, -RetentionDays)]. *)
Definition outdated (cutoff : Time) (a : StreamAnalytics) : bool :=
  match EndTime a with
  | Some e => Before e cutoff
  | None => false
  end.

Definition CleanupOldAnalytics (s : AnalyticsService) (cutoff : Time)
  : AnalyticsService * Z :=
  let old := filter (fun e => outdated cutoff e.2 = true) (streamAnalytics s) in
  ({| streamAnalytics := filter (fun e => outdated cutoff e.2 = false) (streamAnalytics s);
      viewerSessions := filter (fun e => old !! e.1 = None) (viewerSessions s);
      config := config s |}, Z.of_nat (size old)).




(** [(total, unique, current, peak)] of a room's record. *)
Definition counters (s : AnalyticsService) (roomName : string) : option (Z * Z * Z * Z) :=
  (fun a => (TotalViewers a, UniqueViewers a, CurrentViewers a, PeakViewers a))
    <$> streamAnalytics s !! roomName.


(** The scenario of the unique-viewer count on room [r3]: [alice], [bob]
    and [alice] join, [alice] leaves, [alice] joins again; the clock
    readings and the viewers' platform data are left open. *)
Definition fresh_r3 (cfg : option AnalyticsConfig) (streamer : string) (t0 t0' : Time)
  : AnalyticsService :=
  (StartStreamAnalytics (NewAnalyticsService cfg) "r3" streamer t0 t0').1.


(** The calls of the analytics engine; [CallSample] is one firing of the
    ticker of [updateAnalyticsLoop] for a room. *)
Inductive call :=
| CallStart (roomName streamerID : string) (nowStart nowUpdated : Time)
| CallStop (roomName : string) (now nowUpdated : Time)
| CallJoin (roomName viewerID platform device country region : string) (now : Time)
| CallLeave (roomName viewerID : string) (now : Time)
| CallChatMessage (roomName senderID : string)
| CallReaction (roomName senderID reactionType : string)
| CallBitrate (roomName : string) (bitrate : Z)
| CallGet (roomName : string) (now : Time)
| CallSample (roomName : string) (now nowUpdated : Time)
| CallCleanup (cutoff : Time).

Definition exec (s : AnalyticsService) (c : call) : AnalyticsService :=
  match c with
  | CallStart roomName streamerID nowStart nowUpdated =>
      (StartStreamAnalytics s roomName streamerID nowStart nowUpdated).1
  | CallStop roomName now nowUpdated => (StopStreamAnalytics s roomName now nowUpdated).1
  | CallJoin roomName viewerID platform device country region now =>
      (RecordViewerJoin s roomName viewerID platform device country region now).1
  | CallLeave roomName viewerID now => (RecordViewerLeave s roomName viewerID now).1
  | CallChatMessage roomName senderID => (RecordChatMessage s roomName senderID).1
  | CallReaction roomName senderID reactionType =>
      (RecordReaction s roomName senderID reactionType).1
  | CallBitrate roomName bitrate => (RecordBitrateUpdate s roomName bitrate).1
  | CallGet roomName now => (GetStreamAnalytics s roomName now).1
  | CallSample roomName now nowUpdated => sample s roomName now nowUpdated
  | CallCleanup cutoff => (CleanupOldAnalytics s cutoff).1
  end.

Definition exec_all (s : AnalyticsService) (calls : list call) : AnalyticsService :=
  foldl exec s calls.

(** The viewer counters of a record are in order, the total is at most
    [k], and the timeline holds at most [MaxTimelinePoints] points. *)
Definition record_ok (cfg : AnalyticsConfig) (k : Z) (a : StreamAnalytics) : Prop :=
  0 <= CurrentViewers a <= PeakViewers a
  /\ PeakViewers a <= TotalViewers a
  /\ 0 <= UniqueViewers a <= TotalViewers a
  /\ TotalViewers a <= k
  /\ Z.of_nat (length (ViewerTimeline a)) <= Z.max 0 (MaxTimelinePoints cfg).

Definition records_ok (s : AnalyticsService) (k : Z) : Prop :=
  forall name a, streamAnalytics s !! name = Some a -> record_ok (config s) k a.

(** Sample: a stream with two viewers, one of whom leaves twice. *)
Definition busy_calls : list call :=
  [CallStart "r3" "streamer" 0 0;
   CallJoin "r3" "alice" "web" "laptop" "VN" "SG" 10;
   CallJoin "r3" "bob" "web" "phone" "VN" "SG" 20;
   CallLeave "r3" "alice" 30; CallLeave "r3" "alice" 40;
   CallSample "r3" 50 50; CallStop "r3" 60 60].

(** *** The history of a room

    The calls the engine has served, oldest first, as the history against
    which a join is judged. *)

(** The call is a [RecordViewerJoin], a [RecordViewerLeave] of [viewerID]
    in room [roomName]; the call is a [StopStreamAnalytics] of the room. *)
Definition is_join_of (roomName viewerID : string) (c : call) : bool :=
  match c with
  | CallJoin r v _ _ _ _ _ => bool_decide (r = roomName) && bool_decide (v = viewerID)
  | _ => false
  end.

Definition is_leave_of (roomName viewerID : string) (c : call) : bool :=
  match c with
  | CallLeave r v _ => bool_decide (r = roomName) && bool_decide (v = viewerID)
  | _ => false
  end.


(** Following the words of the specification, "a prior completed session
    for the identity exists": somewhere in the history the identity joined
    the room and left it afterwards. *)
Fixpoint prior_completed_session (roomName viewerID : string) (history : list call)
  : bool :=
  match history with
  | [] => false
  | c :: later =>
      (is_join_of roomName viewerID c && existsb (is_leave_of roomName viewerID) later)
      || prior_completed_session roomName viewerID later
  end.

(** The identity's latest session is completed: its most recent join of
    the room is followed by a leave. *)
Fixpoint latest_session_completed (roomName viewerID : string) (history : list call)
  : bool :=
  match history with
  | [] => false
  | c :: later =>
      if existsb (is_join_of roomName viewerID) later
      then latest_session_completed roomName viewerID later
      else is_join_of roomName viewerID c && existsb (is_leave_of roomName viewerID) later
  end.



(** Samples: [alice] joins [r3], leaves, and joins again; the joins of the
    scenario as calls. *)
Definition join_r3 (viewerID : string) (now : Time) : call :=
  CallJoin "r3" viewerID "web" "desktop" "VN" "SG" now.

Definition alice_returns : list call :=
  [join_r3 "alice" 10; CallLeave "r3" "alice" 20; join_r3 "alice" 30].


End Analytics.

(** * Properties *)

(** ** Base types *)

Lemma wrap64_small (x : Z) : min_int64 <= x <= max_int64 -> wrap64 x = x.
Proof.
  unfold wrap64, min_int64, max_int64. intros Hx.
  rewrite Z.mod_small by lia. lia.
Qed.

Lemma int_incr_small (x : Z) : min_int64 <= x < max_int64 -> int_incr x = x + 1.
Proof. intros Hx. unfold int_incr. apply wrap64_small. lia. Qed.

Lemma int_decr_small (x : Z) : min_int64 < x <= max_int64 -> int_decr x = x - 1.
Proof. intros Hx. unfold int_decr. apply wrap64_small. lia. Qed.

Lemma Sub_small (t u : Time) : min_int64 <= t - u <= max_int64 -> Sub t u = t - u.
Proof.
  intros Hx. unfold Sub.
  destruct (Z.ltb_spec max_int64 (t - u)); [lia|].
  destruct (Z.ltb_spec (t - u) min_int64); [lia|]. reflexivity.
Qed.

Lemma After_spec (t u : Time) : After t u = true <-> u < t.
Proof. unfold After. apply Z.ltb_lt. Qed.

Lemma Before_spec (t u : Time) : Before t u = true <-> t < u.
Proof. unfold Before. apply Z.ltb_lt. Qed.

Lemma hex_EncodeToString_length (bs : list Byte.byte) :
  String.length (hex_EncodeToString bs) = (2 * length bs)%nat.
Proof. induction bs as [|b bs IH]; simpl; [reflexivity|]. rewrite IH. lia. Qed.

Example format_int_samples :
  format_int 9000 = "9000"%string /\ format_int 0 = "0"%string
  /\ format_int (-42) = "-42"%string.
Proof. repeat split. Qed.

Example hex_EncodeToString_sample :
  hex_EncodeToString [Byte.x00; Byte.x1f; Byte.xa0; Byte.xff] = "001fa0ff"%string.
Proof. reflexivity. Qed.

Example float64_of_int_rounds :
  float64_of_int (2 ^ 53 + 1) = float64_of_int (2 ^ 53)
  /\ float64_of_int (2 ^ 53 + 3) = float64_of_int (2 ^ 53 + 4)
  /\ float64_of_int 95 = S754_finite false 6685030696878080 (-46).
Proof. repeat split; vm_compute; reflexivity. Qed.

Example const_0_95_is_19_20 :
  const_0_95 = float64_div (float64_of_int 19) (float64_of_int 20).
Proof. vm_compute. reflexivity. Qed.

(** ** Stream keys *)

Module StreamKeysFacts.
Import StreamKeys.

Example k1_is_64_hex_digits : String.length k1 = 64%nat.
Proof. reflexivity. Qed.

Example validate_fresh_key : is_ok (ValidateStreamKey m1 k1 2000) = true.
Proof. vm_compute. reflexivity. Qed.

Example validate_after_expiry :
  ValidateStreamKey m1 k1 (1000 + hour + 1) = Err ErrExpired.
Proof. vm_compute. reflexivity. Qed.

(** What a call leaves of the entry under [k]. *)

Lemma unfold_exec_all m c cs : exec_all m (c :: cs) = exec_all (exec m c) cs.
Proof. reflexivity. Qed.

Lemma cleanup_keys now (entries : list (string * StreamKey)) m k :
  keys (foldr (cleanup_entry now) (m, 0) entries).1 !! k = None
  \/ keys (foldr (cleanup_entry now) (m, 0) entries).1 !! k = keys m !! k.
Proof.
  induction entries as [|[key sk] entries IH]; simpl; [by right|].
  destruct (foldr (cleanup_entry now) (m, 0) entries) as [m' n] eqn:E.
  simpl in *. destruct (expired now sk); simpl; [|exact IH].
  destruct (decide (key = k)) as [->|Hne].
  - left. apply lookup_delete_eq.
  - rewrite lookup_delete_ne by done. exact IH.
Qed.

(** Once the entry under [k] is inactive (or gone), no call that does not
    draw [k] again makes it active. *)
Lemma exec_keeps_inactive m c k :
  draws k c = false ->
  (forall sk, keys m !! k = Some sk -> IsActive sk = false) ->
  forall sk, keys (exec m c) !! k = Some sk -> IsActive sk = false.
Proof.
  intros Hdraw Hm sk.
  destruct c as [kb s r p e n1 n2|key now|key now|key|s|key|key md|now|now]; simpl;
    try apply Hm.
  - (* generate *)
    destruct kb as [bs|]; simpl; [|apply Hm].
    simpl in Hdraw. apply bool_decide_eq_false in Hdraw.
    destruct (slice_to _ 8); simpl; rewrite lookup_insert_ne by done; apply Hm.
  - (* mark used *)
    unfold MarkKeyAsUsed. destruct (keys m !! key) as [sk0|] eqn:E; simpl; [|apply Hm].
    destruct (slice_to key 8); simpl;
      (destruct (decide (key = k)) as [->|Hne];
       [rewrite lookup_insert_eq; intros [= <-]; simpl; by apply Hm
       |rewrite lookup_insert_ne by done; apply Hm]).
  - (* revoke *)
    unfold RevokeStreamKey. destruct (keys m !! key) as [sk0|] eqn:E; simpl; [|apply Hm].
    destruct (slice_to key 8); simpl;
      (destruct (decide (key = k)) as [->|Hne];
       [rewrite lookup_insert_eq; by intros [= <-]
       |rewrite lookup_insert_ne by done; apply Hm]).
  - (* delete *)
    unfold DeleteStreamKey. destruct (keys m !! key) as [sk0|] eqn:E; simpl; [|apply Hm].
    destruct (slice_to key 8); simpl;
      (destruct (decide (key = k)) as [->|Hne];
       [by rewrite lookup_delete_eq
       |rewrite lookup_delete_ne by done; apply Hm]).
  - (* metadata *)
    unfold UpdateStreamKeyMetadata.
    destruct (keys m !! key) as [sk0|] eqn:E; simpl; [|apply Hm].
    destruct (decide (key = k)) as [->|Hne];
      [rewrite lookup_insert_eq; intros [= <-]; simpl; by apply Hm
      |rewrite lookup_insert_ne by done; apply Hm].
  - (* sweep *)
    unfold CleanupExpiredKeys.
    destruct (cleanup_keys now (map_to_list (keys m)) m k) as [-> | ->]; [done|apply Hm].
Qed.

(** A call that neither draws, deletes nor sweeps keeps a revoked entry. *)
Lemma exec_retains_revoked m c k :
  draws k c = false -> removes k c = false ->
  (exists sk, keys m !! k = Some sk /\ IsActive sk = false) ->
  exists sk, keys (exec m c) !! k = Some sk /\ IsActive sk = false.
Proof.
  intros Hdraw Hrem (sk & Hk & Hact).
  destruct c as [kb s r p e n1 n2|key now|key now|key|s|key|key md|now|now]; simpl;
    try (by exists sk); try discriminate Hrem.
  - destruct kb as [bs|]; simpl; [|by exists sk].
    simpl in Hdraw. apply bool_decide_eq_false in Hdraw.
    destruct (slice_to _ 8); simpl; rewrite lookup_insert_ne by done; by exists sk.
  - unfold MarkKeyAsUsed. destruct (keys m !! key) as [sk0|] eqn:E; simpl; [|by exists sk].
    destruct (slice_to key 8); simpl;
      (destruct (decide (key = k)) as [->|Hne];
       [rewrite lookup_insert_eq; eexists; split; [reflexivity|]; simpl; congruence
       |rewrite lookup_insert_ne by done; by exists sk]).
  - unfold RevokeStreamKey. destruct (keys m !! key) as [sk0|] eqn:E; simpl; [|by exists sk].
    destruct (slice_to key 8); simpl;
      (destruct (decide (key = k)) as [->|Hne];
       [rewrite lookup_insert_eq; by eexists
       |rewrite lookup_insert_ne by done; by exists sk]).
  - simpl in Hrem. apply bool_decide_eq_false in Hrem.
    unfold DeleteStreamKey. destruct (keys m !! key) as [sk0|] eqn:E; simpl; [|by exists sk].
    destruct (slice_to key 8); simpl; rewrite lookup_delete_ne by done; by exists sk.
  - unfold UpdateStreamKeyMetadata.
    destruct (keys m !! key) as [sk0|] eqn:E; simpl; [|by exists sk].
    destruct (decide (key = k)) as [->|Hne];
      [rewrite lookup_insert_eq; eexists; split; [reflexivity|]; simpl; congruence
      |rewrite lookup_insert_ne by done; by exists sk].
Qed.

Lemma validate_inactive m k now :
  (forall sk, keys m !! k = Some sk -> IsActive sk = false) ->
  ValidateStreamKey m k now = Err ErrNotFound
  \/ ValidateStreamKey m k now = Err ErrInactive.
Proof.
  intros Hm. unfold ValidateStreamKey.
  destruct (keys m !! k) as [sk|]; [|by left].
  rewrite (Hm sk eq_refl). by right.
Qed.

(** C5 (as amended): what [validate] answers, case by case.  A key is
    returned exactly when it is stored, active, and either never expires or
    the clock is not past its expiry ([now <= expires_at]: the test is
    [now.After(expires_at)], so the instant of expiry itself still
    validates).  An absent key fails not_found; a stored inactive key fails
    inactive (whatever its expiry); a stored active key with the clock past
    its expiry fails expired. *)
Theorem validate_cases (m : StreamKeyManager) (key : string) (now : Time) :
  (forall sk, ValidateStreamKey m key now = Ok sk <->
     keys m !! key = Some sk /\ IsActive sk = true
     /\ (ExpiresAt sk = None \/ exists e, ExpiresAt sk = Some e /\ now <= e))
  /\ (ValidateStreamKey m key now = Err ErrNotFound <-> keys m !! key = None)
  /\ (ValidateStreamKey m key now = Err ErrInactive <->
       exists sk, keys m !! key = Some sk /\ IsActive sk = false)
  /\ (ValidateStreamKey m key now = Err ErrExpired <->
       exists sk e, keys m !! key = Some sk /\ IsActive sk = true
                    /\ ExpiresAt sk = Some e /\ e < now).
Proof.
  unfold ValidateStreamKey, After.
  destruct (keys m !! key) as [sk0|] eqn:Hk;
    [destruct (IsActive sk0) eqn:Hact; simpl;
     [destruct (ExpiresAt sk0) as [e|] eqn:Hexp;
      [destruct (Z.ltb_spec e now) as [Hlt|Hge]|]|]|];
    (split; [intros sk|split; [|split]]); split; intros H;
    repeat match goal with
      | H : ex _ |- _ => destruct H
      | H : _ /\ _ |- _ => destruct H
      | H : _ \/ _ |- _ => destruct H
      end;
    simplify_eq; try done; try lia; eauto 8.
  all: repeat split; try done; try congruence;
    try (right; exists e; split; [done|lia]); try by left.
Qed.

(** C5, the claim as stated fails: the key of the sample manager expires at
    [1000 + hour]; validated at exactly that instant it is returned, although
    [now < expires_at] does not hold. *)
Lemma validate_at_expiry_instant :
  exists sk,
    ValidateStreamKey m1 k1 (1000 + hour) = Ok sk
    /\ ~ (IsActive sk = true
          /\ (ExpiresAt sk = None
              \/ exists e, ExpiresAt sk = Some e /\ 1000 + hour < e)).
Proof.
  eexists. split; [vm_compute; reflexivity|].
  intros [_ [Hnone|(e & He & Hlt)]]; [discriminate Hnone|].
  vm_compute in He. injection He as <-. vm_compute in Hlt. discriminate Hlt.
Qed.

(** C7: revoke is absorbing.  After a successful [revoke(k)], whatever calls
    the manager serves next (the random keys drawn by later [generate] calls
    being different from [k]), [validate(k)] fails at every clock reading,
    the entry under [k] is never active again, and it stays in the manager,
    inactive, as long as no [delete(k)] and no sweep is among the calls. *)
Theorem revoke_absorbing (m : StreamKeyManager) (k : string) (cs : list call) :
  (RevokeStreamKey m k).2 = Ok tt ->
  forallb (fun c => negb (draws k c)) cs = true ->
  let m' := exec_all (RevokeStreamKey m k).1 cs in
  (forall now, ValidateStreamKey m' k now = Err ErrNotFound
               \/ ValidateStreamKey m' k now = Err ErrInactive)
  /\ (forall sk, keys m' !! k = Some sk -> IsActive sk = false)
  /\ (forallb (fun c => negb (removes k c)) cs = true ->
      exists sk, keys m' !! k = Some sk /\ IsActive sk = false).
Proof.
  intros Hok Hfresh m'.
  assert (Hrev : exists sk, keys (RevokeStreamKey m k).1 !! k = Some sk
                            /\ IsActive sk = false).
  { unfold RevokeStreamKey in *. destruct (keys m !! k) as [sk|]; [|discriminate Hok].
    destruct (slice_to k 8); [|discriminate Hok]. simpl.
    rewrite lookup_insert_eq. by eexists. }
  subst m'. revert Hfresh Hrev. generalize (RevokeStreamKey m k).1 as m0. clear Hok.
  induction cs as [|c cs IH]; intros m0 Hfresh Hrev.
  - simpl. destruct Hrev as (sk & Hk & Hact).
    assert (Hin : forall sk', keys m0 !! k = Some sk' -> IsActive sk' = false)
      by (intros sk' Hk'; congruence).
    split; [intros now; by apply validate_inactive|].
    split; [exact Hin|]. intros _. by exists sk.
  - simpl in Hfresh. apply andb_true_iff in Hfresh as [Hc Hfresh].
    apply negb_true_iff in Hc. rewrite unfold_exec_all.
    assert (Hin : forall sk', keys m0 !! k = Some sk' -> IsActive sk' = false).
    { destruct Hrev as (sk & Hk & Hact). intros sk' Hk'. congruence. }
    pose proof (exec_keeps_inactive m0 c k Hc Hin) as Hin'.
    destruct (removes k c) eqn:Hrem.
    + (* the call deletes or sweeps: the entry may be gone from here on *)
      assert (Hgen : forall cs' m1', forallb (fun c => negb (draws k c)) cs' = true ->
                 (forall sk', keys m1' !! k = Some sk' -> IsActive sk' = false) ->
                 forall sk', keys (exec_all m1' cs') !! k = Some sk' -> IsActive sk' = false).
      { clear. induction cs' as [|c' cs' IH']; intros m1' Hf Hi; [exact Hi|].
        simpl in Hf. apply andb_true_iff in Hf as [Hc' Hf]. apply negb_true_iff in Hc'.
        rewrite unfold_exec_all. apply IH'; [exact Hf|].
        by apply exec_keeps_inactive. }
      pose proof (Hgen cs (exec m0 c) Hfresh Hin') as Hfin.
      split; [intros now; by apply validate_inactive|].
      split; [exact Hfin|]. simpl. rewrite Hrem. discriminate.
    + destruct (IH (exec m0 c) Hfresh (exec_retains_revoked m0 c k Hc Hrem Hrev))
        as (Hv & Hi & Hr).
      split; [exact Hv|]. split; [exact Hi|].
      simpl. rewrite Hrem. simpl. exact Hr.
Qed.

(** The condition on the drawn keys cannot be dropped: a [generate] whose 32
    random bytes repeat those of [k1] stores a new, active key under the
    same name. *)
Example redrawn_key_validates :
  is_ok (ValidateStreamKey
           (exec_all (RevokeStreamKey m1 k1).1
              [CallGenerate (Some zeroBytes) "dave" "r9" None None 4000 4000])
           k1 5000) = true.
Proof. vm_compute. reflexivity. Qed.

(** The sample run: [k1] is revoked, then marked used, a second key is
    generated, metadata is attached, and the key is validated and counted. *)
Lemma revoke_absorbing_sample :
  (RevokeStreamKey m1 k1).2 = Ok tt
  /\ forallb (fun c => negb (draws k1 c)) later_calls = true
  /\ let m' := exec_all (RevokeStreamKey m1 k1).1 later_calls in
     (forall now, ValidateStreamKey m' k1 now = Err ErrNotFound
                  \/ ValidateStreamKey m' k1 now = Err ErrInactive)
     /\ (forall sk, keys m' !! k1 = Some sk -> IsActive sk = false)
     /\ (forallb (fun c => negb (removes k1 c)) later_calls = true ->
         exists sk, keys m' !! k1 = Some sk /\ IsActive sk = false).
Proof.
  split; [vm_compute; reflexivity|]. split; [vm_compute; reflexivity|].
  apply (revoke_absorbing m1 k1 later_calls); vm_compute; reflexivity.
Defined.

End StreamKeysFacts.

(** ** Chat *)

Module ChatFacts.
Import Chat.

Lemma set_room_same (cs : ChatService) (name : string) (room : ChatRoom) :
  rooms cs !! name = Some room -> set_room cs name room = cs.
Proof.
  intros H. destruct cs as [rs bw]. unfold set_room. simpl in *.
  f_equal. by apply insert_id.
Qed.

Lemma filterBadWords_unchanged (cs : ChatService) (content : string) :
  filterBadWords cs content = content.
Proof.
  unfold filterBadWords. induction (badWords cs) as [|w ws IH]; simpl; [reflexivity|].
  exact IH.
Qed.

(** Whatever the settings and the word list, a delivered message carries
    the submitted content byte for byte. *)
Lemma send_keeps_content cs name senderID content ty mentions reply clk msg :
  (SendMessage cs name senderID content ty mentions reply clk).2 = Ok msg ->
  Content msg = content.
Proof.
  unfold SendMessage. destruct (rooms cs !! name) as [room|]; [|discriminate].
  destruct (registered room senderID clk) as [p r]. simpl.
  repeat (match goal with
          | |- context [if ?b then _ else _] => destruct b
          end; simpl); try discriminate;
    intros [= <-]; simpl; by rewrite ?filterBadWords_unchanged.
Qed.

(** C3, evaluated on the code: in the default room (bad-word filter on,
    word list [spam], [badword1], [badword2]) [bob] sends "buy spam now".
    The send succeeds and the message returned, which is also the last
    entry of the room's log, still reads "buy spam now": [replaceWord]
    returns its argument, so nothing is masked. *)
Theorem bad_word_survives_send :
  let result :=
    SendMessage cs_lobby "lobby" "bob" "buy spam now" ChatMessageTypeText [] None
      (at_time 30) in
  (EnableBadWords <$> (Settings <$> rooms cs_lobby !! "lobby")) = Some true
  /\ exists msg room',
       result.2 = Ok msg
       /\ rooms result.1 !! "lobby" = Some room'
       /\ last (Messages room') = Some msg
       /\ Content msg = "buy spam now"%string
       /\ has_bad_word cs_lobby (Content msg) = true.
Proof.
  split; [vm_compute; reflexivity|].
  eexists. eexists.
  split; [vm_compute; reflexivity|].
  split; [vm_compute; reflexivity|].
  repeat split; vm_compute; reflexivity.
Qed.

(** A successful [mute] leaves the target's record with [is_muted = true]. *)
Lemma mute_sets_flag cs name target moderator duration :
  (MuteParticipant cs name target moderator duration).2 = Ok tt ->
  exists room p,
    rooms (MuteParticipant cs name target moderator duration).1 !! name = Some room
    /\ Participants room !! target = Some p /\ IsMuted p = true.
Proof.
  unfold MuteParticipant.
  destruct (rooms cs !! name) as [room|]; [|discriminate].
  destruct (negb _); [discriminate|].
  destruct (Participants room !! target) as [p|] eqn:Hp; [|discriminate].
  intros _. simpl. eexists. eexists.
  split; [apply lookup_insert_eq|]. simpl.
  split; [apply lookup_insert_eq|]. reflexivity.
Qed.

(** C9: a send by a participant whose record has [is_muted = true] fails
    with the muted error and leaves the whole service, hence the room's
    log, as it was; this holds for every content, settings and clock, so
    the mute test comes before the length, rate-limit and slow-mode
    checks. *)
Theorem muted_send_rejected (cs : ChatService) (name senderID : string)
    (room : ChatRoom) (p : ChatParticipant) (content : string)
    (messageType : ChatMessageType) (mentionedUsers : list string)
    (replyTo : option string) (clk : SendClock) :
  rooms cs !! name = Some room ->
  Participants room !! senderID = Some p ->
  IsMuted p = true ->
  SendMessage cs name senderID content messageType mentionedUsers replyTo clk
  = (cs, Err ErrMuted).
Proof.
  intros Hroom Hp Hmuted. unfold SendMessage, registered.
  rewrite Hroom, Hp. simpl. rewrite Hmuted.
  by rewrite set_room_same.
Qed.

(** [bob], muted by the moderator, sends a 600-byte text (over the limit of
    500): the answer is the muted error, not the length error. *)
Lemma muted_send_rejected_sample :
  exists room p,
    rooms cs_lobby_muted !! "lobby" = Some room
    /\ Participants room !! "bob" = Some p
    /\ IsMuted p = true
    /\ SendMessage cs_lobby_muted "lobby" "bob" long_text ChatMessageTypeText [] None
         (at_time 40)
       = (cs_lobby_muted, Err ErrMuted).
Proof.
  eexists. eexists.
  split; [vm_compute; reflexivity|].
  split; [vm_compute; reflexivity|].
  split; [reflexivity|].
  eapply (muted_send_rejected cs_lobby_muted "lobby" "bob");
    [vm_compute; reflexivity | vm_compute; reflexivity | reflexivity].
Defined.

(** *** The per-minute rate limit *)

Lemma count_back_nonneg cutoff senderID l : 0 <= count_back cutoff senderID l.
Proof.
  induction l as [|msg l IH]; simpl; [lia|].
  destruct (Before _ _); [lia|]. destruct (decide _); lia.
Qed.

Lemma filter_none {A} (f : A -> bool) (l : list A) :
  (forall x, In x l -> f x = false) -> List.filter f l = [].
Proof.
  induction l as [|x l IH]; intros H; simpl; [reflexivity|].
  rewrite (H x) by (by left). apply IH. intros y Hy. apply H. by right.
Qed.

(** On a log whose time stamps never decrease, the backwards scan that
    stops at the first old message counts exactly the sender's messages
    stamped at or after the cut-off. *)
Lemma count_back_window cutoff senderID (msgs : list ChatMessage) :
  nondecreasing (Timestamp <$> msgs) ->
  count_back cutoff senderID (rev msgs)
  = Z.of_nat (length (List.filter (in_window senderID cutoff) msgs)).
Proof.
  induction msgs as [|x init IH] using rev_ind; intros Hsorted; [reflexivity|].
  rewrite rev_unit. simpl.
  rewrite fmap_app in Hsorted. apply StronglySorted_app in Hsorted as (Hle & Hinit & _).
  rewrite List.filter_app, length_app. simpl.
  unfold in_window at 2.
  destruct (Before (Timestamp x) cutoff) eqn:Hold.
  - rewrite andb_false_r. simpl.
    apply Before_spec in Hold.
    assert (Hnone : List.filter (in_window senderID cutoff) init = []).
    { apply filter_none. intros m Hm.
      unfold in_window. apply andb_false_iff. right. apply negb_false_iff.
      apply Before_spec.
      assert (Timestamp m <= Timestamp x); [|lia].
      apply (Hle (Timestamp m) (Timestamp x)).
      - apply list_elem_of_fmap. exists m. split; [done|]. by apply list_elem_of_In.
      - apply list_elem_of_singleton. reflexivity. }
    rewrite Hnone. reflexivity.
  - rewrite andb_true_r. rewrite (IH Hinit).
    destruct (decide (SenderID x = senderID)) as [Heq|Hne].
    + rewrite bool_decide_eq_true_2 by done. simpl. lia.
    + rewrite bool_decide_eq_false_2 by done. simpl. lia.
Qed.

Lemma countRecentMessages_window room senderID now :
  nondecreasing (Timestamp <$> Messages room) ->
  countRecentMessages room senderID Minute now = recent_count room senderID (now - Minute).
Proof.
  intros Hs. unfold countRecentMessages, recent_count, Add.
  rewrite (count_back_window _ _ _ Hs). do 3 f_equal.
Qed.

Lemma registered_props room0 senderID clk :
  Messages (registered room0 senderID clk).2 = Messages room0
  /\ Settings (registered room0 senderID clk).2 = Settings room0
  /\ (not_muted room0 senderID -> IsMuted (registered room0 senderID clk).1 = false).
Proof.
  unfold registered. destruct (Participants room0 !! senderID) as [p|] eqn:Hp; simpl.
  - repeat split. intros Hm. by apply Hm.
  - repeat split.
Qed.

(** What [SendMessage] answers in a room that exists: the four tests in the
    order the code applies them, and what a delivered message leaves. *)
Lemma SendMessage_cases cs name senderID content ty mentions reply clk room0 :
  rooms cs !! name = Some room0 ->
  let p := (registered room0 senderID clk).1 in
  let room := (registered room0 senderID clk).2 in
  let result := SendMessage cs name senderID content ty mentions reply clk in
  (IsMuted p = true /\ result.2 = Err ErrMuted)
  \/ (IsMuted p = false
      /\ MaxMessageLength (Settings room) < Z.of_nat (String.length content)
      /\ result.2 = Err ErrTooLong)
  \/ (IsMuted p = false
      /\ Z.of_nat (String.length content) <= MaxMessageLength (Settings room)
      /\ MaxMessagesPerMin (Settings room)
         <= countRecentMessages room senderID Minute (sCount clk)
      /\ result.2 = Err ErrRateLimit)
  \/ (IsMuted p = false
      /\ Z.of_nat (String.length content) <= MaxMessageLength (Settings room)
      /\ countRecentMessages room senderID Minute (sCount clk)
         < MaxMessagesPerMin (Settings room)
      /\ slowModeActive room senderID (sSince clk) = true
      /\ result.2 = Err ErrSlowMode)
  \/ (IsMuted p = false
      /\ Z.of_nat (String.length content) <= MaxMessageLength (Settings room)
      /\ countRecentMessages room senderID Minute (sCount clk)
         < MaxMessagesPerMin (Settings room)
      /\ slowModeActive room senderID (sSince clk) = false
      /\ exists msg room' p',
           result.2 = Ok msg
           /\ SenderID msg = senderID /\ Timestamp msg = sStamp clk
           /\ rooms result.1 !! name = Some room'
           /\ Messages room' = Messages room0 ++ [msg]
           /\ Settings room' = Settings room0
           /\ Participants room' !! senderID = Some p' /\ IsMuted p' = false).
Proof.
  intros Hroom p room result. subst p room result.
  destruct (registered_props room0 senderID clk) as (Hmsgs & Hset & _).
  unfold SendMessage. rewrite Hroom.
  destruct (registered room0 senderID clk) as [p room]. simpl in *.
  destruct (IsMuted p) eqn:Hm; [left; done|right].
  destruct (Z.ltb_spec (MaxMessageLength (Settings room))
              (Z.of_nat (String.length content))) as [Hlong|Hlen]; [left; done|right].
  destruct (Z.leb_spec (MaxMessagesPerMin (Settings room))
              (countRecentMessages room senderID Minute (sCount clk))) as [Hrate|Hrate];
    [left; done|right].
  destruct (slowModeActive room senderID (sSince clk)) eqn:Hslow; [left; done|right].
  repeat (split; [done|]). simpl.
  eexists. eexists. eexists.
  split; [reflexivity|]. simpl.
  split; [reflexivity|]. split; [reflexivity|].
  split; [apply lookup_insert_eq|]. simpl.
  split; [by rewrite Hmsgs|]. split; [exact Hset|].
  split; [apply lookup_insert_eq|]. exact Hm.
Qed.

Lemma rate_limit_exact cs name room senderID content ty mentions reply clk :
  rooms cs !! name = Some room ->
  nondecreasing (Timestamp <$> Messages room) ->
  not_muted room senderID ->
  Z.of_nat (String.length content) <= MaxMessageLength (Settings room) ->
  (SendMessage cs name senderID content ty mentions reply clk).2 = Err ErrRateLimit
  <-> MaxMessagesPerMin (Settings room) <= recent_count room senderID (sCount clk - Minute).
Proof.
  intros Hroom Hsorted Hmute Hlen.
  pose proof (SendMessage_cases cs name senderID content ty mentions reply clk room Hroom)
    as Hcases. simpl in Hcases.
  destruct (registered_props room senderID clk) as (Hmsgs & Hset & Hp).
  rewrite countRecentMessages_window in Hcases by (by rewrite Hmsgs).
  unfold recent_count in Hcases at 1 2 3. rewrite Hmsgs, Hset, (Hp Hmute) in Hcases.
  fold (recent_count room senderID (sCount clk - Minute)) in Hcases.
  destruct Hcases as [(Hm & _)|[(_ & Hlong & _)|[(_ & _ & Hle & ->)
    |[(_ & _ & Hlt & _ & ->)|(_ & _ & Hlt & _ & msg & room' & p' & -> & _)]]]].
  - discriminate.
  - lia.
  - split; [intros _; exact Hle|reflexivity].
  - split; [discriminate|lia].
  - split; [discriminate|lia].
Qed.

Lemma registered_member room senderID clk p :
  Participants room !! senderID = Some p -> registered room senderID clk = (p, room).
Proof. intros H. unfold registered. by rewrite H. Qed.

(** A run of sends that all succeed appends one message of the sender per
    request, stamped with the request's clock reading, and leaves the
    sender registered and not muted. *)
Lemma send_all_ok name senderID (qs : list send) :
  forall cs room,
  rooms cs !! name = Some room ->
  Forall (fun o => is_ok o = true) (send_all cs name senderID qs).2 ->
  exists room' msgs,
    rooms (send_all cs name senderID qs).1 !! name = Some room'
    /\ Messages room' = Messages room ++ msgs
    /\ Settings room' = Settings room
    /\ Forall (fun m => SenderID m = senderID) msgs
    /\ Timestamp <$> msgs = stamps qs
    /\ (qs <> [] \/ (exists p, Participants room !! senderID = Some p /\ IsMuted p = false) ->
        exists p, Participants room' !! senderID = Some p /\ IsMuted p = false).
Proof.
  induction qs as [|q qs IH]; intros cs room Hroom Hok.
  - exists room, []. simpl. rewrite app_nil_r.
    repeat split; try done. intros [H|H]; [done|exact H].
  - simpl in Hok |- *. unfold do_send in *.
    pose proof (SendMessage_cases cs name senderID (sContent q) (sType q) (sMentions q)
                  (sReply q) (sClock q) room Hroom) as Hcases. simpl in Hcases.
    destruct (SendMessage cs name senderID (sContent q) (sType q) (sMentions q)
                (sReply q) (sClock q)) as [cs1 o] eqn:Hsend.
    destruct (send_all cs1 name senderID qs) as [cs2 os] eqn:Hrest.
    simpl in *. apply Forall_cons in Hok as [Ho Hos].
    destruct Hcases as [(_ & ->)|[(_ & _ & ->)|[(_ & _ & _ & ->)
      |[(_ & _ & _ & _ & ->)|(_ & _ & _ & _ & msg & room1 & p1 & -> & Hs & Ht & Hr1 & Hm1 & Hset1 & Hp1 & Hmute1)]]]];
      try discriminate Ho.
    specialize (IH cs1 room1 Hr1). rewrite Hrest in IH. simpl in IH.
    destruct (IH Hos) as (room' & msgs & Hr' & Hm' & Hset' & Hsend' & Hts' & Hp').
    exists room', (msg :: msgs).
    split; [exact Hr'|].
    split; [rewrite Hm', Hm1, <- app_assoc; reflexivity|].
    split; [congruence|].
    split; [by constructor|].
    split; [rewrite fmap_cons, Ht, Hts'; reflexivity|].
    intros _. apply Hp'. right. by exists p1.
Qed.

Lemma filter_all {A} (f : A -> bool) (l : list A) :
  Forall (fun x => f x = true) l -> List.filter f l = l.
Proof.
  induction 1 as [|x l Hx _ IH]; simpl; [reflexivity|]. by rewrite Hx, IH.
Qed.

(** *** The log of a room under a clock that does not run backwards *)

Lemma log_of_set_room cs name room name' :
  log_of (set_room cs name room) name'
  = if decide (name = name') then Timestamp <$> Messages room else log_of cs name'.
Proof.
  unfold log_of, set_room. simpl. destruct (decide (name = name')) as [->|Hne].
  - by rewrite lookup_insert_eq.
  - by rewrite lookup_insert_ne.
Qed.

Lemma delete_first_stamps messageID msgs msgs' :
  delete_first messageID msgs = Some msgs' -> Timestamp <$> msgs' = Timestamp <$> msgs.
Proof.
  revert msgs'. induction msgs as [|m msgs IH]; intros msgs'; simpl; [discriminate|].
  destruct (decide (ID m = messageID)); [by intros [= <-]|].
  destruct (delete_first messageID msgs) as [r|]; [|discriminate].
  intros [= <-]. rewrite !fmap_cons. f_equal. by apply IH.
Qed.

(** Every operation of the chat engine either leaves the time stamps of a
    room's log as they are or appends its own stamp reading to them. *)
Lemma chat_logs_grow cs name' :
  (forall name sender content ty mentions reply clk,
     let cs' := (SendMessage cs name sender content ty mentions reply clk).1 in
     log_of cs' name' = log_of cs name' \/ log_of cs' name' = log_of cs name' ++ [sStamp clk])
  /\ (forall name who display moderator clk,
        let cs' := (JoinChatRoom cs name who display moderator clk).1 in
        log_of cs' name' = log_of cs name' \/ log_of cs' name' = log_of cs name' ++ [jStamp clk])
  /\ (forall name who nowID nowStamp,
        let cs' := (LeaveChatRoom cs name who nowID nowStamp).1 in
        log_of cs' name' = log_of cs name' \/ log_of cs' name' = log_of cs name' ++ [nowStamp])
  /\ (forall name messageID moderator,
        log_of (DeleteMessage cs name messageID moderator).1 name' = log_of cs name')
  /\ (forall name who moderator duration,
        log_of (MuteParticipant cs name who moderator duration).1 name' = log_of cs name')
  /\ (forall name who, log_of (unmuteTimer cs name who) name' = log_of cs name')
  /\ (forall name who moderator duration now,
        log_of (BanParticipant cs name who moderator duration now).1 name' = log_of cs name').
Proof.
  assert (Hsame : forall name room, rooms cs !! name = Some room ->
            forall room', Messages room' = Messages room ->
            log_of (set_room cs name room') name' = log_of cs name').
  { intros name room Hroom room' Hm. rewrite log_of_set_room.
    destruct (decide (name = name')) as [<-|]; [|reflexivity].
    unfold log_of. rewrite Hroom. simpl. by rewrite Hm. }
  assert (Happ : forall name room, rooms cs !! name = Some room ->
            forall room' t,
            Timestamp <$> Messages room' = (Timestamp <$> Messages room) ++ [t] ->
            log_of (set_room cs name room') name' = log_of cs name'
            \/ log_of (set_room cs name room') name' = log_of cs name' ++ [t]).
  { intros name room Hroom room' t Hm. rewrite log_of_set_room.
    destruct (decide (name = name')) as [<-|]; [|by left].
    right. unfold log_of. rewrite Hroom. simpl. exact Hm. }
  repeat split.
  - intros name sender content ty mentions reply clk. simpl.
    unfold SendMessage. destruct (rooms cs !! name) as [room|] eqn:Hroom; [|by left].
    destruct (registered_props room sender clk) as (Hmsgs & _ & _).
    destruct (registered room sender clk) as [p r]. simpl in *.
    repeat (match goal with |- context [if ?b then _ else _] => destruct b end; simpl);
      try (left; by apply (Hsame name room Hroom)).
    all: apply (Happ name room Hroom _ (sStamp clk)); simpl; by rewrite fmap_app, Hmsgs.
  - intros name who display moderator clk. simpl.
    unfold JoinChatRoom. destruct (rooms cs !! name) as [room|] eqn:Hroom; [|by left].
    destruct (match BannedUsers room !! who with Some _ => _ | None => _ end); [by left|].
    simpl. apply (Happ name room Hroom _ (jStamp clk)). simpl. by rewrite fmap_app.
  - intros name who nowID nowStamp. simpl.
    unfold LeaveChatRoom. destruct (rooms cs !! name) as [room|] eqn:Hroom; [|by left].
    destruct (Participants room !! who); [|by left].
    simpl. apply (Happ name room Hroom _ nowStamp). simpl. by rewrite fmap_app.
  - intros name messageID moderator.
    unfold DeleteMessage. destruct (rooms cs !! name) as [room|] eqn:Hroom; [|done].
    destruct (negb _); [done|].
    destruct (delete_first messageID (Messages room)) as [msgs|] eqn:Hd; [|done].
    simpl. rewrite log_of_set_room.
    destruct (decide (name = name')) as [<-|]; [|reflexivity].
    unfold log_of. rewrite Hroom. simpl. by apply delete_first_stamps in Hd.
  - intros name who moderator duration.
    unfold MuteParticipant. destruct (rooms cs !! name) as [room|] eqn:Hroom; [|done].
    destruct (negb _); [done|]. destruct (Participants room !! who); [|done].
    simpl. by apply (Hsame name room Hroom).
  - intros name who.
    unfold unmuteTimer. destruct (rooms cs !! name) as [room|] eqn:Hroom; [|done].
    destruct (Participants room !! who); [|done]. by apply (Hsame name room Hroom).
  - intros name who moderator duration now.
    unfold BanParticipant. destruct (rooms cs !! name) as [room|] eqn:Hroom; [|done].
    destruct (negb _); [done|]. simpl. by apply (Hsame name room Hroom).
Qed.

(** So a log stays non-decreasing when every stamp reading is at or after
    the stamps already in it. *)
Lemma nondecreasing_snoc (ts : list Time) (t : Time) :
  nondecreasing ts -> Forall (fun u => u <= t) ts -> nondecreasing (ts ++ [t]).
Proof.
  intros Hs Hle. apply StronglySorted_app_2; [|exact Hs|repeat constructor].
  intros u v Hu Hv. apply list_elem_of_singleton in Hv as ->.
  rewrite Forall_forall in Hle. by apply Hle.
Qed.

(** C6: the per-minute rate limit of chat.  In a room whose log was written
    by a clock that does not run backwards:
    - a send that passes the mute and length tests fails with rate_limited
      exactly when the log holds at least [max_per_minute] messages of the
      sender stamped within the minute before the call;
    - after [max_per_minute] successful sends of the sender, a further send
      whose trailing minute still covers all of them fails with
      rate_limited;
    - once every message of the sender is older than a minute, a further
      send succeeds (its content within the length limit and slow mode not
      holding it back). *)
Theorem rate_limit_round_trip (cs : ChatService) (name senderID : string)
    (room : ChatRoom) :
  rooms cs !! name = Some room ->
  nondecreasing (Timestamp <$> Messages room) ->
  (forall content ty mentions reply clk,
     not_muted room senderID ->
     Z.of_nat (String.length content) <= MaxMessageLength (Settings room) ->
     (SendMessage cs name senderID content ty mentions reply clk).2 = Err ErrRateLimit
     <-> MaxMessagesPerMin (Settings room)
         <= recent_count room senderID (sCount clk - Minute))
  /\ (forall qs : list send,
      0 < MaxMessagesPerMin (Settings room) ->
      Z.of_nat (length qs) = MaxMessagesPerMin (Settings room) ->
      nondecreasing ((Timestamp <$> Messages room) ++ stamps qs) ->
      Forall (fun o => is_ok o = true) (send_all cs name senderID qs).2 ->
      let cs' := (send_all cs name senderID qs).1 in
      (forall next : send,
         fits room next ->
         Forall (fun t => sCount (sClock next) - Minute <= t) (stamps qs) ->
         (do_send cs' name senderID next).2 = Err ErrRateLimit)
      /\ (forall late : send,
          fits room late ->
          (forall m, m ∈ Messages room -> SenderID m = senderID ->
                     Timestamp m < sCount (sClock late) - Minute) ->
          Forall (fun t => t < sCount (sClock late) - Minute) (stamps qs) ->
          (forall room', rooms cs' !! name = Some room' ->
                         slowModeActive room' senderID (sSince (sClock late)) = false) ->
          is_ok (do_send cs' name senderID late).2 = true)).
Proof.
  intros Hroom Hsorted. split.
  { intros content ty mentions reply clk Hmute Hlen. by apply rate_limit_exact. }
  intros qs Hpos Hlen Hrun Hok cs'.
  destruct (send_all_ok name senderID qs cs room Hroom Hok)
    as (room' & msgs & Hr' & Hm' & Hset' & Hsender & Hts & Hp').
  fold cs' in Hr'.
  destruct Hp' as (p' & Hp' & Hunmuted).
  { left. intros ->. simpl in Hlen. lia. }
  assert (Hsorted' : nondecreasing (Timestamp <$> Messages room')).
  { by rewrite Hm', fmap_app, Hts. }
  assert (Hmute' : not_muted room' senderID).
  { intros p0 Hp0. congruence. }
  split.
  - intros next Hfits Hwithin. unfold do_send.
    apply rate_limit_exact with (room := room'); try done.
    { rewrite Hset'. exact Hfits. }
    rewrite Hset', <- Hlen. unfold recent_count. rewrite Hm', List.filter_app, length_app.
    rewrite (filter_all _ msgs).
    + assert (length msgs = length qs) as ->; [|lia].
      rewrite <- (length_fmap Timestamp msgs), Hts. unfold stamps. by rewrite length_fmap.
    + rewrite <- Hts in Hwithin. rewrite Forall_fmap in Hwithin.
      rewrite Forall_forall in Hsender, Hwithin. apply Forall_forall. intros m Hm.
      unfold in_window. rewrite bool_decide_eq_true_2 by (by apply Hsender).
      simpl. apply negb_true_iff. unfold Before. apply Z.ltb_ge.
      by apply (Hwithin m).
  - intros late Hfits Hold Holdrun Hslow. unfold do_send.
    pose proof (SendMessage_cases cs' name senderID (sContent late) (sType late)
                  (sMentions late) (sReply late) (sClock late) room' Hr') as Hcases.
    simpl in Hcases. rewrite (registered_member _ _ _ _ Hp') in Hcases. simpl in Hcases.
    rewrite countRecentMessages_window in Hcases by done.
    assert (Hzero : recent_count room' senderID (sCount (sClock late) - Minute) = 0).
    { unfold recent_count. rewrite filter_none; [reflexivity|].
      intros m Hm. unfold in_window.
      destruct (decide (SenderID m = senderID)) as [Heq|Hne];
        [|by rewrite bool_decide_eq_false_2].
      rewrite bool_decide_eq_true_2 by done. simpl. apply negb_false_iff.
      apply Before_spec. rewrite Hm' in Hm. apply in_app_or in Hm as [Hm|Hm].
      - apply Hold; [by apply list_elem_of_In|done].
      - rewrite <- Hts in Holdrun. rewrite Forall_fmap in Holdrun.
        rewrite Forall_forall in Holdrun. apply (Holdrun m). by apply list_elem_of_In. }
    rewrite Hzero, Hset', Hunmuted, (Hslow room' Hr') in Hcases.
    unfold fits in Hfits.
    destruct Hcases as [(Hm & _)|[(_ & Hlong & _)|[(_ & _ & Hle & _)
      |[(_ & _ & _ & Hs & _)|(_ & _ & _ & _ & msg & r2 & p2 & -> & _)]]]];
      try discriminate; try lia.
    reflexivity.
Qed.

(** Room [r2] admits two messages a minute: [bob] sends at 1000 ns and
    2000 ns, is refused at 3000 ns, and is served again one nanosecond after
    the second message left the trailing minute. *)
Lemma rate_limit_round_trip_sample :
  rooms cs_r2 !! "r2" = Some room_r2
  /\ nondecreasing (Timestamp <$> Messages room_r2)
  /\ Forall (fun o => is_ok o = true) (send_all cs_r2 "r2" "bob" two_sends).2
  /\ (do_send (send_all cs_r2 "r2" "bob" two_sends).1 "r2" "bob" (say "third" 3000)).2
     = Err ErrRateLimit
  /\ is_ok (do_send (send_all cs_r2 "r2" "bob" two_sends).1 "r2" "bob"
              (say "later" (2001 + Minute))).2 = true.
Proof.
  assert (Hroom : rooms cs_r2 !! "r2" = Some room_r2) by (vm_compute; reflexivity).
  assert (Hsorted : nondecreasing (Timestamp <$> Messages room_r2)) by constructor.
  assert (Hok : Forall (fun o => is_ok o = true) (send_all cs_r2 "r2" "bob" two_sends).2)
    by (vm_compute; repeat constructor).
  destruct (rate_limit_round_trip cs_r2 "r2" "bob" room_r2 Hroom Hsorted) as [_ Hrun].
  destruct (Hrun two_sends) as [Hnext Hlate].
  - reflexivity.
  - reflexivity.
  - unfold nondecreasing. simpl. repeat (constructor; try lia).
  - exact Hok.
  - repeat (split; [assumption|]). split.
    + apply Hnext; [vm_compute; discriminate|].
      unfold stamps. simpl. repeat (constructor; try (vm_compute; discriminate)).
    + apply Hlate.
      * vm_compute; discriminate.
      * intros m Hm. simpl in Hm. by apply elem_of_nil in Hm.
      * unfold stamps. simpl. repeat (constructor; try (vm_compute; reflexivity)).
      * intros room' Hr'. vm_compute in Hr'. injection Hr' as <-.
        vm_compute. reflexivity.
Defined.

End ChatFacts.

(** ** Reactions *)

Module ReactionsFacts.
Import Reactions.

(** A sender who already has a rate-limit record [rl] in the room, under
    the per-second limit of three. *)
Section PerSecond.

Variable rs : ReactionService.
Variables name userID : string.
Variable room : ReactionRoom.
Variable rl : RateLimit.

Hypothesis Henabled : EnableRateLimit (config rs) = true.
Hypothesis Hthree : MaxReactionsPerSecond (config rs) = 3.
Hypothesis Hroom : rooms rs !! name = Some room.
Hypothesis Hrl : RateLimits room !! userID = Some rl.

(** A request that comes too early is refused and changes nothing. *)
Lemma SendReaction_refused userName ty pos clk :
  Sub (rCheck clk) (LastReaction rl) < Second ÷ 3 ->
  SendReaction rs name userID userName ty pos clk = (rs, Err ErrPerSecond).
Proof.
  intros Hclose.
  unfold SendReaction, checkRateLimit. rewrite Hroom, Henabled, Hrl, Hthree. simpl.
  destruct (Z.ltb_spec (Sub (rCheck clk) (LastReaction rl)) (Second ÷ 3)); [reflexivity|lia].
Qed.

(** An accepted request comes at least [1s / 3] after the reaction recorded
    in [rl]. *)
Lemma SendReaction_spacing userName ty pos clk :
  is_ok (SendReaction rs name userID userName ty pos clk).2 = true ->
  Second ÷ 3 <= Sub (rCheck clk) (LastReaction rl).
Proof.
  intros Hok.
  destruct (Z.lt_ge_cases (Sub (rCheck clk) (LastReaction rl)) (Second ÷ 3)) as [Hlt|Hge];
    [|exact Hge].
  rewrite (SendReaction_refused userName ty pos clk Hlt) in Hok. discriminate Hok.
Qed.

(** Every request of the sender whose check comes less than [1s / 3] after
    the recorded reaction is refused, one after the other. *)
Lemma serve_refused (qs : list request) :
  Forall (fun q => reqUser q = userID
                   /\ Sub (rCheck (reqClock q)) (LastReaction rl) < Second ÷ 3) qs ->
  serve rs name qs = (rs, repeat (Err ErrPerSecond) (length qs)).
Proof.
  induction qs as [|q qs IH]; intros Hqs; [reflexivity|].
  apply Forall_cons in Hqs as [[Hu Hq] Hqs]. simpl.
  rewrite Hu, (SendReaction_refused (reqName q) (reqType q) (reqPosition q) (reqClock q) Hq).
  by rewrite (IH Hqs).
Qed.

End PerSecond.

Lemma updateRateLimit_last limits userID now :
  exists rl, updateRateLimit limits userID now !! userID = Some rl
             /\ LastReaction rl = now.
Proof.
  unfold updateRateLimit. destruct (if Minute <=? _ then _ else _) as [w c].
  eexists. split; [apply lookup_insert_eq|reflexivity].
Qed.

(** Every accepted reaction leaves the sender a rate-limit record whose
    [LastReaction] is the clock reading of its [updateRateLimit]. *)
Lemma SendReaction_accepted rs name userID userName ty pos clk reaction :
  (SendReaction rs name userID userName ty pos clk).2 = Ok reaction ->
  exists room' rl,
    rooms (SendReaction rs name userID userName ty pos clk).1 !! name = Some room'
    /\ RateLimits room' !! userID = Some rl
    /\ LastReaction rl = rLimit clk.
Proof.
  unfold SendReaction.
  set (room0 := match rooms rs !! name with
                | Some room => (rs, room)
                | None => _
                end).
  destruct room0 as [rs1 room].
  destruct (if EnableRateLimit (config rs) then _ else _); try discriminate.
  destruct (appendReaction (config rs) room name userID userName ty pos clk)
    as [room' [r|]] eqn:Happ; [|discriminate].
  intros _. simpl. rewrite lookup_insert_eq.
  destruct (updateRateLimit_last (RateLimits room) userID (rLimit clk))
    as (rl & Hrl & Hlast).
  exists room', rl. split; [reflexivity|].
  unfold appendReaction in Happ.
  destruct (if MaxRecentReactions (config rs) <? _ then _ else _); [|discriminate Happ].
  injection Happ as <- _. simpl. done.
Qed.

(** The first reaction of a sender is accepted and leaves a rate-limit
    record whose [LastReaction] is the clock reading of [updateRateLimit]. *)
Lemma SendReaction_first rs name userID userName ty pos clk :
  EnableRateLimit (config rs) = true ->
  0 <= MaxRecentReactions (config rs) ->
  first_time rs name userID ->
  exists reaction room' rl,
    (SendReaction rs name userID userName ty pos clk).2 = Ok reaction
    /\ rooms (SendReaction rs name userID userName ty pos clk).1 !! name = Some room'
    /\ RateLimits room' !! userID = Some rl
    /\ LastReaction rl = rLimit clk
    /\ config (SendReaction rs name userID userName ty pos clk).1 = config rs.
Proof.
  intros Hen Hrecent Hfirst.
  unfold SendReaction.
  assert (Hcheck : forall room, RateLimits room !! userID = None ->
            checkRateLimit (config rs) room userID (rCheck clk) = Ok tt).
  { intros room Hn. unfold checkRateLimit. by rewrite Hn. }
  assert (Happend : forall room,
            exists room' reaction rl,
              appendReaction (config rs) room name userID userName ty pos clk
              = (room', Some reaction)
              /\ RateLimits room' !! userID = Some rl /\ LastReaction rl = rLimit clk).
  { intros room.
    destruct (updateRateLimit_last (RateLimits room) userID (rLimit clk))
      as (rl & Hrl & Hlast).
    unfold appendReaction.
    destruct (MaxRecentReactions (config rs) <? _).
    - destruct (MaxRecentReactions (config rs)) eqn:Hm; try lia;
        (eexists; eexists; exists rl; split; [reflexivity|]; simpl; done).
    - eexists; eexists; exists rl; split; [reflexivity|]; simpl; done. }
  rewrite Hen.
  destruct (rooms rs !! name) as [room|] eqn:Hroom.
  - rewrite (Hcheck room (Hfirst room Hroom)).
    destruct (Happend room) as (room' & reaction & rl & -> & Hrl & Hlast).
    exists reaction, room', rl. simpl. rewrite lookup_insert_eq. done.
  - rewrite (Hcheck (emptyRoom name (rCreated clk) (rStatsInit clk))) by apply lookup_empty.
    destruct (Happend (emptyRoom name (rCreated clk) (rStatsInit clk)))
      as (room' & reaction & rl & -> & Hrl & Hlast).
    exists reaction, room', rl. simpl. rewrite lookup_insert_eq. done.
Qed.

Lemma Sub_ge (t u : Time) (d : Duration) : min_int64 < d -> d <= Sub t u -> d <= t - u.
Proof.
  unfold Sub. intros Hd.
  destruct (Z.ltb_spec max_int64 (t - u)); [intros; unfold max_int64 in *; lia|].
  destruct (Z.ltb_spec (t - u) min_int64); lia.
Qed.

Lemma succeeded_one (r : Reaction) (n : nat) :
  succeeded (Ok r :: repeat (Err ErrPerSecond) n) = 1%nat
  /\ length (List.filter rate_limited (Ok r :: repeat (Err ErrPerSecond) n)) = n.
Proof.
  unfold succeeded. simpl. induction n as [|n [IH1 IH2]]; simpl; [done|].
  split; [exact IH1|]. by rewrite IH2.
Qed.

Example third_of_a_second : Second ÷ 3 = 333333333.
Proof. reflexivity. Qed.

(** C2 (as amended).  With rate limiting enabled and [max_per_second = 3]:
    - a reaction of a sender who reacted before is accepted only if its
      rate-limit check comes at least [1s / 3] (333 333 333 ns) after the
      sender's last accepted reaction;
    - so of the requests one sender issues within 100 ms, served one after
      the other and starting with the sender's first reaction in the room,
      exactly the first succeeds and every other one fails with the
      per-second rate_limited error: of four calls, 1 succeeds and 3 fail. *)
Theorem reaction_per_second_limit (rs : ReactionService) (name userID : string) :
  EnableRateLimit (config rs) = true ->
  MaxReactionsPerSecond (config rs) = 3 ->
  (forall room rl userName ty pos clk,
     rooms rs !! name = Some room ->
     RateLimits room !! userID = Some rl ->
     is_ok (SendReaction rs name userID userName ty pos clk).2 = true ->
     333333333 <= rCheck clk - LastReaction rl)
  /\ (forall (t0 : Time) (q : request) (qs : list request),
      0 <= MaxRecentReactions (config rs) ->
      first_time rs name userID ->
      Forall (fun q' => reqUser q' = userID
                        /\ issued_within t0 (100 * millisecond) q') (q :: qs) ->
      (exists reaction,
         (serve rs name (q :: qs)).2
         = Ok reaction :: repeat (Err ErrPerSecond) (length qs))
      /\ succeeded (serve rs name (q :: qs)).2 = 1%nat
      /\ length (List.filter rate_limited (serve rs name (q :: qs)).2) = length qs).
Proof.
  intros Hen Hmax. split.
  - intros room rl userName ty pos clk Hroom Hrl Hok.
    apply Sub_ge; [unfold min_int64; lia|].
    rewrite <- third_of_a_second.
    by apply (SendReaction_spacing rs name userID room rl Hen Hmax Hroom Hrl
                userName ty pos clk).
  - intros t0 q qs Hrecent Hfirst Hall.
    apply Forall_cons in Hall as [[Hu Hq] Hqs].
    assert (Hserve : exists reaction,
              (serve rs name (q :: qs)).2
              = Ok reaction :: repeat (Err ErrPerSecond) (length qs)).
    { simpl. rewrite Hu.
      destruct (SendReaction_first rs name userID (reqName q) (reqType q) (reqPosition q)
                  (reqClock q) Hen Hrecent Hfirst)
        as (reaction & room' & rl & Ho & Hroom' & Hrl & Hlast & Hcfg).
      destruct (SendReaction rs name userID (reqName q) (reqType q) (reqPosition q)
                  (reqClock q)) as [rs1 o]. simpl in *. subst o.
      rewrite (serve_refused rs1 name userID room' rl); try congruence.
      - exists reaction. reflexivity.
      - eapply Forall_impl; [exact Hqs|]. intros q' [Hu' Hq']. split; [exact Hu'|].
        unfold issued_within, millisecond in Hq, Hq'. rewrite Hlast.
        rewrite Sub_small; unfold min_int64, max_int64, Second; [|lia].
        change (1000000000 ÷ 3) with 333333333. lia. }
    destruct Hserve as (reaction & Hserve). rewrite Hserve.
    split; [by exists reaction|]. apply succeeded_one.
Qed.

(** C2, the claim as stated fails: four hearts of [alice] at 0, 30, 60 and
    90 ms are all issued within 100 ms, yet it is not the case that three
    of them succeed and one is rate limited. *)
Lemma four_reactions_not_three_accepted :
  Forall (issued_within 0 (100 * millisecond)) four_hearts
  /\ ~ (succeeded (serve rs0 "r4" four_hearts).2 = 3%nat
        /\ length (List.filter rate_limited (serve rs0 "r4" four_hearts).2) = 1%nat).
Proof.
  split.
  - repeat constructor; vm_compute; discriminate.
  - intros [H _]. vm_compute in H. discriminate H.
Qed.

(** The four hearts of [alice] under the default configuration: the first
    is accepted, the other three are refused. *)
Lemma reaction_per_second_limit_sample :
  EnableRateLimit (config rs0) = true
  /\ MaxReactionsPerSecond (config rs0) = 3
  /\ succeeded (serve rs0 "r4" four_hearts).2 = 1%nat
  /\ length (List.filter rate_limited (serve rs0 "r4" four_hearts).2) = 3%nat.
Proof.
  split; [reflexivity|]. split; [reflexivity|].
  destruct (reaction_per_second_limit rs0 "r4" "alice" eq_refl eq_refl) as [_ Hburst].
  destruct (Hburst 0 (heart 0)
              [heart (30 * millisecond); heart (60 * millisecond); heart (90 * millisecond)])
    as (_ & Hone & Hthree).
  - vm_compute. discriminate.
  - intros room Hroom. vm_compute in Hroom. discriminate Hroom.
  - repeat constructor; vm_compute; discriminate.
  - split; [exact Hone|exact Hthree].
Defined.

End ReactionsFacts.

(** ** Recordings and playback *)

Module VODFacts.
Import VOD.

Example watched_95_at_threshold : watched_95 (95 * Second) (100 * Second) = true.
Proof. vm_compute. reflexivity. Qed.

Example watched_95_below_threshold : watched_95 (95 * Second - 1) (100 * Second) = false.
Proof. vm_compute. reflexivity. Qed.

Example sample_session_open : completed_of vs_playing sid1 = Some false.
Proof. vm_compute. reflexivity. Qed.

(** One heartbeat: the session stays, with the same recording; [completed]
    is kept when set, and is set only by a position that passes the 95%
    test against a positive duration. *)
Lemma heartbeat_step vs sid position now :
  let vs' := (UpdatePlaybackSession vs sid position now).1 in
  duration_of vs' sid = duration_of vs sid
  /\ (completed_of vs sid = Some true -> completed_of vs' sid = Some true)
  /\ (completed_of vs sid = Some false ->
      (completed_of vs' sid = Some false
       \/ (completed_of vs' sid = Some true
           /\ exists d, duration_of vs sid = Some d /\ 0 < d
                        /\ watched_95 position d = true))).
Proof.
  unfold UpdatePlaybackSession, completed_of, duration_of.
  destruct (playbackSessions vs !! sid) as [s|] eqn:Hs; simpl.
  - rewrite lookup_insert_eq. simpl.
    destruct (recordings vs !! RecordingID s) as [r|] eqn:Hr; simpl.
    + destruct (Z.ltb_spec 0 (Duration_ r)) as [Hpos|Hle]; simpl.
      * destruct (watched_95 position (Duration_ r)) eqn:Hw.
        -- split; [done|]. split; [done|]. intros _. right. split; [done|].
           by exists (Duration_ r).
        -- split; [done|]. split; [done|]. intros H. by left.
      * split; [done|]. split; [done|]. intros H. by left.
    + split; [done|]. split; [done|]. intros H. by left.
  - rewrite Hs. simpl. split; [done|]. split; discriminate.
Qed.

(** A heartbeat on a session whose recording has no positive duration
    leaves [completed] as it is. *)
Lemma heartbeat_zero_duration vs sid position now s r :
  playbackSessions vs !! sid = Some s ->
  recordings vs !! RecordingID s = Some r ->
  Duration_ r <= 0 ->
  exists s',
    playbackSessions (UpdatePlaybackSession vs sid position now).1 !! sid = Some s'
    /\ RecordingID s' = RecordingID s
    /\ Completed s' = Completed s
    /\ recordings (UpdatePlaybackSession vs sid position now).1 = recordings vs.
Proof.
  intros Hs Hr Hd. unfold UpdatePlaybackSession. rewrite Hs, Hr. simpl.
  destruct (Z.ltb_spec 0 (Duration_ r)) as [Hpos|_]; [lia|]. simpl.
  eexists. split; [apply lookup_insert_eq|]. done.
Qed.

(** C4 (as amended): over any run of heartbeats on a session, [completed]
    is monotone (once true it stays true), and it turns from false to true
    only if one of the heartbeats reported a position that passes the test
    [float64(position) >= float64(duration) * 0.95] against a positive
    recording duration.  The position a later heartbeat reports is not
    constrained. *)
Theorem completed_latches (vs : VODService) (sid : string)
    (beats : list (Duration * Time)) :
  (completed_of vs sid = Some true ->
   completed_of (heartbeats vs sid beats) sid = Some true)
  /\ (completed_of vs sid = Some false ->
      completed_of (heartbeats vs sid beats) sid = Some true ->
      exists position now d,
        In (position, now) beats /\ duration_of vs sid = Some d /\ 0 < d
        /\ watched_95 position d = true).
Proof.
  revert vs. induction beats as [|[position now] beats IH]; intros vs.
  - simpl. split; [done|]. intros H1 H2. congruence.
  - simpl.
    destruct (heartbeat_step vs sid position now) as (Hd & Htrue & Hfalse).
    destruct (IH (UpdatePlaybackSession vs sid position now).1) as [IHtrue IHfalse].
    split.
    + intros H. apply IHtrue, Htrue, H.
    + intros Hf Hfin. destruct (Hfalse Hf) as [Hstill|(Hnow & d & Hdur & Hpos & Hw)].
      * destruct (IHfalse Hstill Hfin) as (p' & n' & d & Hin & Hdur & Hpos & Hw).
        exists p', n', d. rewrite Hd in Hdur. repeat split; try done. by right.
      * exists position, now, d. repeat split; try done. by left.
Qed.

(** C4, the claim as stated fails: [bob] reports the end of the 100 s
    recording and then position 0.  The session is completed, it stands at
    position 0, and 0 is not at least 0.95 times 100 s
    ([19 * duration <= 20 * position] is that comparison, cleared of the
    fraction). *)
Lemma completed_after_rewind :
  completed_of (heartbeats vs_playing sid1 watch_then_rewind) sid1 = Some true
  /\ position_of (heartbeats vs_playing sid1 watch_then_rewind) sid1 = Some 0
  /\ duration_of (heartbeats vs_playing sid1 watch_then_rewind) sid1 = Some (100 * Second)
  /\ watched_95 0 (100 * Second) = false
  /\ ~ (19 * (100 * Second) <= 20 * 0).
Proof.
  split; [vm_compute; reflexivity|].
  split; [vm_compute; reflexivity|].
  split; [vm_compute; reflexivity|].
  split; [vm_compute; reflexivity|].
  unfold Second. lia.
Qed.

(** The same run read through the theorem: the session of [bob] was open,
    is completed after the two heartbeats, and one of them passed the test. *)
Lemma completed_latches_sample :
  completed_of vs_playing sid1 = Some false
  /\ completed_of (heartbeats vs_playing sid1 watch_then_rewind) sid1 = Some true
  /\ exists position now d,
       In (position, now) watch_then_rewind /\ duration_of vs_playing sid1 = Some d
       /\ 0 < d /\ watched_95 position d = true.
Proof.
  assert (H0 : completed_of vs_playing sid1 = Some false) by (vm_compute; reflexivity).
  assert (H1 : completed_of (heartbeats vs_playing sid1 watch_then_rewind) sid1 = Some true)
    by (vm_compute; reflexivity).
  split; [exact H0|]. split; [exact H1|].
  exact (proj2 (completed_latches vs_playing sid1 watch_then_rewind) H0 H1).
Defined.

End VODFacts.

(** ** The VOD handlers *)

Module APIFacts.
Import VOD API.

(** Heartbeats on a session whose recording has no positive duration never
    change [completed]. *)
Lemma heartbeats_zero_duration (beats : list (Duration * Time)) :
  forall vs sid s r,
  playbackSessions vs !! sid = Some s ->
  recordings vs !! RecordingID s = Some r ->
  Duration_ r <= 0 ->
  completed_of (heartbeats vs sid beats) sid = Some (Completed s).
Proof.
  induction beats as [|[position now] beats IH]; intros vs sid s r Hs Hr Hd.
  - simpl. unfold completed_of. by rewrite Hs.
  - simpl.
    destruct (VODFacts.heartbeat_zero_duration vs sid position now s r Hs Hr Hd)
      as (s' & Hs' & Hrec & Hc & Hrecs).
    rewrite (IH _ sid s' r Hs'); [by rewrite Hc| |exact Hd].
    rewrite Hrecs, Hrec. exact Hr.
Qed.

(** C10: a stop issued through the HTTP surface stores duration 0 in the
    recording; and on a playback session of a recording whose duration is
    zero (or unset, which is zero; or negative), no run of heartbeats,
    whatever positions it reports, sets [completed]: a session that is
    not completed stays so. *)
Theorem zero_duration_never_completes :
  (forall vs method req vs',
     handleStopRecording vs method (Some req) = (vs', SuccessJSON) ->
     recording_id req <> ""%string ->
     exists r, recordings vs' !! recording_id req = Some r
               /\ Duration_ r = 0 /\ Status r = VODStatusProcessing)
  /\ (forall vs sid s r (beats : list (Duration * Time)),
      playbackSessions vs !! sid = Some s ->
      recordings vs !! RecordingID s = Some r ->
      Duration_ r <= 0 ->
      Completed s = false ->
      completed_of (heartbeats vs sid beats) sid = Some false).
Proof.
  split.
  - intros vs method req vs' Hstop Hid. unfold handleStopRecording in Hstop.
    destruct (bool_decide (method = "POST")); simpl in Hstop; [|discriminate Hstop].
    rewrite bool_decide_eq_false_2 in Hstop by done. simpl in Hstop.
    unfold StopRecording in Hstop.
    destruct (recordings vs !! recording_id req) as [r|]; [|discriminate Hstop].
    destruct (negb _); [discriminate Hstop|].
    injection Hstop as <-. simpl. rewrite lookup_insert_eq.
    eexists. split; [reflexivity|]. done.
  - intros vs sid s r beats Hs Hr Hd Hc.
    rewrite (heartbeats_zero_duration beats vs sid s r Hs Hr Hd). by rewrite Hc.
Qed.

(** The show stopped through [/api/streaming/vod/stop], then published and
    watched by [bob]: reporting the position of one hour, or any other,
    leaves the session not completed. *)
Lemma zero_duration_never_completes_sample :
  (exists r, recordings vs_http_stopped !! rec1 = Some r /\ Duration_ r = 0)
  /\ completed_of (heartbeats vs_http_playing sid1 [(3600 * Second, 10000); (1, 11000)]) sid1
     = Some false.
Proof.
  destruct zero_duration_never_completes as [Hstop Hbeats].
  split.
  - destruct (Hstop (handleStartRecording (NewVODService None) (Some start_request)
                       (Some "EG_1"%string) clk0).1 "POST"%string stop_request vs_http_stopped)
      as (r & Hr & Hd & _); [vm_compute; reflexivity|vm_compute; discriminate|].
    by exists r.
  - eapply Hbeats; [vm_compute; reflexivity|vm_compute; reflexivity
                   |vm_compute; discriminate|reflexivity].
Defined.

Lemma remove_first_app_fresh (k : string) (l : list string) :
  ~ In k l -> remove_first k (l ++ [k]) = Some l.
Proof.
  induction l as [|x l IH]; intros Hn; simpl.
  - by rewrite decide_True.
  - rewrite decide_False by (intros ->; apply Hn; by left).
    rewrite IH; [reflexivity|]. intros H. apply Hn. by right.
Qed.

Lemma remove_first_app_last (k : string) (l : list string) :
  exists l', remove_first k (l ++ [k]) = Some l'.
Proof.
  induction l as [|x l [l' IH]]; simpl.
  - rewrite decide_True by done. by eexists.
  - destruct (decide (x = k)); [by eexists|]. rewrite IH. by eexists.
Qed.

(** C8: when the encoder's start RPC fails after the VOD record was
    reserved, the handler answers with an error, the reserved id is gone
    from the catalog, and (the id being a new one) the catalog is what it
    was before the call: the same recordings, the same list of recording ids
    for every streamer, hence the same answers to look-ups and listings,
    and the same playback sessions. *)
Theorem start_recording_rollback (vs : VODService) (req : StartRequest)
    (clk : StartClock) :
  room_name req <> ""%string ->
  streamer_id req <> ""%string ->
  let id := recordingID (streamer_id req) clk in
  let result := handleStartRecording vs (Some req) None clk in
  result.2 = HttpError StatusInternalServerError
  /\ recordings result.1 !! id = None
  /\ (recordings vs !! id = None ->
      ~ In id (default [] (streamerRecordings vs !! streamer_id req)) ->
      recordings result.1 = recordings vs
      /\ (forall streamer,
            default [] (streamerRecordings result.1 !! streamer)
            = default [] (streamerRecordings vs !! streamer))
      /\ (forall rid, GetRecording result.1 rid = GetRecording vs rid)
      /\ (forall streamer limit offset, 0 <= offset ->
            ListRecordingsByStreamer result.1 streamer limit offset
            = ListRecordingsByStreamer vs streamer limit offset)
      /\ playbackSessions result.1 = playbackSessions vs
      /\ config result.1 = config vs).
Proof.
  intros Hroom Hstreamer id result. subst result.
  unfold handleStartRecording.
  rewrite !bool_decide_eq_false_2 by done. simpl.
  unfold DeleteRecording. simpl. fold id. rewrite lookup_insert_eq. simpl.
  split; [reflexivity|]. split; [apply lookup_delete_eq|].
  intros Hfresh Hnotin.
  assert (Hidx : forall streamer,
            default [] (unindex (streamer_id req) id
                          (<[streamer_id req :=
                               default [] (streamerRecordings vs !! streamer_id req) ++ [id]]>
                             (streamerRecordings vs)) !! streamer)
            = default [] (streamerRecordings vs !! streamer)).
  { intros streamer. unfold unindex. rewrite lookup_insert_eq. simpl.
    rewrite remove_first_app_fresh by done.
    rewrite insert_insert_eq.
    destruct (decide (streamer_id req = streamer)) as [<-|Hne].
    - by rewrite lookup_insert_eq.
    - by rewrite lookup_insert_ne. }
  assert (Hrecs : forall x : VODRecording,
            delete id (<[id := x]> (recordings vs)) = recordings vs)
    by (intros x; rewrite delete_insert_eq; by apply delete_id).
  split; [apply Hrecs|].
  split; [exact Hidx|].
  split; [intros rid; unfold GetRecording; simpl; by rewrite Hrecs|].
  split; [|done].
  intros streamer limit offset Hoff. unfold ListRecordingsByStreamer. simpl.
  rewrite Hrecs. specialize (Hidx streamer).
  destruct (unindex _ _ _ !! streamer) as [ids1|] eqn:H1;
    destruct (streamerRecordings vs !! streamer) as [ids0|] eqn:H0;
    simpl in Hidx; subst; try reflexivity.
  - change (Z.of_nat (length (@nil string))) with 0.
    destruct (Z.leb_spec 0 offset); [reflexivity|lia].
  - change (Z.of_nat (length (@nil string))) with 0.
    destruct (Z.leb_spec 0 offset); [reflexivity|lia].
Qed.

(** The first attempt of [alice] on an empty catalog, with the encoder
    down: an error, and the catalog holds no recording. *)
Lemma start_recording_rollback_sample :
  (handleStartRecording (NewVODService None) (Some start_request) None clk0).2
  = HttpError StatusInternalServerError
  /\ recordings (handleStartRecording (NewVODService None) (Some start_request) None clk0).1
     = ∅.
Proof.
  destruct (start_recording_rollback (NewVODService None) start_request clk0)
    as (Herr & _ & Hsame); [discriminate|discriminate|].
  split; [exact Herr|].
  apply Hsame; [reflexivity|]. simpl. tauto.
Defined.

End APIFacts.

(** ** Analytics *)

Module AnalyticsFacts.
Import Analytics.


(** *** The session table against the history of the room *)







(** Chat, reaction, bitrate events and the ticker leave the four viewer
    counters alone. *)
Lemma other_events_keep_counters s roomName :
  (forall senderID,
     counters (RecordChatMessage s roomName senderID).1 roomName = counters s roomName)
  /\ (forall senderID ty,
        counters (RecordReaction s roomName senderID ty).1 roomName = counters s roomName)
  /\ (forall bitrate,
        counters (RecordBitrateUpdate s roomName bitrate).1 roomName = counters s roomName)
  /\ (forall now now',
        counters (sample s roomName now now') roomName = counters s roomName).
Proof.
  unfold counters, RecordChatMessage, RecordReaction, RecordBitrateUpdate, sample, refreshed.
  repeat split; intros; destruct (streamAnalytics s !! roomName) as [a|] eqn:Ha;
    simpl; rewrite ?Ha; try reflexivity.
  - by rewrite lookup_insert_eq.
  - by rewrite lookup_insert_eq.
  - destruct (PeakBitrate a <? bitrate); simpl; [by rewrite lookup_insert_eq|by rewrite Ha].
  - rewrite lookup_insert_eq. by destruct (viewerSessions s !! roomName).
Qed.





(** C1, the general rule as stated fails as well.  After join, leave,
    join, [alice] has a prior completed session in [r3]; her latest session
    is open, and her next join is counted as unique: the counters go from
    [(total, unique, current, peak) = (2, 1, 1, 1)] to [(3, 2, 2, 2)]. *)
Lemma returning_viewer_counted_again :
  prior_completed_session "r3" "alice" alice_returns = true
  /\ latest_session_completed "r3" "alice" alice_returns = false
  /\ counters (exec_all (fresh_r3 None "carol" 0 0) alice_returns) "r3"
     = Some (2, 1, 1, 1)
  /\ counters (exec_all (fresh_r3 None "carol" 0 0)
                 (alice_returns ++ [join_r3 "alice" 40])) "r3"
     = Some (3, 2, 2, 2).
Proof. repeat split; vm_compute; reflexivity. Qed.


End AnalyticsFacts.

(** * Further properties of the engines *)

(** ** Stream keys: generation, listing, sweep *)

Module StreamKeysMore.
Import StreamKeys.

Lemma slice_to_long (s : string) (n : nat) :
  (n <= String.length s)%nat -> exists p, slice_to s n = Some p.
Proof.
  intros H. unfold slice_to. destruct (Nat.leb_spec n (String.length s)); [by eexists|lia].
Qed.

Lemma int_incr_wrap (x : Z) : int_incr (wrap64 x) = wrap64 (x + 1).
Proof.
  unfold int_incr, wrap64. f_equal.
  replace (((x + 2 ^ 63) mod 2 ^ 64 - 2 ^ 63 + 1 + 2 ^ 63))
    with ((x + 2 ^ 63) mod 2 ^ 64 + 1) by lia.
  rewrite Zplus_mod_idemp_l. f_equal. lia.
Qed.

Lemma remove_first_keeps (k k' : string) (l l' : list string) :
  remove_first k l = Some l' -> k' <> k -> In k' l -> In k' l'.
Proof.
  revert l'. induction l as [|x l IH]; intros l'; simpl; [discriminate|].
  destruct (decide (x = k)) as [->|Hx].
  - intros [= <-] Hne [Heq|Hin]; [congruence|exact Hin].
  - destruct (remove_first k l) as [r|]; [|discriminate].
    intros [= <-] Hne [Heq|Hin]; [by left|]. right. by apply IH.
Qed.

Lemma unindex_keeps streamer key idx s k' :
  k' <> key ->
  In k' (default [] (idx !! s)) ->
  In k' (default [] (unindex streamer key idx !! s)).
Proof.
  intros Hne Hin. unfold unindex.
  destruct (remove_first key (default [] (idx !! streamer))) as [l'|] eqn:Hr; [|exact Hin].
  destruct (decide (streamer = s)) as [->|Hs].
  - rewrite lookup_insert_eq. simpl. by apply (remove_first_keeps key k' _ l' Hr).
  - by rewrite lookup_insert_ne.
Qed.

Lemma indexed_cleanup now (entries : list (string * StreamKey)) m :
  indexed m -> indexed (foldr (cleanup_entry now) (m, 0) entries).1.
Proof.
  intros Hm. induction entries as [|[key sk0] entries IH]; simpl; [exact Hm|].
  destruct (foldr (cleanup_entry now) (m, 0) entries) as [m' n]. simpl in *.
  destruct (expired now sk0); simpl; [|exact IH].
  intros k sk Hk. simpl in Hk.
  destruct (decide (key = k)) as [->|Hne]; [by rewrite lookup_delete_eq in Hk|].
  rewrite lookup_delete_ne in Hk by done.
  destruct (IH k sk Hk) as [Hname Hin]. split; [exact Hname|].
  simpl. apply unindex_keeps; [congruence|exact Hin].
Qed.

Lemma indexed_exec m c : indexed m -> indexed (exec m c).
Proof.
  intros Hm.
  destruct c as [kb s r p e n1 n2|key now|key now|key|s|key|key md|now|now]; simpl;
    try exact Hm.
  - destruct kb as [bs|]; simpl; [|exact Hm].
    assert (Hgen : indexed
              {| keys := <[hex_EncodeToString bs :=
                             {| Key := hex_EncodeToString bs; StreamerID := s; RoomName := r;
                                IsActive := true; CreatedAt := n1;
                                ExpiresAt := match e with
                                             | Some d => Some (Add n2 d)
                                             | None => None
                                             end;
                                Metadata := ∅; UsageCount := 0; LastUsedAt := None;
                                Permissions := match p with
                                               | Some p0 => p0
                                               | None => defaultPermissions
                                               end |}]> (keys m);
                 streamerKeys :=
                   <[s := default [] (streamerKeys m !! s) ++ [hex_EncodeToString bs]]>
                     (streamerKeys m) |}).
    { intros k sk Hk. simpl in *.
      destruct (decide (hex_EncodeToString bs = k)) as [<-|Hne].
      - rewrite lookup_insert_eq in Hk. injection Hk as <-. simpl.
        split; [reflexivity|]. rewrite lookup_insert_eq. simpl.
        apply in_or_app. right. by left.
      - rewrite lookup_insert_ne in Hk by done.
        destruct (Hm k sk Hk) as [Hname Hin]. split; [exact Hname|].
        destruct (decide (s = StreamerID sk)) as [->|Hs].
        + rewrite lookup_insert_eq. simpl. apply in_or_app. by left.
        + by rewrite lookup_insert_ne. }
    destruct (slice_to _ 8); exact Hgen.
  - unfold MarkKeyAsUsed. destruct (keys m !! key) as [sk0|] eqn:E; simpl; [|exact Hm].
    assert (Hupd : forall sk', Key sk' = Key sk0 -> StreamerID sk' = StreamerID sk0 ->
              indexed {| keys := <[key := sk']> (keys m); streamerKeys := streamerKeys m |}).
    { intros sk' Hn Hs k sk Hk. simpl in *.
      destruct (decide (key = k)) as [->|Hne].
      - rewrite lookup_insert_eq in Hk. injection Hk as <-.
        rewrite Hn, Hs. by apply Hm.
      - rewrite lookup_insert_ne in Hk by done. by apply Hm. }
    destruct (slice_to key 8); simpl; by apply Hupd.
  - unfold RevokeStreamKey. destruct (keys m !! key) as [sk0|] eqn:E; simpl; [|exact Hm].
    assert (Hupd : indexed {| keys := <[key := deactivate sk0]> (keys m);
                              streamerKeys := streamerKeys m |}).
    { intros k sk Hk. simpl in *.
      destruct (decide (key = k)) as [->|Hne].
      - rewrite lookup_insert_eq in Hk. injection Hk as <-. simpl. by apply Hm.
      - rewrite lookup_insert_ne in Hk by done. by apply Hm. }
    destruct (slice_to key 8); simpl; exact Hupd.
  - unfold DeleteStreamKey. destruct (keys m !! key) as [sk0|] eqn:E; simpl; [|exact Hm].
    assert (Hdel : indexed {| keys := delete key (keys m);
                              streamerKeys := unindex (StreamerID sk0) key (streamerKeys m) |}).
    { intros k sk Hk. simpl in *.
      destruct (decide (key = k)) as [->|Hne]; [by rewrite lookup_delete_eq in Hk|].
      rewrite lookup_delete_ne in Hk by done.
      destruct (Hm k sk Hk) as [Hname Hin]. split; [exact Hname|].
      apply unindex_keeps; [congruence|exact Hin]. }
    destruct (slice_to key 8); simpl; exact Hdel.
  - unfold UpdateStreamKeyMetadata.
    destruct (keys m !! key) as [sk0|] eqn:E; simpl; [|exact Hm].
    intros k sk Hk. simpl in *.
    destruct (decide (key = k)) as [->|Hne].
    + rewrite lookup_insert_eq in Hk. injection Hk as <-. simpl. by apply Hm.
    + rewrite lookup_insert_ne in Hk by done. by apply Hm.
  - unfold CleanupExpiredKeys. by apply indexed_cleanup.
Qed.

Lemma indexed_reachable (cs : list call) : indexed (exec_all NewStreamKeyManager cs).
Proof.
  induction cs as [|c cs IH] using rev_ind.
  - intros k sk Hk. simpl in Hk. by rewrite lookup_empty in Hk.
  - unfold exec_all in *. rewrite foldl_app. simpl. by apply indexed_exec.
Qed.

Lemma listed m k sk :
  keys m !! k = Some sk ->
  In k (default [] (streamerKeys m !! StreamerID sk)) ->
  In sk (GetStreamKeysByStreamer m (StreamerID sk)).
Proof.
  intros Hk Hin. unfold GetStreamKeysByStreamer.
  destruct (streamerKeys m !! StreamerID sk) as [ids|]; simpl in Hin; [|done].
  apply list_elem_of_In, list_elem_of_omap. exists k. split; [by apply list_elem_of_In|done].
Qed.

Lemma validate_ok_stored m key now sk :
  ValidateStreamKey m key now = Ok sk -> keys m !! key = Some sk /\ IsActive sk = true.
Proof.
  unfold ValidateStreamKey. destruct (keys m !! key) as [sk0|]; [|discriminate].
  destruct (IsActive sk0) eqn:Hact; simpl; [|discriminate].
  destruct (ExpiresAt sk0); [destruct (After now _); [discriminate|]|];
    intros [= <-]; done.
Qed.

(** What [GenerateStreamKey] answers for a 32-byte draw. *)
Lemma generate_then_validate_parts (m : StreamKeyManager) (bs : list Byte.byte)
    (streamerID roomName : string) (permissions : option StreamPermissions)
    (expiresIn : option Duration) (nowCreated nowExpiry : Time) :
  length bs = 32%nat ->
  let result := GenerateStreamKey m (Some bs) streamerID roomName permissions expiresIn
                  nowCreated nowExpiry in
  exists sk,
    result.2 = Ok sk
    /\ Key sk = hex_EncodeToString bs
    /\ String.length (hex_EncodeToString bs) = 64%nat
    /\ UsageCount sk = 0
    /\ keys result.1 !! hex_EncodeToString bs = Some sk
    /\ (forall now,
          match expiresIn with Some d => now <= nowExpiry + d | None => True end ->
          ValidateStreamKey result.1 (hex_EncodeToString bs) now = Ok sk).
Proof.
  intros Hlen result. subst result. unfold GenerateStreamKey.
  assert (H64 : String.length (hex_EncodeToString bs) = 64%nat)
    by (rewrite hex_EncodeToString_length, Hlen; reflexivity).
  destruct (slice_to_long (hex_EncodeToString bs) 8) as [pre ->]; [lia|].
  eexists. split; [reflexivity|]. simpl.
  split; [reflexivity|]. split; [exact H64|]. split; [reflexivity|].
  split; [apply lookup_insert_eq|].
  intros now Hnow. unfold ValidateStreamKey. simpl. rewrite lookup_insert_eq. simpl.
  destruct expiresIn as [d|]; [|reflexivity].
  unfold After, Add. destruct (Z.ltb_spec (nowExpiry + d) now); [lia|reflexivity].
Qed.

(** X1: a key generated from 32 random bytes is returned as 64 hex digits,
    active and unused; it is stored under its own name, listed for its
    streamer, validates at every instant up to its expiry (always, without
    an expiry), and the other stored keys are untouched. *)
Theorem generate_then_validate (m : StreamKeyManager) (bs : list Byte.byte)
    (streamerID roomName : string) (permissions : option StreamPermissions)
    (expiresIn : option Duration) (nowCreated nowExpiry : Time) :
  length bs = 32%nat ->
  let result := GenerateStreamKey m (Some bs) streamerID roomName permissions expiresIn
                  nowCreated nowExpiry in
  exists sk,
    result.2 = Ok sk
    /\ Key sk = hex_EncodeToString bs
    /\ String.length (Key sk) = 64%nat
    /\ IsActive sk = true /\ UsageCount sk = 0 /\ StreamerID sk = streamerID
    /\ keys result.1 !! Key sk = Some sk
    /\ In sk (GetStreamKeysByStreamer result.1 streamerID)
    /\ (forall now,
          match expiresIn with Some d => now <= nowExpiry + d | None => True end ->
          ValidateStreamKey result.1 (Key sk) now = Ok sk)
    /\ (forall k, k <> Key sk -> keys result.1 !! k = keys m !! k).
Proof.
  intros Hlen result. subst result. unfold GenerateStreamKey.
  assert (H64 : String.length (hex_EncodeToString bs) = 64%nat)
    by (rewrite hex_EncodeToString_length, Hlen; reflexivity).
  destruct (slice_to_long (hex_EncodeToString bs) 8) as [pre ->]; [lia|].
  eexists. split; [reflexivity|]. simpl.
  repeat (split; [first [reflexivity | exact H64]|]).
  split; [apply lookup_insert_eq|].
  split.
  { apply (listed _ (hex_EncodeToString bs)); simpl.
    - apply lookup_insert_eq.
    - rewrite lookup_insert_eq. simpl. apply in_or_app. right. by left. }
  split.
  - intros now Hnow. unfold ValidateStreamKey. simpl. rewrite lookup_insert_eq. simpl.
    destruct expiresIn as [d|]; [|reflexivity].
    unfold After, Add. destruct (Z.ltb_spec (nowExpiry + d) now); [lia|reflexivity].
  - intros k Hk. by rewrite lookup_insert_ne.
Qed.

Lemma generate_then_validate_sample :
  length zeroBytes = 32%nat
  /\ exists sk,
       (GenerateStreamKey NewStreamKeyManager (Some zeroBytes) "alice" "r1" None (Some hour)
          1000 1000).2 = Ok sk
       /\ ValidateStreamKey m1 (Key sk) 2000 = Ok sk.
Proof.
  split; [reflexivity|].
  destruct (generate_then_validate NewStreamKeyManager zeroBytes "alice" "r1" None
              (Some hour) 1000 1000 eq_refl)
    as (sk & Hok & _ & _ & _ & _ & _ & _ & _ & Hval & _).
  exists sk. split; [exact Hok|]. apply Hval. vm_compute. discriminate.
Defined.

(** X2: whatever calls the manager has served since it was created, every
    stored key carries its own name and is among the keys listed for its
    streamer. *)
Theorem stored_keys_are_listed (cs : list call) (k : string) (sk : StreamKey) :
  keys (exec_all NewStreamKeyManager cs) !! k = Some sk ->
  Key sk = k
  /\ In sk (GetStreamKeysByStreamer (exec_all NewStreamKeyManager cs) (StreamerID sk)).
Proof.
  intros Hk. destruct (indexed_reachable cs k sk Hk) as [Hname Hin].
  split; [exact Hname|]. by apply (listed _ k).
Qed.

Lemma stored_keys_are_listed_sample :
  exists sk,
    keys (exec_all NewStreamKeyManager
            [CallGenerate (Some zeroBytes) "alice" "r1" None (Some hour) 1000 1000;
             CallGenerate (Some oneBytes) "alice" "r2" None None 2000 2000;
             CallRevoke k1; CallCleanup 3000]) !! k1 = Some sk
    /\ Key sk = k1
    /\ In sk (GetStreamKeysByStreamer
                (exec_all NewStreamKeyManager
                   [CallGenerate (Some zeroBytes) "alice" "r1" None (Some hour) 1000 1000;
                    CallGenerate (Some oneBytes) "alice" "r2" None None 2000 2000;
                    CallRevoke k1; CallCleanup 3000]) (StreamerID sk)).
Proof.
  eexists. split; [vm_compute; reflexivity|].
  eapply stored_keys_are_listed. vm_compute. reflexivity.
Defined.

(** *** The sweep *)

Lemma cleanup_removes now (entries : list (string * StreamKey)) m k sk :
  In (k, sk) entries -> expired now sk = true ->
  keys (foldr (cleanup_entry now) (m, 0) entries).1 !! k = None.
Proof.
  induction entries as [|[key sk0] entries IH]; intros Hin Hexp; [destruct Hin|].
  simpl. destruct (foldr (cleanup_entry now) (m, 0) entries) as [m' n] eqn:E. simpl in *.
  destruct Hin as [[= -> ->]|Hin].
  - rewrite Hexp. simpl. apply lookup_delete_eq.
  - specialize (IH Hin Hexp). destruct (expired now sk0); simpl; [|exact IH].
    destruct (decide (key = k)) as [->|Hne]; [apply lookup_delete_eq|].
    by rewrite lookup_delete_ne.
Qed.

Lemma cleanup_spares now (entries : list (string * StreamKey)) m k :
  (forall sk, In (k, sk) entries -> expired now sk = false) ->
  keys (foldr (cleanup_entry now) (m, 0) entries).1 !! k = keys m !! k.
Proof.
  induction entries as [|[key sk0] entries IH]; intros Hall; [reflexivity|].
  simpl. destruct (foldr (cleanup_entry now) (m, 0) entries) as [m' n] eqn:E. simpl in *.
  assert (IH' : keys m' !! k = keys m !! k).
  { apply IH. intros sk Hin. apply Hall. by right. }
  destruct (expired now sk0) eqn:Hexp; simpl; [|exact IH'].
  destruct (decide (key = k)) as [->|Hne].
  - rewrite (Hall sk0) in Hexp by (by left). discriminate.
  - by rewrite lookup_delete_ne.
Qed.

Lemma cleanup_count now (entries : list (string * StreamKey)) m :
  (foldr (cleanup_entry now) (m, 0) entries).2
  = wrap64 (Z.of_nat (length (List.filter (fun e => expired now e.2) entries))).
Proof.
  induction entries as [|[key sk0] entries IH]; [reflexivity|].
  simpl. destruct (foldr (cleanup_entry now) (m, 0) entries) as [m' n] eqn:E. simpl in *.
  destruct (expired now sk0); simpl; [|exact IH].
  rewrite IH, int_incr_wrap. f_equal. lia.
Qed.

(** X3: the sweep at clock reading [now] removes exactly the keys whose
    expiry lies before [now] and keeps every other key as it is; it returns
    the number of keys removed (as a 64-bit [int]); and right after it no
    key validates as expired at [now]. *)
Theorem sweep_removes_expired (m : StreamKeyManager) (now : Time) :
  (forall k,
     keys (CleanupExpiredKeys m now).1 !! k
     = match keys m !! k with
       | Some sk => if expired now sk then None else Some sk
       | None => None
       end)
  /\ (CleanupExpiredKeys m now).2
     = wrap64 (Z.of_nat (length (List.filter (fun e => expired now e.2)
                                   (map_to_list (keys m)))))
  /\ (forall k, ValidateStreamKey (CleanupExpiredKeys m now).1 k now <> Err ErrExpired).
Proof.
  assert (Hkeys : forall k,
            keys (CleanupExpiredKeys m now).1 !! k
            = match keys m !! k with
              | Some sk => if expired now sk then None else Some sk
              | None => None
              end).
  { intros k. unfold CleanupExpiredKeys.
    destruct (keys m !! k) as [sk|] eqn:Hk.
    - destruct (expired now sk) eqn:Hexp.
      + apply (cleanup_removes now _ m k sk); [|exact Hexp].
        apply list_elem_of_In. by apply elem_of_map_to_list.
      + rewrite cleanup_spares; [exact Hk|].
        intros sk' Hin. apply list_elem_of_In, elem_of_map_to_list in Hin.
        congruence.
    - rewrite cleanup_spares; [exact Hk|].
      intros sk' Hin. apply list_elem_of_In, elem_of_map_to_list in Hin. congruence. }
  split; [exact Hkeys|]. split; [apply cleanup_count|].
  intros k. unfold ValidateStreamKey. rewrite Hkeys.
  destruct (keys m !! k) as [sk|]; [|discriminate].
  destruct (expired now sk) eqn:Hexp; [discriminate|].
  destruct (negb (IsActive sk)); [discriminate|].
  unfold expired in Hexp. destruct (ExpiresAt sk); [|discriminate].
  rewrite Hexp. discriminate.
Qed.

(** X4: deleting a stored key of a manager (in any state reached from its
    creation) succeeds unless the key is shorter than the eight characters
    its log line prints; afterwards the key validates as not found, no key
    of that name is listed for any streamer, every other key is stored as
    before, and a second delete fails with not found and changes nothing. *)
Theorem delete_forgets_key (cs : list call) (k : string) (sk : StreamKey) :
  keys (exec_all NewStreamKeyManager cs) !! k = Some sk ->
  (8 <= String.length k)%nat ->
  let m := exec_all NewStreamKeyManager cs in
  let m' := (DeleteStreamKey m k).1 in
  (DeleteStreamKey m k).2 = Ok tt
  /\ (forall now, ValidateStreamKey m' k now = Err ErrNotFound)
  /\ (forall streamer sk', In sk' (GetStreamKeysByStreamer m' streamer) -> Key sk' <> k)
  /\ (forall k', k' <> k -> keys m' !! k' = keys m !! k')
  /\ DeleteStreamKey m' k = (m', Err ErrNotFound).
Proof.
  intros Hk Hlen m m'.
  assert (Hidx : indexed m') by (apply (indexed_exec m (CallDelete k)), indexed_reachable).
  subst m'. unfold DeleteStreamKey in *. fold m in Hk. rewrite Hk in *.
  destruct (slice_to_long k 8 Hlen) as [pre Hpre]. rewrite Hpre in *. simpl in *.
  split; [reflexivity|].
  split; [intros now; unfold ValidateStreamKey; simpl; by rewrite lookup_delete_eq|].
  split.
  { intros streamer sk' Hin Hname. unfold GetStreamKeysByStreamer in Hin. simpl in Hin.
    destruct (unindex _ _ _ !! streamer) as [ids|]; [|destruct Hin].
    apply list_elem_of_In, list_elem_of_omap in Hin as (k' & _ & Hk').
    destruct (Hidx k' sk' Hk') as [Hn _]. simpl in Hk'.
    rewrite Hname in Hn. subst k'. by rewrite lookup_delete_eq in Hk'. }
  split; [intros k' Hne; by rewrite lookup_delete_ne|].
  by rewrite lookup_delete_eq.
Qed.

Lemma delete_forgets_key_sample :
  exists sk,
    keys (exec_all NewStreamKeyManager
            [CallGenerate (Some zeroBytes) "alice" "r1" None (Some hour) 1000 1000]) !! k1
    = Some sk
    /\ (8 <= String.length k1)%nat
    /\ forall now,
         ValidateStreamKey
           (DeleteStreamKey
              (exec_all NewStreamKeyManager
                 [CallGenerate (Some zeroBytes) "alice" "r1" None (Some hour) 1000 1000])
              k1).1 k1 now
         = Err ErrNotFound.
Proof.
  eexists.
  assert (Hk : keys (exec_all NewStreamKeyManager
                       [CallGenerate (Some zeroBytes) "alice" "r1" None (Some hour) 1000 1000])
               !! k1 = Some _) by (vm_compute; reflexivity).
  assert (Hlen : (8 <= String.length k1)%nat) by (vm_compute; lia).
  split; [exact Hk|]. split; [exact Hlen|].
  exact (proj1 (proj2 (delete_forgets_key _ k1 _ Hk Hlen))).
Defined.

(** X27: metadata updates merge and do not touch validity.
    [UpdateStreamKeyMetadata] on an unknown key fails and changes nothing;
    on a stored key it sets the given entries, keeps the other entries of
    the key's metadata, leaves every other key alone, and
    [ValidateStreamKey] gives the same verdict as before (on success, the
    entry with the merged metadata). *)
Theorem metadata_update_merges (m : StreamKeyManager) (key : string)
    (metadata : gmap string string) :
  (keys m !! key = None ->
   UpdateStreamKeyMetadata m key metadata = (m, Err ErrNotFound))
  /\ (forall sk, keys m !! key = Some sk ->
      exists m' sk',
        UpdateStreamKeyMetadata m key metadata = (m', Ok tt)
        /\ keys m' !! key = Some sk'
        /\ (forall k v, metadata !! k = Some v -> Metadata sk' !! k = Some v)
        /\ (forall k, metadata !! k = None -> Metadata sk' !! k = Metadata sk !! k)
        /\ (forall k, k <> key -> keys m' !! k = keys m !! k)
        /\ streamerKeys m' = streamerKeys m
        /\ (forall now,
              ValidateStreamKey m' key now
              = match ValidateStreamKey m key now with
                | Ok _ => Ok sk'
                | other => other
                end)).
Proof.
  unfold UpdateStreamKeyMetadata. split; [by intros ->|].
  intros sk Hk. rewrite Hk. eexists. eexists. split; [reflexivity|]. simpl.
  split; [apply lookup_insert_eq|]. simpl.
  split; [intros k v Hv; by apply lookup_union_Some_l|].
  split; [intros k Hv; by rewrite lookup_union_r|].
  split; [intros k Hne; by rewrite lookup_insert_ne|].
  split; [reflexivity|].
  intros now. unfold ValidateStreamKey. simpl. rewrite lookup_insert_eq, Hk. simpl.
  destruct (IsActive sk); [|reflexivity]. simpl.
  destruct (ExpiresAt sk); [destruct (After now _)|]; reflexivity.
Qed.

End StreamKeysMore.

(** ** The stream-key and chat-room handlers *)

Module APIMore.
Import StreamKeys API.

Lemma validate_handler_ok (m : StreamKeyManager) (key : string)
    (nowValidate nowUsed : Time) (sk : StreamKey) :
  ValidateStreamKey m key nowValidate = Ok sk ->
  (8 <= String.length key)%nat ->
  min_int64 <= UsageCount sk < max_int64 ->
  exists m' sk',
    handleValidateStreamKey m "POST" (Some key) nowValidate nowUsed = (m', ValidJSON sk')
    /\ keys m' !! key = Some sk'
    /\ UsageCount sk' = UsageCount sk + 1
    /\ LastUsedAt sk' = Some nowUsed
    /\ IsActive sk' = true /\ ExpiresAt sk' = ExpiresAt sk /\ Key sk' = Key sk
    /\ (forall k, k <> key -> keys m' !! k = keys m !! k).
Proof.
  intros Hok Hlen Hcount. unfold handleValidateStreamKey. simpl. rewrite Hok.
  apply StreamKeysMore.validate_ok_stored in Hok as (Hk & Hact).
  unfold MarkKeyAsUsed. rewrite Hk.
  destruct (StreamKeysMore.slice_to_long key 8 Hlen) as [pre ->]. simpl.
  rewrite lookup_insert_eq. simpl.
  eexists. eexists. split; [reflexivity|].
  split; [apply lookup_insert_eq|]. simpl.
  split; [by apply int_incr_small|].
  repeat (split; [done|]).
  intros k Hne. by rewrite lookup_insert_ne.
Qed.

(** X5: [/keys/validate] answers 401 and changes nothing when the engine
    rejects the key; for a valid key (of at least eight characters, its
    usage counter below the largest [int]) it answers [valid] with the
    stored entry as [MarkKeyAsUsed] left it: the usage count one higher,
    the last use stamped, every other key untouched. *)
Theorem validate_handler_counts_use (m : StreamKeyManager) (key : string)
    (nowValidate nowUsed : Time) :
  (forall e, ValidateStreamKey m key nowValidate = Err e ->
     handleValidateStreamKey m "POST" (Some key) nowValidate nowUsed
     = (m, KeyHttpError StatusUnauthorized))
  /\ (forall sk, ValidateStreamKey m key nowValidate = Ok sk ->
      (8 <= String.length key)%nat ->
      min_int64 <= UsageCount sk < max_int64 ->
      exists m' sk',
        handleValidateStreamKey m "POST" (Some key) nowValidate nowUsed = (m', ValidJSON sk')
        /\ keys m' !! key = Some sk'
        /\ UsageCount sk' = UsageCount sk + 1
        /\ LastUsedAt sk' = Some nowUsed
        /\ IsActive sk' = true /\ ExpiresAt sk' = ExpiresAt sk /\ Key sk' = Key sk
        /\ (forall k, k <> key -> keys m' !! k = keys m !! k)).
Proof.
  split.
  - intros e He. unfold handleValidateStreamKey. simpl. by rewrite He.
  - intros sk Hok Hlen Hcount. by apply validate_handler_ok.
Qed.

Lemma validate_handler_counts_use_sample :
  exists m' sk',
    handleValidateStreamKey m1 "POST" (Some k1) 2000 2000 = (m', ValidJSON sk')
    /\ UsageCount sk' = 1.
Proof.
  destruct (proj2 (validate_handler_counts_use m1 k1 2000 2000)
              {| Key := k1; StreamerID := "alice"; RoomName := "r1"; IsActive := true;
                 CreatedAt := 1000; ExpiresAt := Some (1000 + hour); Metadata := ∅;
                 UsageCount := 0; LastUsedAt := None; Permissions := defaultPermissions |})
    as (m' & sk' & Hh & _ & Hu & _).
  - vm_compute. reflexivity.
  - vm_compute. lia.
  - vm_compute. split; [discriminate|reflexivity].
  - exists m', sk'. split; [exact Hh|exact Hu].
Defined.

(** X6: the life of a key through the surface.  A key generated by
    [/keys/generate] from 32 random bytes is answered as 64 hex digits; a
    [/keys/validate] of it, up to its expiry, answers [valid] with usage
    count 1; [/keys/revoke] succeeds; and every validate after that
    answers 401. *)
Theorem key_lifecycle (m : StreamKeyManager) (req : GenerateRequest)
    (bs : list Byte.byte) (nowCreated nowExpiry nowValidate nowUsed : Time) :
  length bs = 32%nat ->
  match g_expires_in req with
  | Some secs => nowValidate <= nowExpiry + wrap64 (wrap64 secs * Second)
  | None => True
  end ->
  let key := hex_EncodeToString bs in
  exists m1 sk m2 sk' m3,
    handleGenerateStreamKey m "POST" (Some req) (Some bs) nowCreated nowExpiry
    = (m1, GeneratedJSON sk)
    /\ Key sk = key /\ String.length key = 64%nat
    /\ handleValidateStreamKey m1 "POST" (Some key) nowValidate nowUsed
       = (m2, ValidJSON sk')
    /\ UsageCount sk' = 1
    /\ handleRevokeStreamKey m2 "POST" (Some key) = (m3, RevokedJSON)
    /\ (forall nv nu,
          handleValidateStreamKey m3 "POST" (Some key) nv nu
          = (m3, KeyHttpError StatusUnauthorized)).
Proof.
  intros Hlen Hwindow key.
  destruct (StreamKeysMore.generate_then_validate_parts m bs (g_streamer_id req)
              (g_room_name req) None
              ((fun secs => wrap64 (wrap64 secs * Second)) <$> g_expires_in req)
              nowCreated nowExpiry Hlen)
    as (sk & Hgen & Hname & H64 & Hused & Hstored & Hval).
  cbv zeta in Hgen, Hstored, Hval.
  unfold handleGenerateStreamKey.
  change (negb (bool_decide ("POST" = "POST"))) with false. cbv iota zeta.
  destruct (GenerateStreamKey m (Some bs) _ _ None _ nowCreated nowExpiry) as [m1 o].
  cbn [fst snd] in Hgen, Hstored, Hval. subst o.
  fold key in Hname, H64, Hstored, Hval.
  assert (Hv : ValidateStreamKey m1 key nowValidate = Ok sk).
  { apply Hval. destruct (g_expires_in req); simpl; [exact Hwindow|done]. }
  assert (H8 : (8 <= String.length key)%nat) by lia.
  destruct (validate_handler_ok m1 key nowValidate nowUsed sk Hv H8)
    as (m2 & sk' & Hh & Hk2 & Hu & _).
  { rewrite Hused. unfold min_int64, max_int64. lia. }
  exists m1, sk, m2, sk'.
  unfold handleRevokeStreamKey, RevokeStreamKey. simpl. rewrite Hk2.
  destruct (StreamKeysMore.slice_to_long key 8 H8) as [pre ->].
  eexists. split; [reflexivity|]. split; [exact Hname|]. split; [exact H64|].
  split; [exact Hh|]. split; [rewrite Hu, Hused; reflexivity|].
  split; [reflexivity|].
  intros nv nu. unfold handleValidateStreamKey, ValidateStreamKey. simpl.
  by rewrite lookup_insert_eq.
Qed.

Lemma key_lifecycle_sample :
  exists m1 sk m2 sk' m3,
    handleGenerateStreamKey NewStreamKeyManager "POST"
      (Some {| g_streamer_id := "alice"; g_room_name := "r1"; g_expires_in := Some 3600 |})
      (Some zeroBytes) 1000 1000
    = (m1, GeneratedJSON sk)
    /\ handleValidateStreamKey m1 "POST" (Some k1) 2000 2000 = (m2, ValidJSON sk')
    /\ UsageCount sk' = 1
    /\ handleRevokeStreamKey m2 "POST" (Some k1) = (m3, RevokedJSON)
    /\ handleValidateStreamKey m3 "POST" (Some k1) 3000 3000
       = (m3, KeyHttpError StatusUnauthorized).
Proof.
  destruct (key_lifecycle NewStreamKeyManager
              {| g_streamer_id := "alice"; g_room_name := "r1"; g_expires_in := Some 3600 |}
              zeroBytes 1000 1000 2000 2000 eq_refl)
    as (m1 & sk & m2 & sk' & m3 & Hg & _ & _ & Hv & Hu & Hr & Hlast).
  - vm_compute. discriminate.
  - exists m1, sk, m2, sk', m3. repeat (split; [assumption|]). apply Hlast.
Defined.

End APIMore.

(** ** The chat engine: history, moderation and bans *)

Module ChatMore.
Import Chat.

Lemma collect_take limit b l found :
  collect limit b l found
  = found ++ take (Z.to_nat (limit - Z.of_nat (length found))) (List.filter (visible b) l).
Proof.
  revert found. induction l as [|msg older IH]; intros found; simpl.
  - by rewrite take_nil, app_nil_r.
  - destruct (Z.ltb_spec (Z.of_nat (length found)) limit) as [Hlt|Hge].
    + unfold visible at 1.
      destruct (_ && negb (IsDeleted msg)) eqn:Hv.
      * rewrite IH, length_app. simpl. rewrite <- app_assoc. simpl.
        replace (Z.to_nat (limit - Z.of_nat (length found)))
          with (S (Z.to_nat (limit - Z.of_nat (length found + 1)))) by lia.
        reflexivity.
      * apply IH.
    + replace (Z.to_nat (limit - Z.of_nat (length found))) with 0%nat by lia.
      by rewrite take_0, app_nil_r.
Qed.

(** X7: [GetMessages] answers the newest [limit] messages of the room that
    are not deleted (and, when [beforeTimestamp] is given, stamped before
    it), newest first: never more than [limit], never a deleted one, and
    nothing at all for a [limit] of zero or less. *)
Theorem GetMessages_newest_visible (cs : ChatService) (name : string) (limit : Z)
    (beforeTimestamp : option Time) :
  GetMessages cs name limit beforeTimestamp
  = match rooms cs !! name with
    | None => Err ErrRoomNotFound
    | Some room =>
        Ok (take (Z.to_nat limit)
              (List.filter (visible beforeTimestamp) (rev (Messages room))))
    end
  /\ (forall msgs, GetMessages cs name limit beforeTimestamp = Ok msgs ->
        Z.of_nat (length msgs) <= Z.max 0 limit
        /\ Forall (fun msg => IsDeleted msg = false) msgs).
Proof.
  assert (Heq : GetMessages cs name limit beforeTimestamp
                = match rooms cs !! name with
                  | None => Err ErrRoomNotFound
                  | Some room =>
                      Ok (take (Z.to_nat limit)
                            (List.filter (visible beforeTimestamp) (rev (Messages room))))
                  end).
  { unfold GetMessages. destruct (rooms cs !! name) as [room|]; [|reflexivity].
    rewrite collect_take. simpl. by rewrite Z.sub_0_r. }
  split; [exact Heq|].
  intros msgs. rewrite Heq. destruct (rooms cs !! name) as [room|]; [|discriminate].
  intros [= <-]. split.
  - rewrite length_take. lia.
  - apply Forall_take, Forall_forall. intros msg Hin.
    apply list_elem_of_In, filter_In in Hin as [_ Hv].
    unfold visible in Hv. apply andb_true_iff in Hv as [_ Hv].
    by destruct (IsDeleted msg).
Qed.

Lemma delete_first_spec messageID msgs msgs' :
  delete_first messageID msgs = Some msgs' ->
  exists pre m post,
    msgs = pre ++ m :: post /\ msgs' = pre ++ mark_deleted m :: post
    /\ ID m = messageID /\ Forall (fun x => ID x <> messageID) pre.
Proof.
  revert msgs'. induction msgs as [|x msgs IH]; intros msgs'; simpl; [discriminate|].
  destruct (decide (ID x = messageID)) as [Hx|Hx].
  - intros [= <-]. exists [], x, msgs. by repeat split.
  - destruct (delete_first messageID msgs) as [r|]; [|discriminate].
    intros [= <-]. destruct (IH r eq_refl) as (pre & m & post & -> & -> & Hm & Hpre).
    exists (x :: pre), m, post. repeat split; try done. by constructor.
Qed.

Lemma moderator_check (room : ChatRoom) (moderatorID : string) :
  negb (default false (Moderators room !! moderatorID)) = false
  <-> Moderators room !! moderatorID = Some true.
Proof.
  destruct (Moderators room !! moderatorID) as [[]|]; simpl; split; congruence.
Qed.

(** X8: [DeleteMessage] is for moderators, keeps the log's length and ids,
    and, where the ids of the log are distinct, [GetMessages] never again
    returns a message of the deleted id. *)
Theorem deleted_message_not_listed (cs cs' : ChatService) (name messageID moderatorID : string)
    (room : ChatRoom) :
  rooms cs !! name = Some room ->
  NoDup (ID <$> Messages room) ->
  DeleteMessage cs name messageID moderatorID = (cs', Ok tt) ->
  Moderators room !! moderatorID = Some true
  /\ (exists room', rooms cs' !! name = Some room'
        /\ ID <$> Messages room' = ID <$> Messages room
        /\ Content <$> Messages room' = Content <$> Messages room)
  /\ (forall limit beforeTimestamp msgs,
        GetMessages cs' name limit beforeTimestamp = Ok msgs ->
        Forall (fun msg => ID msg <> messageID) msgs).
Proof.
  intros Hroom Hnodup. unfold DeleteMessage. rewrite Hroom.
  destruct (negb (default false (Moderators room !! moderatorID))) eqn:Hmod; [discriminate|].
  apply moderator_check in Hmod.
  destruct (delete_first messageID (Messages room)) as [msgs'|] eqn:Hdel; [|discriminate].
  intros [= <-]. split; [exact Hmod|].
  destruct (delete_first_spec _ _ _ Hdel) as (pre & m & post & Hmsgs & -> & Hm & Hpre).
  split.
  - eexists. split; [apply lookup_insert_eq|]. simpl. rewrite Hmsgs.
    by rewrite !fmap_app, !fmap_cons.
  - intros limit b msgs. unfold GetMessages, set_room. simpl. rewrite lookup_insert_eq.
    rewrite collect_take. simpl. intros [= <-].
    apply Forall_take, Forall_forall. intros msg Hin.
    apply list_elem_of_In, filter_In in Hin as [Hin Hv].
    apply in_rev, in_app_or in Hin as [Hin|[<-|Hin]].
    + rewrite Forall_forall in Hpre. by apply Hpre, list_elem_of_In.
    + discriminate Hv || (unfold visible in Hv; simpl in Hv;
                          rewrite andb_false_r in Hv; discriminate).
    + rewrite Hmsgs, fmap_app, fmap_cons in Hnodup.
      apply NoDup_app in Hnodup as (_ & _ & Hnodup).
      apply NoDup_cons in Hnodup as [Hfresh _].
      intros Heq. apply Hfresh. rewrite Hm, <- Heq.
      apply list_elem_of_fmap. exists msg. split; [done|by apply list_elem_of_In].
Qed.

Lemma deleted_message_not_listed_sample :
  exists room,
    rooms cs_lobby_said !! "lobby" = Some room
    /\ NoDup (ID <$> Messages room)
    /\ Moderators room !! "mod" = Some true
    /\ forall limit beforeTimestamp msgs,
         GetMessages (DeleteMessage cs_lobby_said "lobby" "msg-30-bob" "mod").1 "lobby"
           limit beforeTimestamp = Ok msgs ->
         Forall (fun msg => ID msg <> "msg-30-bob") msgs.
Proof.
  destruct (rooms cs_lobby_said !! "lobby") as [room|] eqn:Hroom;
    [|vm_compute in Hroom; discriminate].
  assert (Hnodup : NoDup (ID <$> Messages room)).
  { vm_compute in Hroom. injection Hroom as <-.
    apply (bool_decide_unpack _). vm_compute. exact I. }
  exists room. split; [reflexivity|]. split; [exact Hnodup|].
  destruct (deleted_message_not_listed cs_lobby_said
              (DeleteMessage cs_lobby_said "lobby" "msg-30-bob" "mod").1
              "lobby" "msg-30-bob" "mod" room Hroom Hnodup) as (Hmod & _ & Hget).
  - vm_compute. reflexivity.
  - split; [exact Hmod|exact Hget].
Defined.

Lemma registered_fresh room senderID clk :
  Participants room !! senderID = None ->
  registered room senderID clk
  = (implicit_participant senderID (sJoined clk),
     with_Participants room
       (<[senderID := implicit_participant senderID (sJoined clk)]> (Participants room))).
Proof. unfold registered. by intros ->. Qed.

Lemma countRecentMessages_registered room senderID clk who d now :
  countRecentMessages (registered room senderID clk).2 who d now
  = countRecentMessages room who d now.
Proof.
  unfold countRecentMessages.
  by rewrite (proj1 (ChatFacts.registered_props room senderID clk)).
Qed.

Lemma slowModeActive_registered room senderID clk who now :
  slowModeActive (registered room senderID clk).2 who now = slowModeActive room who now.
Proof.
  destruct (ChatFacts.registered_props room senderID clk) as (Hm & Hs & _).
  unfold slowModeActive, getLastMessage. by rewrite Hm, Hs.
Qed.

(** X9: a ban keeps its target out of [JoinChatRoom] until the ban's
    expiry (the refused join changes nothing) and lets the target in from
    then on; it does not stop [SendMessage]: a message of the banned user
    that passes the length, rate and slow-mode tests is delivered. *)
Theorem ban_blocks_join_not_send (cs cs' : ChatService) (name target moderatorID : string)
    (duration : Duration) (now : Time) :
  BanParticipant cs name target moderatorID duration now = (cs', Ok tt) ->
  (forall display isModerator clk, jBan clk < now + duration ->
     JoinChatRoom cs' name target display isModerator clk
     = (cs', Err (ErrBanned (now + duration))))
  /\ (forall display isModerator clk, now + duration <= jBan clk ->
        (JoinChatRoom cs' name target display isModerator clk).2 = Ok tt)
  /\ (exists room',
        rooms cs' !! name = Some room'
        /\ forall content ty mentions reply clk,
             Z.of_nat (String.length content) <= MaxMessageLength (Settings room') ->
             countRecentMessages room' target Minute (sCount clk)
             < MaxMessagesPerMin (Settings room') ->
             slowModeActive room' target (sSince clk) = false ->
             exists msg,
               (SendMessage cs' name target content ty mentions reply clk).2 = Ok msg
               /\ SenderID msg = target).
Proof.
  unfold BanParticipant. destruct (rooms cs !! name) as [room|] eqn:Hroom; [|discriminate].
  destruct (negb (default false (Moderators room !! moderatorID))); [discriminate|].
  intros [= <-]. split; [|split].
  - intros display isModerator clk Hearly. unfold JoinChatRoom, set_room. simpl.
    rewrite lookup_insert_eq. simpl. rewrite lookup_insert_eq.
    unfold Before, Add. destruct (Z.ltb_spec (jBan clk) (now + duration)); [done|lia].
  - intros display isModerator clk Hlate. unfold JoinChatRoom, set_room. simpl.
    rewrite lookup_insert_eq. simpl. rewrite lookup_insert_eq.
    unfold Before, Add. destruct (Z.ltb_spec (jBan clk) (now + duration)); [lia|done].
  - eexists. split; [apply lookup_insert_eq|].
    intros content ty mentions reply clk Hlen Hrate Hslow.
    match goal with
    | |- context [SendMessage ?s _ _ _ _ _ _ _] => set (cs1 := s)
    end.
    match type of Hslow with slowModeActive ?r _ _ = _ => set (room1 := r) in * end.
    assert (Hroom1 : rooms cs1 !! name = Some room1) by apply lookup_insert_eq.
    assert (Hnone : Participants room1 !! target = None) by apply lookup_delete_eq.
    pose proof (ChatFacts.SendMessage_cases cs1 name target content ty mentions reply clk
                  room1 Hroom1) as Hcases.
    cbv zeta in Hcases.
    rewrite countRecentMessages_registered, slowModeActive_registered in Hcases.
    rewrite (proj1 (proj2 (ChatFacts.registered_props room1 target clk))) in Hcases.
    rewrite (registered_fresh _ _ _ Hnone) in Hcases. cbn [fst snd] in Hcases.
    destruct Hcases as [[? _]|[(_ & ? & _)|[(_ & _ & ? & _)|[(_ & _ & _ & ? & _)|Hok]]]];
      [discriminate|lia|lia|congruence|].
    destruct Hok as (_ & _ & _ & _ & msg & _ & _ & Hmsg & Hsender & _).
    exists msg. by split.
Qed.

Lemma ban_blocks_join_not_send_sample :
  JoinChatRoom (BanParticipant cs_lobby "lobby" "bob" "mod" 1000 100).1 "lobby" "bob" "Bob"
    false {| jBan := 200; jJoined := 200; jID := 200; jStamp := 200 |}
  = ((BanParticipant cs_lobby "lobby" "bob" "mod" 1000 100).1, Err (ErrBanned (100 + 1000))).
Proof.
  refine (proj1 (ban_blocks_join_not_send cs_lobby _ "lobby" "bob" "mod" 1000 100 _)
            "Bob" false _ _).
  - vm_compute. reflexivity.
  - simpl. lia.
Defined.

(** X10: joining again lifts a mute.  After a successful [MuteParticipant],
    a [JoinChatRoom] of the muted participant (not under a running ban)
    succeeds and replaces the participant's record by a fresh one: not
    muted, message count zero; no later [SendMessage] of that sender is
    refused as muted. *)
Theorem rejoin_clears_mute (cs cs1 : ChatService) (name who moderatorID display : string)
    (duration : Duration) (isModerator : bool) (clk : JoinClock) :
  MuteParticipant cs name who moderatorID duration = (cs1, Ok tt) ->
  (forall room until,
     rooms cs !! name = Some room -> BannedUsers room !! who = Some until ->
     until <= jBan clk) ->
  exists cs2 room2,
    JoinChatRoom cs1 name who display isModerator clk = (cs2, Ok tt)
    /\ rooms cs2 !! name = Some room2
    /\ Participants room2 !! who
       = Some {| Identity := who; Name := display; IsModerator := isModerator;
                 IsMuted := false; JoinedAt := jJoined clk; MessageCount := 0 |}
    /\ forall content ty mentions reply sclk,
         (SendMessage cs2 name who content ty mentions reply sclk).2 <> Err ErrMuted.
Proof.
  unfold MuteParticipant. destruct (rooms cs !! name) as [room|] eqn:Hroom; [|discriminate].
  destruct (negb (default false (Moderators room !! moderatorID))); [discriminate|].
  destruct (Participants room !! who) as [p|] eqn:Hp; [|discriminate].
  intros [= <-] Hban. specialize (Hban room).
  unfold JoinChatRoom, set_room. simpl. rewrite lookup_insert_eq. simpl.
  assert (Hfree : match BannedUsers room !! who with
                  | Some banExpiry =>
                      if Before (jBan clk) banExpiry then Some banExpiry else None
                  | None => None
                  end = None).
  { destruct (BannedUsers room !! who) as [until|]; [|done].
    specialize (Hban until eq_refl eq_refl). unfold Before.
    destruct (Z.ltb_spec (jBan clk) until); [lia|done]. }
  rewrite Hfree. eexists. eexists. split; [reflexivity|].
  split; [apply lookup_insert_eq|]. simpl.
  split; [apply lookup_insert_eq|].
  intros content ty mentions reply sclk.
  unfold SendMessage. simpl. rewrite lookup_insert_eq.
  unfold registered. simpl. rewrite lookup_insert_eq. simpl.
  repeat match goal with |- context [if ?b then _ else _] => destruct b end;
    simpl; discriminate.
Qed.

Lemma rejoin_clears_mute_sample :
  exists cs2 room2,
    JoinChatRoom cs_lobby_muted "lobby" "bob" "Bob" false
      {| jBan := 40; jJoined := 40; jID := 40; jStamp := 40 |} = (cs2, Ok tt)
    /\ rooms cs2 !! "lobby" = Some room2
    /\ Participants room2 !! "bob"
       = Some {| Identity := "bob"; Name := "Bob"; IsModerator := false;
                 IsMuted := false; JoinedAt := 40; MessageCount := 0 |}.
Proof.
  destruct (rejoin_clears_mute cs_lobby cs_lobby_muted "lobby" "bob" "mod" "Bob" 0 false
              {| jBan := 40; jJoined := 40; jID := 40; jStamp := 40 |})
    as (cs2 & room2 & Hjoin & Hroom & Hp & _).
  - vm_compute. reflexivity.
  - intros room until Hroom. vm_compute in Hroom. injection Hroom as <-.
    vm_compute. discriminate.
  - exists cs2, room2. split; [exact Hjoin|]. split; [exact Hroom|exact Hp].
Defined.

(** X11: a [SendMessage] into an existing room leaves its sender
    registered whatever it answers.  For a sender the room did not know,
    a refused message (muting apart, which cannot occur for a new
    sender) still adds the implicit participant record, so the room has
    one participant more, and the log is as before. *)
Theorem rejected_send_still_registers (cs : ChatService) (name senderID content : string)
    (ty : ChatMessageType) (mentions : list string) (reply : option string)
    (clk : SendClock) (room : ChatRoom) :
  rooms cs !! name = Some room ->
  let result := SendMessage cs name senderID content ty mentions reply clk in
  exists room',
    rooms result.1 !! name = Some room'
    /\ is_Some (Participants room' !! senderID)
    /\ (Participants room !! senderID = None ->
        result.2 <> Err ErrMuted
        /\ forall e, result.2 = Err e ->
             Participants room' !! senderID
             = Some (implicit_participant senderID (sJoined clk))
             /\ size (Participants room') = S (size (Participants room))
             /\ Messages room' = Messages room).
Proof.
  intros Hroom result. subst result. unfold SendMessage. rewrite Hroom.
  unfold registered.
  destruct (Participants room !! senderID) as [p|] eqn:Hp.
  - repeat match goal with |- context [if ?b then _ else _] => destruct b end;
      simpl; unfold set_room; simpl; rewrite lookup_insert_eq;
      eexists; (split; [reflexivity|]); simpl;
      (split; [|intros; discriminate]);
      rewrite ?lookup_insert_eq; by eauto.
  - simpl.
    repeat match goal with |- context [if ?b then _ else _] => destruct b end;
      simpl; unfold set_room; simpl; rewrite lookup_insert_eq;
      eexists; (split; [reflexivity|]); simpl;
      rewrite ?lookup_insert_eq; (split; [by eauto|]);
      intros _; (split; [discriminate|]); intros e He; try discriminate He;
      (split; [reflexivity|]); (split; [|reflexivity]);
      by rewrite map_size_insert_None.
Qed.

Lemma rejected_send_still_registers_sample :
  exists room',
    rooms (SendMessage cs_r2 "r2" "carol" long_text ChatMessageTypeText [] None
             (at_time 5)).1 !! "r2" = Some room'
    /\ Participants room' !! "carol" = Some (implicit_participant "carol" 5)
    /\ (SendMessage cs_r2 "r2" "carol" long_text ChatMessageTypeText [] None
          (at_time 5)).2 = Err ErrTooLong.
Proof.
  destruct (rejected_send_still_registers cs_r2 "r2" "carol" long_text ChatMessageTypeText
              [] None (at_time 5) room_r2) as (room' & Hroom & _ & Hnew).
  - vm_compute. reflexivity.
  - assert (He : (SendMessage cs_r2 "r2" "carol" long_text ChatMessageTypeText [] None
                    (at_time 5)).2 = Err ErrTooLong) by (vm_compute; reflexivity).
    exists room'. split; [exact Hroom|]. split; [|exact He].
    exact (proj1 (proj2 (Hnew eq_refl) _ He)).
Defined.

(** *** What no call of the chat engine undoes *)

Lemma marked_refl m : marked m m.
Proof. by left. Qed.

Lemma marked_trans m1 m2 m3 : marked m1 m2 -> marked m2 m3 -> marked m1 m3.
Proof.
  intros [->| ->] [->| ->]; try (by left); by right.
Qed.

Lemma Forall2_marked_refl l : Forall2 marked l l.
Proof. induction l; constructor; [apply marked_refl|done]. Qed.

Lemma extends_refl l : extends l l.
Proof. exists l, []. split; [by rewrite app_nil_r|apply Forall2_marked_refl]. Qed.

Lemma extends_snoc l m : extends l (l ++ [m]).
Proof. exists l, [m]. split; [done|apply Forall2_marked_refl]. Qed.

Lemma extends_trans l1 l2 l3 : extends l1 l2 -> extends l2 l3 -> extends l1 l3.
Proof.
  intros (l1' & e1 & -> & H1) (l2' & e2 & -> & H2).
  apply Forall2_app_inv_l in H2 as (a & b & Ha & Hb & ->).
  exists a, (b ++ e2). split; [by rewrite app_assoc|].
  eapply Forall2_trans; [|exact H1|exact Ha]. apply marked_trans.
Qed.

Lemma delete_first_marked messageID msgs msgs' :
  delete_first messageID msgs = Some msgs' -> extends msgs msgs'.
Proof.
  intros (pre & m & post & -> & -> & _)%delete_first_spec.
  exists (pre ++ mark_deleted m :: post), []. split; [by rewrite app_nil_r|].
  apply Forall2_app; [apply Forall2_marked_refl|].
  constructor; [by right|apply Forall2_marked_refl].
Qed.

(** One call, seen from a room that exists before it. *)
Lemma exec_room cs c name room :
  rooms cs !! name = Some room ->
  exists room',
    rooms (exec cs c) !! name = Some room'
    /\ extends (Messages room) (Messages room')
    /\ CreatedAt room' = CreatedAt room /\ Settings room' = Settings room
    /\ (forall who, leaves name who c = false ->
          Moderators room !! who = Some true -> Moderators room' !! who = Some true).
Proof.
  intros Hroom.
  assert (Hsame : exists room',
            rooms cs !! name = Some room'
            /\ extends (Messages room) (Messages room')
            /\ CreatedAt room' = CreatedAt room /\ Settings room' = Settings room
            /\ (forall who, leaves name who c = false ->
                  Moderators room !! who = Some true -> Moderators room' !! who = Some true)).
  { exists room. repeat split; try done. apply extends_refl. }
  assert (Hother : forall n r, n <> name -> exists room',
            rooms (set_room cs n r) !! name = Some room'
            /\ extends (Messages room) (Messages room')
            /\ CreatedAt room' = CreatedAt room /\ Settings room' = Settings room
            /\ (forall who, leaves name who c = false ->
                  Moderators room !! who = Some true -> Moderators room' !! who = Some true)).
  { intros n r Hne. exists room. unfold set_room. simpl.
    rewrite lookup_insert_ne by done. repeat split; try done. apply extends_refl. }
  destruct c as [n settings now|n who display isModerator clk|n who nowID nowStamp
                |n senderID q|n messageID moderatorID|n who moderatorID duration
                |n who|n who moderatorID duration now]; simpl.
  - unfold CreateChatRoom. destruct (rooms cs !! n) eqn:Hn; [exact Hsame|].
    simpl. apply Hother. intros ->. congruence.
  - unfold JoinChatRoom. destruct (rooms cs !! n) as [r|] eqn:Hn; [|exact Hsame].
    simpl. destruct (match BannedUsers r !! who with Some _ => _ | None => _ end);
      [exact Hsame|]. simpl.
    destruct (decide (n = name)) as [->|Hne]; [|by apply Hother].
    rewrite Hroom in Hn. injection Hn as <-.
    eexists. split; [apply lookup_insert_eq|]. simpl.
    split; [apply extends_snoc|]. repeat split.
    intros w _ Hw. destruct isModerator; [|done].
    destruct (decide (who = w)) as [->|Hw']; [apply lookup_insert_eq|].
    by rewrite lookup_insert_ne.
  - unfold LeaveChatRoom. destruct (rooms cs !! n) as [r|] eqn:Hn; [|exact Hsame].
    destruct (Participants r !! who); [|exact Hsame]. simpl.
    destruct (decide (n = name)) as [->|Hne]; [|by apply Hother].
    rewrite Hroom in Hn. injection Hn as <-.
    eexists. split; [apply lookup_insert_eq|]. simpl.
    split; [apply extends_snoc|]. repeat split.
    intros w Hleaves Hw. rewrite bool_decide_eq_true_2 in Hleaves by done.
    simpl in Hleaves. apply bool_decide_eq_false in Hleaves.
    by rewrite lookup_delete_ne.
  - unfold do_send.
    destruct (rooms cs !! n) as [r|] eqn:Hn;
      [|unfold SendMessage; rewrite Hn; exact Hsame].
    destruct (decide (n = name)) as [->|Hne].
    + rewrite Hroom in Hn. injection Hn as <-.
      unfold SendMessage. rewrite Hroom.
      destruct (ChatFacts.registered_props room senderID (sClock q)) as (Hm & Hs & _).
      assert (Hmods : Moderators (registered room senderID (sClock q)).2 = Moderators room
                      /\ CreatedAt (registered room senderID (sClock q)).2 = CreatedAt room).
      { unfold registered. by destruct (Participants room !! senderID). }
      destruct Hmods as [Hmods Hcreated].
      destruct (registered room senderID (sClock q)) as [p r1]. simpl in *.
      repeat match goal with |- context [if ?b then _ else _] => destruct b end;
        simpl; eexists; (split; [apply lookup_insert_eq|]); simpl;
        rewrite ?Hm, ?Hs, ?Hmods, ?Hcreated;
        (split; [first [apply extends_refl|apply extends_snoc]|]); by repeat split.
    + unfold SendMessage. rewrite Hn.
      destruct (registered r senderID (sClock q)) as [p r1].
      repeat match goal with |- context [if ?b then _ else _] => destruct b end;
        simpl; by apply Hother.
  - unfold DeleteMessage. destruct (rooms cs !! n) as [r|] eqn:Hn; [|exact Hsame].
    destruct (negb _); [exact Hsame|].
    destruct (delete_first messageID (Messages r)) as [msgs|] eqn:Hdel; [|exact Hsame].
    simpl. destruct (decide (n = name)) as [->|Hne]; [|by apply Hother].
    rewrite Hroom in Hn. injection Hn as <-.
    eexists. split; [apply lookup_insert_eq|]. simpl.
    split; [by eapply delete_first_marked|]. by repeat split.
  - unfold MuteParticipant. destruct (rooms cs !! n) as [r|] eqn:Hn; [|exact Hsame].
    destruct (negb _); [exact Hsame|].
    destruct (Participants r !! who); [|exact Hsame].
    simpl. destruct (decide (n = name)) as [->|Hne]; [|by apply Hother].
    rewrite Hroom in Hn. injection Hn as <-.
    eexists. split; [apply lookup_insert_eq|]. simpl.
    split; [apply extends_refl|]. by repeat split.
  - unfold unmuteTimer. destruct (rooms cs !! n) as [r|] eqn:Hn; [|exact Hsame].
    destruct (Participants r !! who); [|exact Hsame].
    destruct (decide (n = name)) as [->|Hne]; [|by apply Hother].
    rewrite Hroom in Hn. injection Hn as <-.
    eexists. split; [apply lookup_insert_eq|]. simpl.
    split; [apply extends_refl|]. by repeat split.
  - unfold BanParticipant. destruct (rooms cs !! n) as [r|] eqn:Hn; [|exact Hsame].
    destruct (negb _); [exact Hsame|].
    simpl. destruct (decide (n = name)) as [->|Hne]; [|by apply Hother].
    rewrite Hroom in Hn. injection Hn as <-.
    eexists. split; [apply lookup_insert_eq|]. simpl.
    split; [apply extends_refl|]. by repeat split.
Qed.

Lemma exec_all_room cs calls name room :
  rooms cs !! name = Some room ->
  exists room',
    rooms (exec_all cs calls) !! name = Some room'
    /\ extends (Messages room) (Messages room')
    /\ CreatedAt room' = CreatedAt room /\ Settings room' = Settings room
    /\ (forall who, Forall (fun c => leaves name who c = false) calls ->
          Moderators room !! who = Some true -> Moderators room' !! who = Some true).
Proof.
  revert cs room. induction calls as [|c calls IH]; intros cs room Hroom.
  - exists room. repeat split; try done. apply extends_refl.
  - destruct (exec_room cs c name room Hroom) as (r1 & Hr1 & Hext1 & Hc1 & Hs1 & Hm1).
    destruct (IH (exec cs c) r1 Hr1) as (r2 & Hr2 & Hext2 & Hc2 & Hs2 & Hm2).
    exists r2. split; [exact Hr2|]. split; [by eapply extends_trans|].
    split; [congruence|]. split; [congruence|].
    intros who Hall Hwho. apply Forall_cons in Hall as [Hc Hall].
    apply Hm2; [exact Hall|]. by apply Hm1.
Qed.

(** X12: the log of a room is append-only and a room is for good.  After
    any run of calls of the chat engine a room that existed still exists,
    with the creation time and the settings it had; its log is the old
    log, each old message as it was or marked as deleted, followed by the
    messages added since. *)
Theorem chat_log_append_only (cs : ChatService) (calls : list call) (name : string)
    (room : ChatRoom) :
  rooms cs !! name = Some room ->
  exists room',
    rooms (exec_all cs calls) !! name = Some room'
    /\ extends (Messages room) (Messages room')
    /\ (length (Messages room) <= length (Messages room'))%nat
    /\ CreatedAt room' = CreatedAt room /\ Settings room' = Settings room.
Proof.
  intros Hroom.
  destruct (exec_all_room cs calls name room Hroom) as (room' & Hr & Hext & Hc & Hs & _).
  exists room'. repeat split; try done.
  destruct Hext as (old' & extra & -> & Hall).
  rewrite length_app, (Forall2_length _ _ _ Hall). lia.
Qed.

(** X13: moderator rights end only with [LeaveChatRoom].  Through any run
    of calls that holds no [LeaveChatRoom] of that user in that room, a
    moderator stays one: a ban of the moderator, a mute, or joining again
    as a non-moderator do not take the rights away, so the user's
    [BanParticipant] calls are still obeyed. *)
Theorem moderator_until_leave (cs : ChatService) (calls : list call) (name who : string)
    (room : ChatRoom) :
  rooms cs !! name = Some room ->
  Moderators room !! who = Some true ->
  Forall (fun c => leaves name who c = false) calls ->
  (exists room', rooms (exec_all cs calls) !! name = Some room'
                 /\ Moderators room' !! who = Some true)
  /\ forall target duration now,
       (BanParticipant (exec_all cs calls) name target who duration now).2 = Ok tt.
Proof.
  intros Hroom Hmod Hcalls.
  destruct (exec_all_room cs calls name room Hroom) as (room' & Hr & _ & _ & _ & Hm).
  specialize (Hm who Hcalls Hmod). split; [by exists room'|].
  intros target duration now. unfold BanParticipant. rewrite Hr.
  by rewrite (proj2 (moderator_check room' who) Hm).
Qed.

Lemma chat_log_append_only_sample :
  exists room room',
    rooms cs_lobby !! "lobby" = Some room
    /\ rooms (exec_all cs_lobby lobby_calls) !! "lobby" = Some room'
    /\ extends (Messages room) (Messages room')
    /\ Settings room' = Settings room.
Proof.
  destruct (rooms cs_lobby !! "lobby") as [room|] eqn:Hroom;
    [|vm_compute in Hroom; discriminate].
  destruct (chat_log_append_only cs_lobby lobby_calls "lobby" room Hroom)
    as (room' & Hr & Hext & _ & _ & Hs).
  exists room, room'. split; [reflexivity|]. split; [exact Hr|]. split; [exact Hext|exact Hs].
Defined.

Lemma moderator_until_leave_sample :
  (BanParticipant (exec_all cs_lobby lobby_calls) "lobby" "bob" "mod" 10 5000).2 = Ok tt.
Proof.
  destruct (rooms cs_lobby !! "lobby") as [room|] eqn:Hroom;
    [|vm_compute in Hroom; discriminate].
  refine (proj2 (moderator_until_leave cs_lobby lobby_calls "lobby" "mod" room Hroom _ _)
            "bob" 10 5000).
  - vm_compute in Hroom. injection Hroom as <-. vm_compute. reflexivity.
  - unfold lobby_calls. repeat (apply Forall_cons_2; [vm_compute; reflexivity|]).
    apply Forall_nil_2.
Defined.

End ChatMore.

(** ** The chat-room handler *)

Module ChatAPIMore.
Import Chat API.

(** X14: [/chat/rooms/create] is idempotent and fixes the settings.  For a
    new name it creates an empty room with the default settings; whatever
    calls of the chat engine follow, the room keeps that creation time and
    those settings.  For a name in use it answers success as well and
    changes nothing. *)
Theorem create_room_handler_idempotent (cs : ChatService) (name : string) (now : Time) :
  (rooms cs !! name = None ->
   exists cs',
     handleCreateChatRoom cs "POST" (Some name) now = (cs', RoomCreatedJSON name now 0 0)
     /\ forall calls,
          exists room,
            rooms (exec_all cs' calls) !! name = Some room
            /\ Settings room = defaultSettings /\ CreatedAt room = now)
  /\ (is_Some (rooms cs !! name) ->
      handleCreateChatRoom cs "POST" (Some name) now = (cs, RoomExistsJSON name)).
Proof.
  unfold handleCreateChatRoom, CreateChatRoom. simpl. split.
  - intros ->. simpl. eexists. split; [reflexivity|].
    intros calls.
    match goal with
    | |- context [exec_all (set_room cs name ?r) calls] =>
        destruct (ChatMore.exec_all_room (set_room cs name r) calls name r)
          as (room & Hroom & _ & Hc & Hs & _); [apply lookup_insert_eq|]
    end.
    exists room. split; [exact Hroom|]. split; [exact Hs|exact Hc].
  - intros [room ->]. reflexivity.
Qed.

Lemma registered_unmoderated room0 senderID clk :
  unmoderated room0 ->
  unmoderated (registered room0 senderID clk).2
  /\ IsMuted (registered room0 senderID clk).1 = false.
Proof.
  intros (Hm & Hb & Hs & Hp). unfold registered.
  destruct (Participants room0 !! senderID) as [p|] eqn:Hsender; simpl.
  - split; [done|]. by apply (Hp senderID).
  - split; [|done]. repeat split; try done. simpl.
    by apply map_Forall_insert_2.
Qed.

Lemma all_unmoderated_set cs name room :
  all_unmoderated cs -> unmoderated room -> all_unmoderated (set_room cs name room).
Proof.
  intros Hcs Hroom n r. unfold set_room. simpl.
  destruct (decide (name = n)) as [->|Hne].
  - rewrite lookup_insert_eq. by intros [= <-].
  - rewrite lookup_insert_ne by done. apply Hcs.
Qed.

Lemma SendMessage_unmoderated cs name senderID content ty mentions reply clk :
  all_unmoderated cs ->
  all_unmoderated (SendMessage cs name senderID content ty mentions reply clk).1.
Proof.
  intros Hcs. unfold SendMessage.
  destruct (rooms cs !! name) as [room0|] eqn:Hroom0; [|exact Hcs].
  destruct (registered_unmoderated room0 senderID clk (Hcs name room0 Hroom0))
    as [Hroom Hp].
  destruct (registered room0 senderID clk) as [p room]. simpl in Hroom, Hp.
  rewrite Hp.
  repeat match goal with |- context [if ?b then _ else _] => destruct b end;
    simpl; try (by apply all_unmoderated_set).
  all: apply all_unmoderated_set; [done|];
    destruct Hroom as (Hm & Hb & Hs & Hall); repeat split; try done; simpl;
    by apply map_Forall_insert_2.
Qed.

Lemma serve_chat_unmoderated cs q :
  all_unmoderated cs ->
  all_unmoderated (serve_chat cs q).1
  /\ (forall method body,
        handleMuteParticipant cs method body = (cs, (handleMuteParticipant cs method body).2)
        /\ is_error (handleMuteParticipant cs method body).2 = true)
  /\ (forall method body now,
        handleBanParticipant cs method body now
        = (cs, (handleBanParticipant cs method body now).2)
        /\ is_error (handleBanParticipant cs method body now).2 = true).
Proof.
  intros Hcs.
  assert (Hmute : forall method body,
            handleMuteParticipant cs method body
            = (cs, (handleMuteParticipant cs method body).2)
            /\ is_error (handleMuteParticipant cs method body).2 = true).
  { intros method body. unfold handleMuteParticipant.
    destruct (negb (bool_decide (method = "POST"))); [done|].
    destruct body as [req|]; [|done]. unfold MuteParticipant.
    destruct (rooms cs !! m_room_name req) as [room|] eqn:Hroom; [|done].
    destruct (Hcs _ _ Hroom) as (Hm & _). rewrite Hm, lookup_empty. done. }
  assert (Hban : forall method body now,
            handleBanParticipant cs method body now
            = (cs, (handleBanParticipant cs method body now).2)
            /\ is_error (handleBanParticipant cs method body now).2 = true).
  { intros method body now. unfold handleBanParticipant.
    destruct (negb (bool_decide (method = "POST"))); [done|].
    destruct body as [req|]; [|done]. unfold BanParticipant.
    destruct (rooms cs !! m_room_name req) as [room|] eqn:Hroom; [|done].
    destruct (Hcs _ _ Hroom) as (Hm & _). rewrite Hm, lookup_empty. done. }
  split; [|by split].
  destruct q as [method body now|method body clk|method room_name|method body
                |method body now]; simpl.
  - unfold handleCreateChatRoom.
    destruct (negb (bool_decide (method = "POST"))); [done|].
    destruct body as [name|]; [|done]. unfold CreateChatRoom.
    destruct (rooms cs !! name); [done|]. simpl.
    apply all_unmoderated_set; [done|]. repeat split; simpl. apply map_Forall_empty.
  - unfold handleSendChatMessage.
    destruct (negb (bool_decide (method = "POST"))); [done|].
    destruct body as [req|]; [|done].
    pose proof (SendMessage_unmoderated cs (c_room_name req) (c_sender_id req)
                  (c_content req) (c_message_type req) (c_mentioned_users req) None clk
                  Hcs) as Hsend.
    destruct (SendMessage _ _ _ _ _ _ _ _) as [cs' [m|e|]]; exact Hsend.
  - done.
  - by rewrite (proj1 (Hmute method body)).
  - by rewrite (proj1 (Hban method body now)).
Qed.

(** X20: nobody moderates through the surface.  The handlers never call
    [JoinChatRoom], the only way to become a moderator, so in every state
    the chat surface reaches from a new service each room has no
    moderator, no ban, no muted participant and the default settings;
    every [/chat/mute] and [/chat/ban] request is answered with an error
    status and changes nothing. *)
Theorem surface_never_moderates (qs : list chat_request) :
  let cs := serve_chat_all NewChatService qs in
  all_unmoderated cs
  /\ (forall method body,
        handleMuteParticipant cs method body = (cs, (handleMuteParticipant cs method body).2)
        /\ is_error (handleMuteParticipant cs method body).2 = true)
  /\ (forall method body now,
        handleBanParticipant cs method body now
        = (cs, (handleBanParticipant cs method body now).2)
        /\ is_error (handleBanParticipant cs method body now).2 = true).
Proof.
  intros cs.
  assert (Hcs : all_unmoderated cs).
  { subst cs. unfold serve_chat_all.
    assert (Hnew : all_unmoderated NewChatService).
    { intros n room. unfold NewChatService. simpl. by rewrite lookup_empty. }
    revert Hnew. generalize NewChatService.
    induction qs as [|q qs IH]; intros cs0 Hcs0; [exact Hcs0|].
    simpl. apply IH. by apply serve_chat_unmoderated. }
  split; [exact Hcs|].
  apply (serve_chat_unmoderated cs (ReqGetChatMessages "GET" "") Hcs).
Qed.

End ChatAPIMore.

(** ** The reaction engine: leaderboard, indexes and sweeps *)

Module ReactionsMore.
Import Reactions.

Lemma sort_pass_spec held rest h r :
  sort_pass held rest = (h, r) ->
  h :: r ≡ₚ held :: rest
  /\ ReactionCount held <= ReactionCount h
  /\ Forall (fun x => ReactionCount x <= ReactionCount h) r.
Proof.
  revert held h r. induction rest as [|x rest IH]; intros held h r; simpl.
  - intros [= <- <-]. by repeat split.
  - destruct (Z.ltb_spec (ReactionCount held) (ReactionCount x)) as [Hlt|Hge].
    + destruct (sort_pass x rest) as [h0 r0] eqn:Hp. intros [= <- <-].
      destruct (IH _ _ _ Hp) as (Hperm & Hle & Hall).
      split; [|split; [lia|constructor; [lia|exact Hall]]].
      rewrite <- Hperm. apply perm_swap.
    + destruct (sort_pass held rest) as [h0 r0] eqn:Hp. intros [= <- <-].
      destruct (IH _ _ _ Hp) as (Hperm & Hle & Hall).
      split; [|split; [lia|constructor; [lia|exact Hall]]].
      rewrite (perm_swap x held rest), <- Hperm. apply perm_swap.
Qed.

Lemma sort_desc_spec n l :
  sort_desc n l ≡ₚ l /\ ((length l <= n)%nat -> descending (sort_desc n l)).
Proof.
  revert l. induction n as [|n IH]; intros l.
  - simpl. split; [done|]. destruct l; simpl; [constructor|lia].
  - destruct l as [|x rest]; simpl; [split; [done|constructor]|].
    destruct (sort_pass x rest) as [h r] eqn:Hp.
    destruct (sort_pass_spec _ _ _ _ Hp) as (Hperm & _ & Hall).
    destruct (IH r) as [Hperm' Hsorted].
    split; [by rewrite Hperm'|].
    intros Hlen. constructor.
    + apply Hsorted. apply Permutation_length in Hperm. simpl in Hperm. lia.
    + by rewrite Hperm'.
Qed.

(** X15: the leaderboard.  With the leaderboard enabled, [updateTopReactors]
    leaves at most ten entries, one per user and no user twice, each with
    the number of reactions stored for that user, ordered by falling
    count; a user with stored reactions who is not on the board has no
    more reactions than any entry on it. *)
Theorem leaderboard_sorted (cfg : ReactionConfig)
    (userReactions : gmap string (list Reaction)) (old : list TopReactor) :
  EnableLeaderboard cfg = true ->
  let board := updateTopReactors cfg userReactions old in
  length board = Nat.min 10 (size userReactions)
  /\ descending board
  /\ NoDup (trUserID <$> board)
  /\ (forall t, t ∈ board ->
        exists rs, userReactions !! trUserID t = Some rs
                   /\ ReactionCount t = Z.of_nat (length rs))
  /\ (forall u rs, userReactions !! u = Some rs ->
        (exists t, t ∈ board /\ trUserID t = u)
        \/ (forall t, t ∈ board -> Z.of_nat (length rs) <= ReactionCount t)).
Proof.
  intros Hon board. subst board. unfold updateTopReactors. rewrite Hon. simpl.
  set (entry := fun e : string * list Reaction =>
                  {| trUserID := e.1;
                     trUserName := match e.2 with r :: _ => UserName r | [] => "" end;
                     ReactionCount := Z.of_nat (length e.2) |}).
  set (entries := entry <$> map_to_list userReactions).
  destruct (sort_desc_spec (length entries) entries) as [Hperm Hsorted].
  specialize (Hsorted (le_n _)).
  set (sorted := sort_desc (length entries) entries) in *.
  assert (Hentries : forall t, t ∈ entries <->
            exists u rs, userReactions !! u = Some rs /\ t = entry (u, rs)).
  { intros t. unfold entries. rewrite list_elem_of_fmap. split.
    - intros ([u rs] & -> & Hin). apply elem_of_map_to_list in Hin. by exists u, rs.
    - intros (u & rs & Hin & ->). exists (u, rs). split; [done|].
      by apply elem_of_map_to_list. }
  split; [|split; [|split; [|split]]].
  - rewrite length_take. apply Permutation_length in Hperm. rewrite Hperm.
    unfold entries. by rewrite length_fmap, length_map_to_list.
  - unfold descending in *. rewrite <- (take_drop 10 sorted) in Hsorted.
    by apply StronglySorted_app in Hsorted as (_ & ? & _).
  - rewrite fmap_take. eapply sublist_NoDup; [|apply sublist_take].
    rewrite Hperm. unfold entries. rewrite <- list_fmap_compose.
    apply NoDup_fst_map_to_list.
  - intros t Hin. apply subseteq_take in Hin. rewrite Hperm in Hin.
    apply Hentries in Hin as (u & rs & Hu & ->). by exists rs.
  - intros u rs Hu.
    assert (Hin : entry (u, rs) ∈ sorted).
    { rewrite Hperm. apply Hentries. by exists u, rs. }
    rewrite <- (take_drop 10 sorted) in Hin. apply elem_of_app in Hin as [Hin|Hin].
    + left. by exists (entry (u, rs)).
    + right. intros t Ht. unfold descending in Hsorted.
      rewrite <- (take_drop 10 sorted) in Hsorted.
      apply StronglySorted_app in Hsorted as (Hcross & _ & _).
      exact (Hcross t (entry (u, rs)) Ht Hin).
Qed.

Lemma leaderboard_sorted_sample :
  length (updateTopReactors defaultConfig two_fans []) = 2%nat
  /\ descending (updateTopReactors defaultConfig two_fans []).
Proof.
  destruct (leaderboard_sorted defaultConfig two_fans [] eq_refl) as (Hlen & Hsorted & _).
  split; [exact Hlen|exact Hsorted].
Defined.

(** *** What every reachable room satisfies *)

Lemma descending_take n board : descending board -> descending (take n board).
Proof.
  unfold descending. intros H. rewrite <- (take_drop n board) in H.
  by apply StronglySorted_app in H as (_ & ? & _).
Qed.

Lemma updateTopReactors_board cfg ur old :
  descending old -> (length old <= 10)%nat ->
  descending (updateTopReactors cfg ur old)
  /\ (length (updateTopReactors cfg ur old) <= 10)%nat.
Proof.
  intros Hold Hlen. unfold updateTopReactors.
  destruct (negb (EnableLeaderboard cfg)); [done|]. simpl. split.
  - apply descending_take. by apply sort_desc_spec.
  - rewrite length_take. lia.
Qed.

Lemma emptyRoom_ok cfg name t1 t2 : room_ok cfg (emptyRoom name t1 t2).
Proof.
  repeat split; simpl; try lia; try constructor.
Qed.

Lemma rooms_ok_set rs name room :
  rooms_ok rs -> room_ok (config rs) room -> rooms_ok (set_room rs name room).
Proof.
  intros Hrs Hroom n r. unfold set_room. simpl.
  destruct (decide (name = n)) as [->|Hne].
  - rewrite lookup_insert_eq. by intros [= <-].
  - rewrite lookup_insert_ne by done. apply Hrs.
Qed.

Lemma appendReaction_ok cfg room name userID userName ty pos clk :
  room_ok cfg room ->
  room_ok cfg (appendReaction cfg room name userID userName ty pos clk).1.
Proof.
  intros (Hidx & Hrecent & Hdesc & Hten).
  assert (Hindex : forall (stats : ReactionStats) limits r,
            UserID r = userID ->
            indexed_by_user
              {| roomName := roomName room; Reactions := Reactions room ++ [r];
                 Stats := stats;
                 UserReactions :=
                   <[userID := default [] (UserReactions room !! userID) ++ [r]]>
                     (UserReactions room);
                 RateLimits := limits; CreatedAt := CreatedAt room |}).
  { intros stats limits r Hr u. simpl. rewrite List.filter_app. simpl.
    unfold by_user at 2. rewrite Hr.
    destruct (decide (userID = u)) as [->|Hne].
    - rewrite lookup_insert_eq, bool_decide_eq_true_2 by done. simpl. by rewrite Hidx.
    - rewrite lookup_insert_ne, bool_decide_eq_false_2 by done.
      rewrite app_nil_r. apply Hidx. }
  unfold appendReaction.
  match goal with
  | |- context [MaxRecentReactions cfg <? ?n] =>
      destruct (Z.ltb_spec (MaxRecentReactions cfg) n) as [Hover|Hfits]
  end.
  - destruct (MaxRecentReactions cfg) as [|n|n] eqn:Hmax; simpl.
    + split; [by apply Hindex|]. split; [simpl; lia|].
      by apply updateTopReactors_board.
    + split; [by apply Hindex|]. split; [simpl; rewrite length_take; lia|].
      by apply updateTopReactors_board.
    + split; [by apply Hindex|]. split; [lia|]. by split.
  - simpl. split; [by apply Hindex|]. split; [simpl in *; lia|].
    by apply updateTopReactors_board.
Qed.

Lemma filter_comm {A} (f g : A -> bool) (l : list A) :
  List.filter f (List.filter g l) = List.filter g (List.filter f l).
Proof.
  induction l as [|x l IH]; simpl; [done|].
  destruct (f x) eqn:Hf, (g x) eqn:Hg; simpl; rewrite ?Hf, ?Hg, IH; done.
Qed.

Lemma sweepRoom_ok cfg cutoff room : room_ok cfg room -> room_ok cfg (sweepRoom cutoff room).
Proof.
  intros (Hidx & Hrecent & Hdesc & Hten). split; [|by repeat split].
  intros u. simpl. rewrite lookup_fmap.
  rewrite filter_comm, <- Hidx. by destruct (UserReactions room !! u).
Qed.

Lemma exec_ok rs c : rooms_ok rs -> rooms_ok (exec rs c) /\ config (exec rs c) = config rs.
Proof.
  intros Hrs. destruct c as [name t1 t2|name userID userName ty pos clk|now|name]; simpl.
  - unfold CreateReactionRoom. destruct (rooms rs !! name); [done|]. simpl.
    split; [|done]. apply rooms_ok_set; [done|apply emptyRoom_ok].
  - unfold SendReaction.
    assert (Hstart : exists rs1 room,
              match rooms rs !! name with
              | Some room => (rs, room)
              | None => (set_room rs name (emptyRoom name (rCreated clk) (rStatsInit clk)),
                         emptyRoom name (rCreated clk) (rStatsInit clk))
              end = (rs1, room)
              /\ rooms_ok rs1 /\ config rs1 = config rs /\ room_ok (config rs) room).
    { destruct (rooms rs !! name) as [room|] eqn:Hroom.
      - exists rs, room. split; [done|]. split; [done|]. split; [done|].
        by apply (Hrs name).
      - eexists. eexists. split; [reflexivity|]. split; [|split; [done|apply emptyRoom_ok]].
        apply rooms_ok_set; [done|apply emptyRoom_ok]. }
    destruct Hstart as (rs1 & room & -> & Hrs1 & Hcfg & Hroom).
    destruct (if EnableRateLimit (config rs) then _ else _); try done.
    pose proof (appendReaction_ok (config rs) room name userID userName ty pos clk Hroom)
      as Hnew.
    destruct (appendReaction (config rs) room name userID userName ty pos clk)
      as [room' [r|]]; simpl in *; (split; [|done]);
      apply rooms_ok_set; try done; by rewrite Hcfg.
  - split; [|done]. intros name room. simpl. rewrite lookup_fmap.
    destruct (rooms rs !! name) as [room0|] eqn:Hroom; [|discriminate].
    intros [= <-]. apply sweepRoom_ok. by apply (Hrs name).
  - split; [|done]. intros n room. unfold DeleteReactionRoom. simpl.
    intros [_ Hroom]%lookup_delete_Some. by apply (Hrs n).
Qed.

Lemma exec_all_ok rs calls :
  rooms_ok rs -> rooms_ok (exec_all rs calls) /\ config (exec_all rs calls) = config rs.
Proof.
  revert rs. induction calls as [|c calls IH]; intros rs Hrs; [done|].
  destruct (exec_ok rs c Hrs) as [Hok Hcfg].
  destruct (IH _ Hok) as [Hok' Hcfg']. split; [exact Hok'|]. simpl. congruence.
Qed.

Lemma new_service_ok cfg : rooms_ok (NewReactionService cfg).
Proof. intros name room. unfold NewReactionService. simpl. by rewrite lookup_empty. Qed.

(** X16: the per-user index agrees with the log.  In every state the
    engine reaches from a new service, [GetUserReactions] of a room
    answers the reactions of that user in the room's log, in log order;
    this holds across sweeps, room deletions and refused calls. *)
Theorem user_index_matches_log (cfg : option ReactionConfig) (calls : list call)
    (name userID : string) :
  let rs := exec_all (NewReactionService cfg) calls in
  GetUserReactions rs name userID
  = match rooms rs !! name with
    | None => Err ErrRoomNotFound
    | Some room => Ok (List.filter (by_user userID) (Reactions room))
    end.
Proof.
  intros rs. unfold GetUserReactions.
  destruct (rooms rs !! name) as [room|] eqn:Hroom; [|done].
  destruct (exec_all_ok (NewReactionService cfg) calls (new_service_ok cfg)) as [Hok _].
  destruct (Hok name room Hroom) as [Hidx _]. by rewrite Hidx.
Qed.

(** X17: the list of recent reactions is bounded.  With a configured
    [MaxRecentReactions] that is not negative, in every state reached from
    a new service the statistics of a room hold at most that many recent
    reactions, and the leaderboard that [GetTopReactors] answers for a
    non-negative [limit] has at most [limit] and at most ten entries, in
    falling order of count. *)
Theorem stats_lists_bounded (cfg : ReactionConfig) (calls : list call) (name : string)
    (room : ReactionRoom) :
  0 <= MaxRecentReactions cfg ->
  rooms (exec_all (NewReactionService (Some cfg)) calls) !! name = Some room ->
  Z.of_nat (length (RecentReactions (Stats room))) <= MaxRecentReactions cfg
  /\ forall limit, 0 <= limit ->
       exists board,
         GetTopReactors (exec_all (NewReactionService (Some cfg)) calls) name limit = Ok board
         /\ Z.of_nat (length board) <= Z.min limit 10
         /\ descending board.
Proof.
  intros Hmax Hroom.
  destruct (exec_all_ok (NewReactionService (Some cfg)) calls (new_service_ok _))
    as [Hok Hcfg].
  destruct (Hok name room Hroom) as (_ & Hrecent & Hdesc & Hten).
  rewrite Hcfg in Hrecent. split; [by apply Hrecent|].
  intros limit Hlimit. unfold GetTopReactors. rewrite Hroom. simpl.
  destruct (Z.ltb_spec limit (Z.of_nat (length (TopReactors (Stats room))))) as [Hlt|Hge].
  - destruct limit as [|n|n]; [| |lia]; eexists; (split; [reflexivity|]);
      (split; [rewrite length_take; lia|by apply descending_take]).
  - eexists. split; [reflexivity|]. split; [lia|done].
Qed.

Lemma stats_lists_bounded_sample :
  exists room,
    rooms (exec_all (NewReactionService (Some defaultConfig)) fan_calls) !! "r4" = Some room
    /\ Z.of_nat (length (RecentReactions (Stats room))) <= 100.
Proof.
  destruct (rooms (exec_all (NewReactionService (Some defaultConfig)) fan_calls) !! "r4")
    as [room|] eqn:Hroom; [|vm_compute in Hroom; discriminate].
  exists room. split; [reflexivity|].
  refine (proj1 (stats_lists_bounded defaultConfig fan_calls "r4" room _ Hroom)).
  vm_compute. discriminate.
Defined.

(** X18: a sweep removes the old reactions and nothing else.  The
    cut-off of [CleanupOldReactions] at clock reading [now] is [now] plus
    the [int64] negation of [ReactionTTL]: [now - ReactionTTL] for every
    duration but the smallest one, whose negation wraps to itself, so that
    the cut-off then lies 2^63 ns in the past.  After the sweep every room
    is still there with its statistics untouched (the totals keep counting
    the swept reactions), every reaction that [GetRecentReactions] returns
    is stamped after the cut-off, every reaction stamped after it is kept,
    and the count returned is zero exactly when no room held a reaction to
    remove. *)
Theorem sweep_keeps_fresh_only (rs : ReactionService) (now : Time) :
  let cutoff := now + wrap64 (- ReactionTTL (config rs)) in
  let rs' := (CleanupOldReactions rs now).1 in
  (min_int64 < ReactionTTL (config rs) <= max_int64 ->
   cutoff = now - ReactionTTL (config rs))
  /\ (ReactionTTL (config rs) = min_int64 -> cutoff = now - 2 ^ 63)
  /\ (forall name, GetReactionStats rs' name = GetReactionStats rs name)
  /\ (forall name room, rooms rs !! name = Some room ->
        exists room', rooms rs' !! name = Some room'
          /\ Reactions room' = List.filter (fun r => cutoff <? Timestamp r) (Reactions room)
          /\ RateLimits room' = RateLimits room)
  /\ (forall name limit found, GetRecentReactions rs' name limit = Ok found ->
        Forall (fun r => cutoff < Timestamp r) found)
  /\ ((CleanupOldReactions rs now).2 = 0
      <-> forall name room, rooms rs !! name = Some room ->
            Forall (fun r => cutoff < Timestamp r) (Reactions room)).
Proof.
  intros cutoff rs'. subst rs'. unfold CleanupOldReactions. simpl.
  change (Add now (wrap64 (- ReactionTTL (config rs)))) with cutoff.
  split; [intros Httl; subst cutoff; rewrite wrap64_small;
          unfold min_int64, max_int64 in *; lia|].
  split; [intros Httl; subst cutoff; rewrite Httl; reflexivity|].
  split; [|split; [|split]].
  - intros name. unfold GetReactionStats. simpl. rewrite lookup_fmap.
    by destruct (rooms rs !! name).
  - intros name room Hroom. exists (sweepRoom cutoff room).
    rewrite lookup_fmap, Hroom. done.
  - intros name limit found. unfold GetRecentReactions. simpl. rewrite lookup_fmap.
    destruct (rooms rs !! name) as [room|]; [|discriminate]. simpl. intros [= <-].
    apply Forall_take, Forall_forall. intros r Hin.
    apply list_elem_of_In, in_rev, filter_In in Hin as [_ Hfresh].
    unfold fresh, After in Hfresh. by apply Z.ltb_lt in Hfresh.
  - assert (Hsum : forall l : list (string * ReactionRoom),
              foldr (fun e n =>
                       Z.of_nat (length (List.filter (fun r => negb (fresh cutoff r))
                                           (Reactions e.2))) + n) 0 l = 0
              <-> Forall (fun e => Forall (fun r => cutoff < Timestamp r) (Reactions e.2)) l).
    { induction l as [|e l IH]; simpl; [split; [constructor|done]|].
      assert (Hrest : 0 <= foldr (fun e n =>
                       Z.of_nat (length (List.filter (fun r => negb (fresh cutoff r))
                                           (Reactions e.2))) + n) 0 l).
      { clear IH. induction l; simpl; lia. }
      rewrite Forall_cons, <- IH.
      assert (Hone : length (List.filter (fun r => negb (fresh cutoff r)) (Reactions e.2))
                     = 0%nat
                     <-> Forall (fun r => cutoff < Timestamp r) (Reactions e.2)).
      { rewrite length_zero_iff_nil. induction (Reactions e.2) as [|r rest IHr]; simpl.
        - split; [constructor|done].
        - unfold fresh at 1, After. destruct (Z.ltb_spec cutoff (Timestamp r)); simpl.
          + rewrite IHr, Forall_cons. tauto.
          + split; [discriminate|]. intros [? _]%Forall_cons. lia. }
      rewrite <- Hone. lia. }
    rewrite Hsum, Forall_forall. split.
    + intros H name room Hroom. apply (H (name, room)). by apply elem_of_map_to_list.
    + intros H [name room] Hin. apply elem_of_map_to_list in Hin. by apply (H name).
Qed.

(** With the smallest [ReactionTTL] the cut-off lies 2^63 ns before the
    sweep, and the sweep of the sample run at 10 s removes nothing. *)
Example sweep_smallest_ttl_keeps_all :
  (CleanupOldReactions
     (exec_all (NewReactionService (Some smallestTTL))
        [clap_call "bob" "Bob" (1 * Second); clap_call "alice" "Alice" (2 * Second)])
     (10 * Second)).2 = 0
  /\ (CleanupOldReactions
        (exec_all (NewReactionService (Some defaultConfig))
           [clap_call "bob" "Bob" (1 * Second); clap_call "alice" "Alice" (2 * Second)])
        (400 * Second)).2 = 2.
Proof. split; vm_compute; reflexivity. Qed.

(** *** The per-minute limit *)

Lemma updateRateLimit_record limits userID now :
  exists rl',
    updateRateLimit limits userID now !! userID = Some rl'
    /\ match limits !! userID with
       | None => Count rl' = 1 /\ WindowStart rl' = now
       | Some rl =>
           Sub now (WindowStart rl) < Minute ->
           Count rl' = int_incr (Count rl) /\ WindowStart rl' = WindowStart rl
       end.
Proof.
  unfold updateRateLimit. destruct (limits !! userID) as [rl|]; simpl.
  - destruct (Z.leb_spec Minute (Sub now (WindowStart rl))) as [Hge|Hlt];
      (eexists; split; [apply lookup_insert_eq|]); simpl; [lia|done].
  - unfold Sub. rewrite Z.sub_diag. simpl.
    eexists. split; [apply lookup_insert_eq|]. done.
Qed.

Lemma appendReaction_limits cfg room name userID userName ty pos clk :
  0 <= MaxRecentReactions cfg ->
  exists room' reaction,
    appendReaction cfg room name userID userName ty pos clk = (room', Some reaction)
    /\ RateLimits room' = updateRateLimit (RateLimits room) userID (rLimit clk).
Proof.
  intros Hmax. unfold appendReaction.
  destruct (MaxRecentReactions cfg <? _).
  - destruct (MaxRecentReactions cfg); try lia; eexists; eexists; by split.
  - eexists; eexists; by split.
Qed.

(** What a call of [SendReaction] does to its sender's rate-limit record. *)
Lemma SendReaction_limits rs name userID userName ty pos clk :
  EnableRateLimit (config rs) = true ->
  0 <= MaxRecentReactions (config rs) ->
  let res := SendReaction rs name userID userName ty pos clk in
  let old := rooms rs !! name ≫= fun room => RateLimits room !! userID in
  config res.1 = config rs
  /\ exists room',
       rooms res.1 !! name = Some room'
       /\ ((is_ok res.2 = false /\ is_Some old /\ RateLimits room' !! userID = old)
           \/ (is_ok res.2 = true
               /\ match old with
                  | None => True
                  | Some rl =>
                      ~ (Sub (rCheck clk) (WindowStart rl) < Minute
                         /\ MaxReactionsPerMinute (config rs) <= Count rl)
                  end
               /\ exists rl',
                    RateLimits room' !! userID = Some rl'
                    /\ match old with
                       | None => Count rl' = 1 /\ WindowStart rl' = rLimit clk
                       | Some rl =>
                           Sub (rLimit clk) (WindowStart rl) < Minute ->
                           Count rl' = int_incr (Count rl)
                           /\ WindowStart rl' = WindowStart rl
                       end)).
Proof.
  intros Hen Hmax res old. subst res old. unfold SendReaction. rewrite Hen.
  destruct (rooms rs !! name) as [room|] eqn:Hroom; simpl.
  - unfold checkRateLimit.
    destruct (RateLimits room !! userID) as [rl|] eqn:Hrl.
    + destruct (MaxReactionsPerSecond (config rs) =? 0);
        [split; [done|]; exists room; split; [done|]; left; by eauto|].
      destruct (Sub (rCheck clk) (LastReaction rl) <? _);
        [split; [done|]; exists room; split; [done|]; left; by eauto|].
      destruct (Z.ltb_spec (Sub (rCheck clk) (WindowStart rl)) Minute) as [Hw|Hw];
        destruct (Z.leb_spec (MaxReactionsPerMinute (config rs)) (Count rl)) as [Hc|Hc];
        simpl; try (split; [done|]; exists room; split; [done|]; left; by eauto).
      all: destruct (appendReaction_limits (config rs) room name userID userName ty pos clk
                       Hmax) as (room' & reaction & -> & Hlim);
        destruct (updateRateLimit_record (RateLimits room) userID (rLimit clk))
          as (rl' & Hrl' & Hfacts); rewrite Hrl in Hfacts;
        (split; [done|]); exists room'; simpl; rewrite lookup_insert_eq;
        (split; [done|]); right; (split; [done|]); (split; [lia|]);
        exists rl'; rewrite Hlim; by split.
    + destruct (appendReaction_limits (config rs) room name userID userName ty pos clk
                  Hmax) as (room' & reaction & -> & Hlim).
      destruct (updateRateLimit_record (RateLimits room) userID (rLimit clk))
        as (rl' & Hrl' & Hfacts). rewrite Hrl in Hfacts.
      split; [done|]. exists room'. simpl. rewrite lookup_insert_eq.
      split; [done|]. right. split; [done|]. split; [done|].
      exists rl'. rewrite Hlim. by split.
  - unfold checkRateLimit. simpl. rewrite lookup_empty.
    destruct (appendReaction_limits (config rs)
                (emptyRoom name (rCreated clk) (rStatsInit clk))
                name userID userName ty pos clk Hmax) as (room' & reaction & -> & Hlim).
    destruct (updateRateLimit_record
                (RateLimits (emptyRoom name (rCreated clk) (rStatsInit clk)))
                userID (rLimit clk)) as (rl' & Hrl' & Hfacts).
    simpl in Hfacts. rewrite lookup_empty in Hfacts.
    split; [done|]. exists room'. simpl. rewrite lookup_insert_eq.
    split; [done|]. right. split; [done|]. split; [done|].
    exists rl'. rewrite Hlim. by split.
Qed.

Lemma succeeded_cons o os :
  succeeded (o :: os) = ((if is_ok o then 1 else 0) + succeeded os)%nat.
Proof. unfold succeeded. simpl. by destruct (is_ok o). Qed.

Lemma serve_cons rs name q qs :
  (serve rs name (q :: qs)).2
  = (SendReaction rs name (reqUser q) (reqName q) (reqType q) (reqPosition q)
       (reqClock q)).2
    :: (serve (SendReaction rs name (reqUser q) (reqName q) (reqType q) (reqPosition q)
                 (reqClock q)).1 name qs).2.
Proof.
  simpl. destruct (SendReaction _ _ _ _ _ _ _) as [rs1 o]. cbn [fst snd].
  by destruct (serve rs1 name qs).
Qed.

Lemma Sub_lt_Minute (t w t0 : Time) : t < t0 + Minute -> t0 <= w -> Sub t w < Minute.
Proof.
  intros Ht Hw. unfold Sub.
  destruct (Z.ltb_spec max_int64 (t - w)); [unfold max_int64, Minute, Second in *; lia|].
  destruct (Z.ltb_spec (t - w) min_int64); [unfold min_int64, Minute, Second; lia|lia].
Qed.

(** Requests of a sender who has a record whose window began at or after
    [t0], all issued before [t0 + 1min]: the window never restarts, so the
    accepted ones are bounded by what the window has left. *)
Lemma serve_known name userID t0 qs : forall rs room rl,
  EnableRateLimit (config rs) = true ->
  0 <= MaxRecentReactions (config rs) ->
  MaxReactionsPerMinute (config rs) <= max_int64 ->
  rooms rs !! name = Some room ->
  RateLimits room !! userID = Some rl ->
  t0 <= WindowStart rl -> min_int64 <= Count rl ->
  Forall (fun q => reqUser q = userID /\ issued_within t0 (Minute - 1) q) qs ->
  Z.of_nat (succeeded (serve rs name qs).2)
  <= Z.max 0 (MaxReactionsPerMinute (config rs) - Count rl).
Proof.
  induction qs as [|q qs IH]; intros rs room rl Hen Hmax Hint Hroom Hrl Hw Hc Hqs.
  - simpl. unfold succeeded. simpl. lia.
  - apply Forall_cons in Hqs as [[Hu (Hc1 & Hc2 & Hl1 & Hl2)] Hqs].
    rewrite serve_cons, succeeded_cons. rewrite Hu.
    destruct (SendReaction_limits rs name userID (reqName q) (reqType q) (reqPosition q)
                (reqClock q) Hen Hmax) as (Hcfg & room' & Hroom' & Hcase).
    rewrite Hroom in Hcase. simpl in Hcase. rewrite Hrl in Hcase.
    set (res := SendReaction rs name userID (reqName q) (reqType q) (reqPosition q)
                  (reqClock q)) in *.
    destruct Hcase as [(Hno & _ & Hsame)|(Hyes & Hroomleft & rl' & Hrl' & Hfacts)].
    + rewrite Hno.
      specialize (IH res.1 room' rl). rewrite Hcfg in IH.
      specialize (IH Hen Hmax Hint Hroom' Hsame Hw Hc Hqs). lia.
    + rewrite Hyes.
      assert (Hin : Sub (rCheck (reqClock q)) (WindowStart rl) < Minute)
        by (apply (Sub_lt_Minute _ _ t0); lia).
      assert (Hin' : Sub (rLimit (reqClock q)) (WindowStart rl) < Minute)
        by (apply (Sub_lt_Minute _ _ t0); lia).
      destruct (Hfacts Hin') as [Hcount Hwindow].
      assert (Hbelow : Count rl < MaxReactionsPerMinute (config rs)) by lia.
      rewrite int_incr_small in Hcount by lia.
      specialize (IH res.1 room' rl'). rewrite Hcfg in IH.
      specialize (IH Hen Hmax Hint Hroom' Hrl'). rewrite Hwindow, Hcount in IH.
      specialize (IH Hw ltac:(lia) Hqs). lia.
Qed.

(** X19: the per-minute limit.  With rate limiting enabled, of the
    requests one sender issues within a minute of each other, served one
    after the other and starting with the sender's first reaction in the
    room, at most [MaxReactionsPerMinute] are accepted (one, when that
    limit is below one: the first reaction of a sender is never refused). *)
Theorem reaction_per_minute_limit (rs : ReactionService) (name userID : string)
    (t0 : Time) (qs : list request) :
  EnableRateLimit (config rs) = true ->
  0 <= MaxRecentReactions (config rs) ->
  MaxReactionsPerMinute (config rs) <= max_int64 ->
  first_time rs name userID ->
  Forall (fun q => reqUser q = userID /\ issued_within t0 (Minute - 1) q) qs ->
  Z.of_nat (succeeded (serve rs name qs).2)
  <= Z.max 1 (MaxReactionsPerMinute (config rs)).
Proof.
  intros Hen Hmax Hint Hfirst Hqs.
  destruct qs as [|q qs]; [unfold succeeded; simpl; lia|].
  apply Forall_cons in Hqs as [[Hu (Hc1 & Hc2 & Hl1 & Hl2)] Hqs].
  rewrite serve_cons, succeeded_cons. rewrite Hu.
  destruct (SendReaction_limits rs name userID (reqName q) (reqType q) (reqPosition q)
              (reqClock q) Hen Hmax) as (Hcfg & room' & Hroom' & Hcase).
  assert (Hold : rooms rs !! name ≫= (fun room => RateLimits room !! userID) = None).
  { destruct (rooms rs !! name) as [room|] eqn:Hroom; [|done]. simpl. by apply Hfirst. }
  rewrite Hold in Hcase.
  set (res := SendReaction rs name userID (reqName q) (reqType q) (reqPosition q)
                (reqClock q)) in *.
  destruct Hcase as [(_ & [? Hsome] & _)|(Hyes & _ & rl' & Hrl' & Hcount & Hwindow)];
    [discriminate|].
  rewrite Hyes.
  pose proof (serve_known name userID t0 qs res.1 room' rl') as Hrest.
  rewrite Hcfg, Hcount, Hwindow in Hrest.
  specialize (Hrest Hen Hmax Hint Hroom' Hrl' ltac:(lia) ltac:(unfold min_int64; lia) Hqs).
  lia.
Qed.

Lemma reaction_per_minute_limit_sample :
  Z.of_nat (succeeded (serve (NewReactionService (Some twoPerMinute)) "r4" three_hearts).2)
  <= Z.max 1 2.
Proof.
  refine (reaction_per_minute_limit (NewReactionService (Some twoPerMinute)) "r4" "alice"
            0 three_hearts eq_refl _ _ _ _).
  - vm_compute. discriminate.
  - vm_compute. discriminate.
  - intros room Hroom. vm_compute in Hroom. discriminate Hroom.
  - unfold three_hearts. repeat (apply Forall_cons_2; [vm_compute; intuition discriminate|]).
    apply Forall_nil_2.
Defined.

(** X28: deleting a room forgets everything about it.  After
    [DeleteReactionRoom] the room's statistics are gone, and the next
    [SendReaction] into that name (with a [MaxRecentReactions] that is not
    negative) is accepted whatever rate limits its sender had run into
    before: it opens a new room whose log and recent list hold just that
    reaction and whose total is one. *)
Theorem delete_room_resets (rs : ReactionService) (name userID userName : string)
    (ty : ReactionType) (pos : option ReactionPosition) (clk : ReactClock) :
  0 <= MaxRecentReactions (config rs) ->
  let rs1 := DeleteReactionRoom rs name in
  GetReactionStats rs1 name = Err ErrRoomNotFound
  /\ (forall other, other <> name -> rooms rs1 !! other = rooms rs !! other)
  /\ exists reaction room,
       (SendReaction rs1 name userID userName ty pos clk).2 = Ok reaction
       /\ UserID reaction = userID /\ Timestamp reaction = rStamp clk
       /\ rooms (SendReaction rs1 name userID userName ty pos clk).1 !! name = Some room
       /\ Reactions room = [reaction]
       /\ TotalReactions (Stats room) = 1
       /\ (0 < MaxRecentReactions (config rs) -> RecentReactions (Stats room) = [reaction])
       /\ CreatedAt room = rCreated clk.
Proof.
  intros Hmax rs1. subst rs1. unfold DeleteReactionRoom, GetReactionStats. simpl.
  rewrite lookup_delete_eq. split; [done|].
  split; [intros other Hne; by rewrite lookup_delete_ne|].
  unfold SendReaction. simpl. rewrite lookup_delete_eq.
  unfold checkRateLimit. simpl. rewrite lookup_empty.
  assert (Hcheck : (if EnableRateLimit (config rs) then Ok tt else Ok tt)
                   = (Ok tt : outcome ReactionError unit))
    by (by destruct (EnableRateLimit (config rs))).
  rewrite Hcheck. unfold appendReaction. simpl.
  change (Z.of_nat 1) with 1.
  destruct (Z.ltb_spec (MaxRecentReactions (config rs)) 1) as [Hzero|Hpos].
  - assert (Hm : MaxRecentReactions (config rs) = 0) by lia. rewrite Hm. simpl.
    eexists. eexists. split; [reflexivity|]. split; [reflexivity|].
    split; [reflexivity|]. split; [apply lookup_insert_eq|]. simpl.
    split; [reflexivity|]. split; [reflexivity|]. split; [lia|reflexivity].
  - simpl. eexists. eexists. split; [reflexivity|]. split; [reflexivity|].
    split; [reflexivity|]. split; [apply lookup_insert_eq|]. simpl.
    split; [reflexivity|]. split; [reflexivity|]. split; [reflexivity|reflexivity].
Qed.

Lemma delete_room_resets_sample :
  exists reaction room,
    (SendReaction (DeleteReactionRoom (serve rs0 "r4" four_hearts).1 "r4") "r4" "alice"
       "Alice" "heart" None (tick (100 * millisecond))).2 = Ok reaction
    /\ rooms (SendReaction (DeleteReactionRoom (serve rs0 "r4" four_hearts).1 "r4") "r4"
                "alice" "Alice" "heart" None (tick (100 * millisecond))).1 !! "r4"
       = Some room
    /\ Reactions room = [reaction].
Proof.
  destruct (delete_room_resets (serve rs0 "r4" four_hearts).1 "r4" "alice" "Alice" "heart"
              None (tick (100 * millisecond)))
    as (_ & _ & reaction & room & Hok & _ & _ & Hroom & Hlog & _).
  - vm_compute. discriminate.
  - exists reaction, room. split; [exact Hok|]. split; [exact Hroom|exact Hlog].
Defined.

End ReactionsMore.

(** ** The VOD engine: life of a recording, pages and sweeps *)

Module VODMore.
Import VOD.

(** X21: the life of a recording.  A recording just started cannot be
    played or published; it can be stopped once, a second stop is refused;
    once [processRecording] has run it is ready, with its video URL and the
    length and size given to [StopRecording]; without auto-publishing it is
    still refused to viewers until [PublishRecording], after which a
    playback session starts and the view count is one. *)
Theorem recording_lifecycle (vs : VODService)
    (roomName streamerID streamerName title userID quality : string) (clk : StartClock)
    (duration : Duration) (fileSize : Z) (nowProcessed nowPublished : Time)
    (pclk : PlayClock) :
  let id := recordingID streamerID clk in
  let vs1 := (StartRecording vs roomName streamerID streamerName title clk).1 in
  let vs2 := (StopRecording vs1 id duration fileSize).1 in
  let vs3 := processRecording vs2 id nowProcessed in
  let vs4 := (PublishRecording vs3 id nowPublished).1 in
  let vs5 := (StartPlaybackSession vs4 id userID quality pclk).1 in
  StartPlaybackSession vs1 id userID quality pclk = (vs1, Err ErrNotReadyForPlayback)
  /\ PublishRecording vs1 id nowPublished = (vs1, Err ErrNotReady)
  /\ (StopRecording vs1 id duration fileSize).2 = Ok tt
  /\ (forall d fs, StopRecording vs2 id d fs = (vs2, Err ErrNotRecording))
  /\ StartPlaybackSession vs2 id userID quality pclk = (vs2, Err ErrNotReadyForPlayback)
  /\ (exists rec,
        GetRecording vs3 id = Ok rec
        /\ Status rec = VODStatusReady
        /\ VideoURL rec = "/videos/" +:+ id +:+ ".mp4"
        /\ Duration_ rec = duration /\ FileSize rec = fileSize
        /\ IsPublic rec = AutoPublish (config vs))
  /\ (AutoPublish (config vs) = false ->
      StartPlaybackSession vs3 id userID quality pclk = (vs3, Err ErrNotPublic))
  /\ (PublishRecording vs3 id nowPublished).2 = Ok tt
  /\ (exists session rec,
        (StartPlaybackSession vs4 id userID quality pclk).2 = Ok session
        /\ RecordingID session = id /\ Completed session = false
        /\ playbackSessions vs5 !! sessionID session = Some session
        /\ GetRecording vs5 id = Ok rec
        /\ ViewCount rec = 1 /\ IsPublic rec = true
        /\ PublishedAt rec = Some nowPublished).
Proof.
  intros id vs1 vs2 vs3 vs4 vs5.
  subst vs5 vs4 vs3 vs2 vs1.
  unfold StartRecording. fold id. cbn [fst snd].
  unfold StopRecording, StartPlaybackSession, PublishRecording, processRecording,
    GetRecording, with_recordings.
  cbn [recordings config streamerRecordings playbackSessions fst snd].
  repeat (rewrite ?lookup_insert_eq, ?insert_insert_eq;
          cbn [recordings config streamerRecordings playbackSessions fst snd Status
               stopped processed published with_views negb bool_decide IsPublic]).
  rewrite ?bool_decide_eq_true_2, ?bool_decide_eq_false_2 by done.
  cbn [negb fst snd].
  repeat (rewrite ?lookup_insert_eq, ?insert_insert_eq, ?bool_decide_eq_true_2,
            ?bool_decide_eq_false_2 by done;
          cbn [recordings config streamerRecordings playbackSessions fst snd Status
               stopped processed published with_views negb IsPublic]).
  repeat split; try done.
  - eexists. repeat split.
  - intros ->. done.
  - eexists. eexists. repeat split. apply lookup_insert_eq.
Qed.

Lemma length_omap_le {A B} (f : A -> option B) (l : list A) :
  (length (omap f l) <= length l)%nat.
Proof.
  induction l as [|x l IH]; [done|].
  change (omap f (x :: l)) with (match f x with Some y => y :: omap f l | None => omap f l end).
  destruct (f x); simpl; lia.
Qed.

(** X22: pages of a streamer's recordings.  For an offset and a limit that
    are not negative (and whose sum is an [int]) [ListRecordingsByStreamer]
    returns, without panicking, at most [limit] recordings, each stored
    under an id of the streamer's index; ids of the index that are no
    longer stored are skipped.  A negative offset with a positive limit
    (both of them [int]s) panics as soon as the streamer has a recording
    indexed. *)
Theorem list_page_bounds (vs : VODService) (streamerID : string) (limit offset : Z) :
  (0 <= offset -> 0 <= limit -> offset + limit <= max_int64 ->
   exists page,
     ListRecordingsByStreamer vs streamerID limit offset = Ok page
     /\ Z.of_nat (length page) <= limit
     /\ Forall (fun r => exists id,
                  recordings vs !! id = Some r
                  /\ id ∈ default [] (streamerRecordings vs !! streamerID)) page)
  /\ (min_int64 <= offset < 0 -> 0 < limit <= max_int64 ->
      forall id ids, streamerRecordings vs !! streamerID = Some (id :: ids) ->
      ListRecordingsByStreamer vs streamerID limit offset = Panic).
Proof.
  unfold ListRecordingsByStreamer. split.
  - intros Hoffset Hlimit Hsum.
    destruct (streamerRecordings vs !! streamerID) as [ids|]; simpl;
      [|exists []; repeat split; [simpl; lia|constructor]].
    destruct (Z.leb_spec (Z.of_nat (length ids)) offset) as [Hpast|Hin];
      [exists []; repeat split; [simpl; lia|constructor]|].
    rewrite (wrap64_small (offset + limit)) by (unfold min_int64, max_int64 in *; lia).
    set (stop := if Z.of_nat (length ids) <? offset + limit
                 then Z.of_nat (length ids) else offset + limit).
    assert (Hstop : offset <= stop <= offset + limit).
    { subst stop. destruct (Z.ltb_spec (Z.of_nat (length ids)) (offset + limit)); lia. }
    destruct (Z.ltb_spec (stop - offset) 0) as [?|_]; [lia|].
    destruct (Z.ltb_spec offset 0) as [?|_]; [lia|]. simpl.
    eexists. split; [reflexivity|]. split.
    + etransitivity; [apply inj_le, length_omap_le|]. rewrite length_take. lia.
    + apply Forall_forall. intros r Hr.
      apply list_elem_of_omap in Hr as (id & Hid & Hrec).
      exists id. split; [exact Hrec|].
      apply subseteq_take in Hid. by apply subseteq_drop in Hid.
  - intros Hoffset Hlimit id ids ->.
    rewrite (wrap64_small (offset + limit)) by (unfold min_int64, max_int64 in *; lia).
    destruct (Z.leb_spec (Z.of_nat (length (id :: ids))) offset) as [Hpast|_];
      [simpl in Hpast; lia|].
    set (stop := if Z.of_nat (length (id :: ids)) <? offset + limit
                 then Z.of_nat (length (id :: ids)) else offset + limit).
    assert (Hstop : offset < stop).
    { subst stop.
      destruct (Z.ltb_spec (Z.of_nat (length (id :: ids))) (offset + limit));
        simpl in *; lia. }
    destruct (Z.ltb_spec (stop - offset) 0) as [?|_]; [lia|].
    destruct (Z.ltb_spec offset 0) as [_|?]; [|lia].
    destruct (Z.ltb_spec offset stop) as [_|?]; [|lia]. done.
Qed.

(** X23: a heartbeat keeps a session alive for the session timeout.
    After [UpdatePlaybackSession] at clock reading [t] the session
    survives every [CleanupStaleSessions] whose clock is at most
    [SessionTimeout] past [t], and is removed by the first one later than
    that; a heartbeat on a removed session is refused. *)
Theorem heartbeat_keeps_session (vs vs1 : VODService) (sid : string) (position : Duration)
    (t : Time) :
  UpdatePlaybackSession vs sid position t = (vs1, Ok tt) ->
  forall now,
    (Sub now t <= SessionTimeout (config vs) ->
     exists session,
       playbackSessions (CleanupStaleSessions vs1 now).1 !! sid = Some session
       /\ LastHeartbeat session = t /\ CurrentPosition session = position)
    /\ (SessionTimeout (config vs) < Sub now t ->
        playbackSessions (CleanupStaleSessions vs1 now).1 !! sid = None
        /\ forall position' now',
             UpdatePlaybackSession (CleanupStaleSessions vs1 now).1 sid position' now'
             = ((CleanupStaleSessions vs1 now).1, Err ErrSessionNotFound)).
Proof.
  unfold UpdatePlaybackSession.
  destruct (playbackSessions vs !! sid) as [session|] eqn:Hs; [|discriminate].
  intros [= <-] now. unfold CleanupStaleSessions, with_sessions.
  cbn [fst playbackSessions config]. split.
  - intros Hlive. eexists. split.
    + apply map_lookup_filter_Some. split; [apply lookup_insert_eq|].
      simpl. unfold stale. simpl. apply Z.ltb_ge. exact Hlive.
    + split; reflexivity.
  - intros Hdead.
    assert (Hgone : filter (fun e => stale (config vs) now e.2 = false)
                      (<[sid := {| sessionID := sessionID session;
                                   RecordingID := RecordingID session;
                                   UserID := UserID session;
                                   StartedAt := StartedAt session;
                                   LastHeartbeat := t; CurrentPosition := position;
                                   WatchDuration := Sub t (StartedAt session);
                                   Completed :=
                                     match recordings vs !! RecordingID session with
                                     | Some recording =>
                                         if (0 <? Duration_ recording)
                                            && watched_95 position (Duration_ recording)
                                         then true else Completed session
                                     | None => Completed session
                                     end;
                                   Quality := Quality session |}]>
                         (playbackSessions vs)) !! sid = None).
    { apply map_lookup_filter_None. right. intros s. rewrite lookup_insert_eq.
      intros [= <-]. simpl. unfold stale. simpl.
      destruct (Z.ltb_spec (SessionTimeout (config vs)) (Sub now t)); [done|lia]. }
    split; [exact Hgone|]. intros position' now'. cbn [playbackSessions].
    by rewrite Hgone.
Qed.

(** X24: the sweep of expired recordings.  [CleanupExpiredRecordings]
    removes the recordings whose expiry lies before the sweep's clock and
    keeps every other one unchanged, but leaves the per-streamer index as
    it was: the swept ids stay indexed, and the pages of
    [ListRecordingsByStreamer] skip them. *)
Theorem sweep_expired_recordings (vs : VODService) (now : Time) :
  let vs' := (CleanupExpiredRecordings vs now).1 in
  streamerRecordings vs' = streamerRecordings vs
  /\ (forall id,
        GetRecording vs' id
        = match recordings vs !! id with
          | Some r => if recording_expired now r then Err ErrRecordingNotFound else Ok r
          | None => Err ErrRecordingNotFound
          end)
  /\ (forall streamerID limit offset page,
        ListRecordingsByStreamer vs' streamerID limit offset = Ok page ->
        Forall (fun r => forall e, ExpiresAt r = Some e -> e >= now) page).
Proof.
  intros vs'. subst vs'. unfold CleanupExpiredRecordings, with_recordings.
  cbn [fst streamerRecordings recordings].
  assert (Hget : forall id,
            filter (fun e : string * VODRecording => recording_expired now e.2 = false)
              (recordings vs) !! id
            = match recordings vs !! id with
              | Some r => if recording_expired now r then None else Some r
              | None => None
              end).
  { intros id. destruct (recordings vs !! id) as [r|] eqn:Hr.
    - destruct (recording_expired now r) eqn:He.
      + apply map_lookup_filter_None. right. intros r' Hr'. simpl. congruence.
      + apply map_lookup_filter_Some. by split.
    - apply map_lookup_filter_None. by left. }
  split; [reflexivity|]. split.
  - intros id. unfold GetRecording. cbn [recordings]. rewrite Hget.
    destruct (recordings vs !! id) as [r|]; [|done]. by destruct (recording_expired now r).
  - intros streamerID limit offset page. unfold ListRecordingsByStreamer.
    cbn [streamerRecordings recordings].
    assert (Hkept : forall l : list string,
              Forall (fun r => forall e, ExpiresAt r = Some e -> e >= now)
                (omap (fun id =>
                         filter (fun e : string * VODRecording =>
                                   recording_expired now e.2 = false)
                           (recordings vs) !! id) l)).
    { intros l. apply Forall_forall. intros r Hr.
      apply list_elem_of_omap in Hr as (id & _ & Hrec). rewrite Hget in Hrec.
      destruct (recordings vs !! id) as [r'|]; [|discriminate].
      destruct (recording_expired now r') eqn:He; [discriminate|].
      injection Hrec as ->. intros e Hexp. unfold recording_expired in He.
      rewrite Hexp in He. unfold After in He. apply Z.ltb_ge in He. lia. }
    destruct (streamerRecordings vs !! streamerID) as [ids|];
      [|intros [= <-]; constructor].
    repeat match goal with
           | |- context [if ?b then _ else _] => destruct b
           end;
      try discriminate; intros [= <-]; first [by constructor|apply Hkept].
Qed.

Lemma heartbeat_keeps_session_sample :
  exists session,
    playbackSessions
      (CleanupStaleSessions (UpdatePlaybackSession vs_playing sid1 (50 * Second) 10000).1
         20000).1 !! sid1 = Some session
    /\ LastHeartbeat session = 10000.
Proof.
  destruct (proj1 (heartbeat_keeps_session vs_playing
                     (UpdatePlaybackSession vs_playing sid1 (50 * Second) 10000).1
                     sid1 (50 * Second) 10000 ltac:(vm_compute; reflexivity) 20000))
    as (session & Hs & Hbeat & _).
  - vm_compute. discriminate.
  - exists session. split; [exact Hs|exact Hbeat].
Defined.

End VODMore.

(** ** The analytics engine: counters, timeline and the end of a stream *)

Module AnalyticsMore.
Import Analytics.

Lemma record_ok_mono cfg k k' a : k <= k' -> record_ok cfg k a -> record_ok cfg k' a.
Proof. unfold record_ok. intros Hk (? & ? & ? & ? & ?). repeat split; lia. Qed.

Lemma calculateMetrics_ok cfg k a sessions now :
  record_ok cfg k a -> record_ok cfg k (calculateMetrics a sessions now).
Proof. intros H. exact H. Qed.

Lemma refreshed_ok cfg k s name a now :
  record_ok cfg k a -> record_ok cfg k (refreshed s name a now).
Proof.
  unfold refreshed. destruct (viewerSessions s !! name); [apply calculateMetrics_ok|done].
Qed.

Lemma records_ok_insert (recs : gmap string StreamAnalytics) cfg k name a :
  (forall n r, recs !! n = Some r -> record_ok cfg k r) ->
  record_ok cfg (k + 1) a ->
  forall n r, <[name := a]> recs !! n = Some r -> record_ok cfg (k + 1) r.
Proof.
  intros Hrecs Ha n r. destruct (decide (name = n)) as [->|Hne].
  - rewrite lookup_insert_eq. by intros [= <-].
  - rewrite lookup_insert_ne by done. intros Hr.
    apply (record_ok_mono cfg k); [lia|by apply (Hrecs n)].
Qed.

Lemma exec_records_ok s c k :
  0 <= k -> k + 1 < max_int64 ->
  records_ok s k -> records_ok (exec s c) (k + 1) /\ config (exec s c) = config s.
Proof.
  intros Hk0 Hk Hs.
  assert (Hkeep : records_ok s (k + 1)).
  { intros n r Hr. apply (record_ok_mono _ k); [lia|by apply (Hs n)]. }
  destruct c as [name streamer t1 t2|name t1 t2|name viewer p d c r t|name viewer t
                |name sender|name sender ty|name bitrate|name t|name t1 t2|cutoff]; simpl.
  - unfold StartStreamAnalytics. destruct (streamAnalytics s !! name); [done|]. simpl.
    split; [|done]. intros n r. simpl. apply (records_ok_insert _ _ k); [exact Hs|].
    unfold record_ok. simpl. repeat split; lia.
  - unfold StopStreamAnalytics.
    destruct (streamAnalytics s !! name) as [a|] eqn:Ha; [|done]. simpl.
    split; [|done]. intros n r. simpl. apply (records_ok_insert _ _ k); [exact Hs|].
    apply refreshed_ok. apply (record_ok_mono _ k); [lia|]. exact (Hs name a Ha).
  - unfold RecordViewerJoin.
    destruct (streamAnalytics s !! name) as [a|] eqn:Ha; [|done]. simpl.
    split; [|done]. intros n r0. simpl. apply (records_ok_insert _ _ k); [exact Hs|].
    destruct (Hs name a Ha) as (Hc & Hp & Hu & Ht & Hl).
    unfold record_ok, joined. simpl.
    rewrite !int_incr_small by (unfold min_int64 in *; lia).
    destruct (negb (has_completed_session _ viewer));
      rewrite ?int_incr_small by (unfold min_int64 in *; lia);
      destruct (Z.ltb_spec (PeakViewers a) (CurrentViewers a + 1));
      repeat split; lia.
  - unfold RecordViewerLeave.
    destruct (streamAnalytics s !! name) as [a|] eqn:Ha; [|done].
    destruct (viewerSessions s !! name) as [sessions|]; [|done].
    destruct (sessions !! viewer); [|done]. simpl.
    split; [|done]. intros n r0. simpl. apply (records_ok_insert _ _ k); [exact Hs|].
    destruct (Hs name a Ha) as (Hc & Hp & Hu & Ht & Hl).
    unfold record_ok. simpl.
    destruct (Z.eq_dec (CurrentViewers a) 0) as [Hz|Hnz].
    + rewrite Hz. change (int_decr 0 <? 0) with true. simpl. repeat split; lia.
    + rewrite int_decr_small by (unfold min_int64, max_int64 in *; lia).
      destruct (Z.ltb_spec (CurrentViewers a - 1) 0); repeat split; lia.
  - unfold RecordChatMessage.
    destruct (streamAnalytics s !! name) as [a|] eqn:Ha; [|done]. simpl.
    split; [|done]. intros n r0. simpl. apply (records_ok_insert _ _ k); [exact Hs|].
    apply (record_ok_mono _ k); [lia|]. exact (Hs name a Ha).
  - unfold RecordReaction.
    destruct (streamAnalytics s !! name) as [a|] eqn:Ha; [|done]. simpl.
    split; [|done]. intros n r0. simpl. apply (records_ok_insert _ _ k); [exact Hs|].
    apply (record_ok_mono _ k); [lia|]. exact (Hs name a Ha).
  - unfold RecordBitrateUpdate.
    destruct (streamAnalytics s !! name) as [a|] eqn:Ha; [|done].
    destruct (PeakBitrate a <? bitrate); [|done]. simpl.
    split; [|done]. intros n r0. simpl. apply (records_ok_insert _ _ k); [exact Hs|].
    apply (record_ok_mono _ k); [lia|]. exact (Hs name a Ha).
  - unfold GetStreamAnalytics.
    destruct (streamAnalytics s !! name) as [a|] eqn:Ha; [|done]. simpl.
    split; [|done]. intros n r0. simpl. apply (records_ok_insert _ _ k); [exact Hs|].
    apply refreshed_ok. apply (record_ok_mono _ k); [lia|]. exact (Hs name a Ha).
  - unfold sample.
    destruct (streamAnalytics s !! name) as [a|] eqn:Ha; [|done]. simpl.
    split; [|done]. intros n r0. simpl. apply (records_ok_insert _ _ k); [exact Hs|].
    apply refreshed_ok.
    destruct (Hs name a Ha) as (Hc & Hp & Hu & Ht & Hl).
    unfold record_ok. simpl. repeat split; try lia.
    destruct (Z.ltb_spec (MaxTimelinePoints (config s))
                (Z.of_nat (length (ViewerTimeline a ++
                   [{| tsTimestamp := t1;
                       Value := float64_of_int (CurrentViewers a) |}])))) as [Hover|Hfits].
    + rewrite length_drop, length_app. simpl. lia.
    + lia.
  - split; [|done]. intros n r0. simpl. intros [Hr _]%map_lookup_filter_Some.
    by apply (Hkeep n).
Qed.

Lemma exec_all_records_ok calls : forall s k,
  0 <= k -> k + Z.of_nat (length calls) < max_int64 ->
  records_ok s k ->
  records_ok (exec_all s calls) (k + Z.of_nat (length calls))
  /\ config (exec_all s calls) = config s.
Proof.
  induction calls as [|c calls IH]; intros s k Hk0 Hk Hs.
  - simpl. rewrite Z.add_0_r. done.
  - simpl length in *. rewrite Nat2Z.inj_succ in *.
    destruct (exec_records_ok s c k Hk0 ltac:(lia) Hs) as [Hs1 Hcfg1].
    destruct (IH (exec s c) (k + 1) ltac:(lia) ltac:(lia) Hs1) as [Hs2 Hcfg2].
    simpl. split; [|congruence].
    replace (k + Z.succ (Z.of_nat (length calls)))
      with (k + 1 + Z.of_nat (length calls)) by lia.
    exact Hs2.
Qed.

(** X25: the viewer counters stay in order and the timeline stays
    bounded.  In every state reached from a new service by a run of calls
    (fewer than the largest [int]), each stream record has
    [0 <= current <= peak <= total], [0 <= unique <= total], a total no
    larger than the number of calls, and a viewer timeline of at most
    [MaxTimelinePoints] points. *)
Theorem viewer_counters_ordered (cfg : AnalyticsConfig) (calls : list call)
    (name : string) (a : StreamAnalytics) :
  Z.of_nat (length calls) < max_int64 ->
  streamAnalytics (exec_all (NewAnalyticsService (Some cfg)) calls) !! name = Some a ->
  0 <= CurrentViewers a <= PeakViewers a
  /\ PeakViewers a <= TotalViewers a
  /\ 0 <= UniqueViewers a <= TotalViewers a
  /\ TotalViewers a <= Z.of_nat (length calls)
  /\ Z.of_nat (length (ViewerTimeline a)) <= Z.max 0 (MaxTimelinePoints cfg).
Proof.
  intros Hlen Ha.
  destruct (exec_all_records_ok calls (NewAnalyticsService (Some cfg)) 0 ltac:(lia)
              ltac:(lia)) as [Hok Hcfg].
  { intros n r. simpl. by rewrite lookup_empty. }
  specialize (Hok name a Ha). rewrite Hcfg in Hok. exact Hok.
Qed.

Lemma viewer_counters_ordered_sample :
  exists a,
    streamAnalytics (exec_all (NewAnalyticsService (Some defaultConfig)) busy_calls) !! "r3"
    = Some a
    /\ 0 <= CurrentViewers a <= PeakViewers a
    /\ PeakViewers a <= TotalViewers a.
Proof.
  destruct (streamAnalytics (exec_all (NewAnalyticsService (Some defaultConfig)) busy_calls)
              !! "r3") as [a|] eqn:Ha; [|vm_compute in Ha; discriminate].
  exists a. split; [reflexivity|].
  destruct (viewer_counters_ordered defaultConfig busy_calls "r3" a) as (Hc & Hp & _).
  - vm_compute. reflexivity.
  - exact Ha.
  - split; [exact Hc|exact Hp].
Defined.

Lemma refreshed_fields s name a now :
  EndTime (refreshed s name a now) = EndTime a
  /\ Duration_ (refreshed s name a now) = Duration_ a
  /\ TotalViewers (refreshed s name a now) = TotalViewers a
  /\ StartTime (refreshed s name a now) = StartTime a.
Proof. unfold refreshed. by destruct (viewerSessions s !! name). Qed.

(** X26: the end of a stream.  [StopStreamAnalytics] on a started stream
    stamps the end time and the duration, and closes every session of the
    room: the open ones get the stop's clock reading as leave time and
    their watch duration up to it, the closed ones stay as they were.
    The record stays in place, so starting the stream again is refused;
    joins are still accepted and counted after the end. *)
Theorem stop_closes_sessions (s : AnalyticsService) (name : string) (now nowUpdated : Time)
    (a : StreamAnalytics) :
  streamAnalytics s !! name = Some a ->
  let s' := (StopStreamAnalytics s name now nowUpdated).1 in
  (StopStreamAnalytics s name now nowUpdated).2 = Ok tt
  /\ (exists a',
        streamAnalytics s' !! name = Some a'
        /\ EndTime a' = Some now /\ Duration_ a' = Sub now (StartTime a)
        /\ TotalViewers a' = TotalViewers a)
  /\ Forall (fun v => is_Some (LeftAt v)) (GetViewerSessions s' name)
  /\ (forall sessions key v,
        viewerSessions s !! name = Some sessions -> sessions !! key = Some v ->
        exists sessions',
          viewerSessions s' !! name = Some sessions'
          /\ sessions' !! key
             = Some (match LeftAt v with Some _ => v | None => closed v now end))
  /\ (forall streamer t1 t2,
        StartStreamAnalytics s' name streamer t1 t2 = (s', Err ErrAlreadyStarted))
  /\ (forall viewer p d c r t,
        exists a'',
          (RecordViewerJoin s' name viewer p d c r t).2 = Ok tt
          /\ streamAnalytics (RecordViewerJoin s' name viewer p d c r t).1 !! name = Some a''
          /\ TotalViewers a'' = int_incr (TotalViewers a)).
Proof.
  intros Ha s'. subst s'. unfold StopStreamAnalytics. rewrite Ha.
  cbn [fst snd streamAnalytics viewerSessions].
  match goal with
  | |- context [<[name := refreshed ?s1 name ?a1 nowUpdated]> _] =>
      destruct (refreshed_fields s1 name a1 nowUpdated) as (He & Hd & Ht & _);
      set (a' := refreshed s1 name a1 nowUpdated) in *
  end.
  simpl in He, Hd, Ht.
  split; [done|]. split; [exists a'; by rewrite lookup_insert_eq|].
  split; [|split; [|split]].
  - unfold GetViewerSessions. cbn [viewerSessions].
    destruct (viewerSessions s !! name) as [sessions|] eqn:Hss.
    + rewrite lookup_insert_eq. apply Forall_forall. intros v Hv.
      apply list_elem_of_fmap in Hv as ([key v'] & -> & Hin).
      apply elem_of_map_to_list in Hin. rewrite lookup_fmap in Hin.
      destruct (sessions !! key) as [v0|]; [|discriminate]. injection Hin as <-.
      simpl. unfold close_open. destruct (LeftAt v0) eqn:Hleft; simpl; by eauto.
    + rewrite Hss. constructor.
  - intros sessions key v Hss Hv. rewrite Hss. eexists.
    split; [apply lookup_insert_eq|]. rewrite lookup_fmap, Hv. done.
  - intros streamer t1 t2. unfold StartStreamAnalytics. cbn [streamAnalytics].
    by rewrite lookup_insert_eq.
  - intros viewer p d c r t. unfold RecordViewerJoin. cbn [streamAnalytics].
    rewrite lookup_insert_eq. cbn [fst snd streamAnalytics].
    eexists. split; [done|]. split; [apply lookup_insert_eq|]. simpl. by rewrite Ht.
Qed.

Lemma stop_closes_sessions_sample :
  Forall (fun v => is_Some (LeftAt v))
    (GetViewerSessions
       (StopStreamAnalytics
          (exec_all (NewAnalyticsService None)
             [CallStart "r3" "streamer" 0 0;
              CallJoin "r3" "alice" "web" "laptop" "VN" "SG" 10;
              CallJoin "r3" "bob" "web" "phone" "VN" "SG" 20;
              CallLeave "r3" "alice" 30])
          "r3" 60 60).1 "r3").
Proof.
  destruct (streamAnalytics
              (exec_all (NewAnalyticsService None)
                 [CallStart "r3" "streamer" 0 0;
                  CallJoin "r3" "alice" "web" "laptop" "VN" "SG" 10;
                  CallJoin "r3" "bob" "web" "phone" "VN" "SG" 20;
                  CallLeave "r3" "alice" 30]) !! "r3") as [a|] eqn:Ha;
    [|vm_compute in Ha; discriminate].
  exact (proj1 (proj2 (proj2 (stop_closes_sessions _ "r3" 60 60 a Ha)))).
Defined.

(** X29: the retention sweep.  [CleanupOldAnalytics] keeps, with their
    sessions, the streams that are still running and those that ended at
    or after the cut-off; it removes a stream that ended before the
    cut-off together with its sessions, after which the stream can be
    started anew. *)
Theorem cleanup_spares_running_streams (s : AnalyticsService) (cutoff : Time)
    (name : string) (a : StreamAnalytics) :
  streamAnalytics s !! name = Some a ->
  let s' := (CleanupOldAnalytics s cutoff).1 in
  match EndTime a with
  | None =>
      streamAnalytics s' !! name = Some a
      /\ viewerSessions s' !! name = viewerSessions s !! name
  | Some e =>
      (cutoff <= e ->
       streamAnalytics s' !! name = Some a
       /\ viewerSessions s' !! name = viewerSessions s !! name)
      /\ (e < cutoff ->
          streamAnalytics s' !! name = None /\ viewerSessions s' !! name = None
          /\ forall streamer t1 t2,
               (StartStreamAnalytics s' name streamer t1 t2).2 <> Err ErrAlreadyStarted)
  end.
Proof.
  intros Ha s'. subst s'. unfold CleanupOldAnalytics. cbn [fst streamAnalytics viewerSessions].
  assert (Hkept : outdated cutoff a = false ->
            filter (fun e : string * StreamAnalytics => outdated cutoff e.2 = false)
              (streamAnalytics s) !! name = Some a
            /\ filter (fun e : string * gmap string ViewerSession =>
                         filter (fun e0 : string * StreamAnalytics =>
                                   outdated cutoff e0.2 = true) (streamAnalytics s)
                           !! e.1 = None)
                 (viewerSessions s) !! name = viewerSessions s !! name).
  { intros Hout. split; [by apply map_lookup_filter_Some|].
    assert (Hold : filter (fun e0 : string * StreamAnalytics =>
                             outdated cutoff e0.2 = true) (streamAnalytics s) !! name = None).
    { apply map_lookup_filter_None. right. intros a' Ha'. simpl. congruence. }
    destruct (viewerSessions s !! name) as [ss|] eqn:Hss.
    - by apply map_lookup_filter_Some.
    - apply map_lookup_filter_None. by left. }
  assert (Hgone : outdated cutoff a = true ->
            filter (fun e : string * StreamAnalytics => outdated cutoff e.2 = false)
              (streamAnalytics s) !! name = None
            /\ filter (fun e : string * gmap string ViewerSession =>
                         filter (fun e0 : string * StreamAnalytics =>
                                   outdated cutoff e0.2 = true) (streamAnalytics s)
                           !! e.1 = None)
                 (viewerSessions s) !! name = None).
  { intros Hout. split.
    - apply map_lookup_filter_None. right. intros a' Ha'. simpl. congruence.
    - apply map_lookup_filter_None. right. intros ss _. simpl.
      assert (Hold : filter (fun e0 : string * StreamAnalytics =>
                               outdated cutoff e0.2 = true) (streamAnalytics s) !! name
                     = Some a) by (by apply map_lookup_filter_Some).
      rewrite Hold. discriminate. }
  destruct (EndTime a) as [e|] eqn:Hend;
    [|apply Hkept; unfold outdated; by rewrite Hend].
  split.
  - intros He. apply Hkept. unfold outdated, Before. rewrite Hend. by apply Z.ltb_ge.
  - intros He.
    destruct Hgone as [Hrec Hss];
      [unfold outdated, Before; rewrite Hend; by apply Z.ltb_lt|].
    split; [exact Hrec|]. split; [exact Hss|].
    intros streamer t1 t2. unfold StartStreamAnalytics. cbn [streamAnalytics].
    rewrite Hrec. discriminate.
Qed.

Lemma cleanup_spares_running_streams_sample :
  exists a,
    streamAnalytics (exec_all (NewAnalyticsService None) busy_calls) !! "r3" = Some a
    /\ EndTime a = Some 60
    /\ streamAnalytics
         (CleanupOldAnalytics (exec_all (NewAnalyticsService None) busy_calls) 100).1 !! "r3"
       = None.
Proof.
  destruct (streamAnalytics (exec_all (NewAnalyticsService None) busy_calls) !! "r3")
    as [a|] eqn:Ha; [|vm_compute in Ha; discriminate].
  assert (Hend : EndTime a = Some 60).
  { vm_compute in Ha. injection Ha as <-. reflexivity. }
  exists a. split; [reflexivity|]. split; [exact Hend|].
  pose proof (cleanup_spares_running_streams _ 100 "r3" a Ha) as H.
  cbv zeta in H. rewrite Hend in H.
  exact (proj1 (proj2 H ltac:(lia))).
Defined.

End AnalyticsMore.
